(** * dive-deco-ts: the Buhlmann ZH-L16C decompression engine

    A shallow embedding of the TypeScript sources (depth.ts, time.ts, gas.ts,
    oxTox.ts, buhlmannConfig.ts, zhlValues.ts, compartment.ts, decoModel.ts,
    buhlmannModel.ts) and the properties of the engine proved about it.

    Numbers.  A JavaScript [number] is an IEEE 754 binary64 value, which is
    what Rocq's primitive [float] is: [+], [-], [*], [/] and the comparisons
    below are the operations the engine executes, including division by zero
    (an infinity or NaN, never an exception) and comparisons with NaN (always
    false).  Decimal literals are rounded to the nearest binary64 value, as
    the JavaScript parser does.

    Objects.  Every method of [BuhlmannModel] is a state transformer on the
    receiver [this] that may return, throw, or run out of fuel; the state
    survives a throw, as a JavaScript object does.  A method call on another
    object (the forked simulation model) threads that object explicitly. *)

From Stdlib Require Import Floats ZArith List Bool Arith Lia String.
Import ListNotations.

Set Warnings "-inexact-float".

(* ------------------------------------------------------------------ *)
(** ** JavaScript built-ins used by the engine *)

(** [Math.pow] is implementation-approximated in ECMAScript, so the engine is
    embedded over an arbitrary implementation of it. *)
Class JSMath := { Math_pow : float -> float -> float }.

Module Math.
Local Open Scope float_scope.

Definition two52 : float := 4503599627370496.

(** Nearest integer (ties to even) of a value below 2^52 in magnitude. *)
Definition rint (x : float) : float :=
  if 0 <=? x then (x + two52) - two52 else (x - two52) + two52.

(** [Math.floor], [Math.ceil], [Math.round], up to the sign of a zero result. *)
Definition floor (x : float) : float :=
  if abs x <? two52 then let r := rint x in if x <? r then r - 1 else r
  else x.

Definition ceil (x : float) : float :=
  if abs x <? two52 then let r := rint x in if r <? x then r + 1 else r
  else x.

Definition round (x : float) : float :=
  let f := floor x in if 0.5 <=? x - f then f + 1 else f.

Definition abs (x : float) : float := PrimFloat.abs x.

(** [Math.max] of two numbers: NaN when either is NaN. *)
Definition max (a b : float) : float :=
  if is_nan a || is_nan b then nan else if a <? b then b else a.
End Math.

(* ------------------------------------------------------------------ *)
(** ** mathUtils.ts *)

Module MathUtils.
Local Open Scope float_scope.

(** [Math.min] of two numbers: NaN when either is NaN; of two zeros, one
    of them. *)
Definition min (a b : float) : float :=
  if is_nan a || is_nan b then nan else if b <? a then b else a.

Definition max (a b : float) : float := Math.max a b.

(** Clamp value between min and max. *)
Definition clamp (value minVal maxVal : float) : float :=
  min (max value minVal) maxVal.

End MathUtils.

(* ------------------------------------------------------------------ *)
(** ** depth.ts and time.ts *)

Record Depth := mkDepth { asMeters : float }.
Record Time := mkTime { asSeconds : float }.

Module DepthM.
Local Open Scope float_scope.
Definition zero : Depth := mkDepth 0.
Definition fromMeters (val : float) : Depth := mkDepth val.
Definition ftToM (ft : float) : float := ft * 0.3048.
Definition mToFt (m : float) : float := m * 3.28084.
Definition fromFeet (val : float) : Depth := mkDepth (ftToM val).
Definition asFeet (d : Depth) : float := mToFt (asMeters d).
Definition add (a b : Depth) : Depth := mkDepth (asMeters a + asMeters b).
Definition subtract (a b : Depth) : Depth := mkDepth (asMeters a - asMeters b).
Definition multiply (a : Depth) (k : float) : Depth := mkDepth (asMeters a * k).
Definition equals (a b : Depth) : bool := asMeters a =? asMeters b.
Definition lessThan (a b : Depth) : bool := asMeters a <? asMeters b.
Definition lessThanOrEqual (a b : Depth) : bool := asMeters a <=? asMeters b.
Definition greaterThan (a b : Depth) : bool := asMeters b <? asMeters a.
Definition greaterThanOrEqual (a b : Depth) : bool := asMeters b <=? asMeters a.
End DepthM.

Module TimeM.
Local Open Scope float_scope.
Definition zero : Time := mkTime 0.
Definition fromSeconds (val : float) : Time := mkTime val.
Definition fromMinutes (val : float) : Time := mkTime (val * 60).
Definition asMinutes (t : Time) : float := asSeconds t / 60.
Definition add (a b : Time) : Time := mkTime (asSeconds a + asSeconds b).
Definition subtract (a b : Time) : Time := mkTime (asSeconds a - asSeconds b).
Definition multiply (a : Time) (k : float) : Time := mkTime (asSeconds a * k).
Definition equals (a b : Time) : bool := asSeconds a =? asSeconds b.
End TimeM.

(* ------------------------------------------------------------------ *)
(** ** types.ts *)

Inductive NDLType := NDL_Actual | NDL_ByCeiling.
Inductive CeilingType := Actual | Adaptive.
Inductive DecoStageType := Ascent | DecoStop | GasSwitch.

Record PartialPressures := mkPP { pp_o2 : float; pp_n2 : float; pp_he : float }.

Record ConfigValidationError := mkCfgErr { field : string; reason : string }.

(** Every exception the engine raises. *)
Inductive Error :=
| InvalidO2
| InvalidHe
| InvalidTotal
| ConfigError (e : ConfigValidationError)
| DepthNegative
| DepthTooDeep
| EmptyGasList
| CurrentGasNotInList
| TypeError.

(** The outcome of a call: a value, an exception, or fuel exhausted (the call
    had not returned within the given number of loop iterations). *)
Inductive Res (A : Type) :=
| Ok (a : A)
| Throw (e : Error)
| OutOfFuel.
Arguments Ok {A} a.
Arguments Throw {A} e.
Arguments OutOfFuel {A}.

(* ------------------------------------------------------------------ *)
(** ** gas.ts *)

Record Gas := mkGas { o2Pp : float; n2Pp : float; hePp : float }.

Module GasM.
Local Open Scope float_scope.

Definition ALVEOLI_WATER_VAPOR_PRESSURE : float := 0.0627.

(** The constructor, with its three validations. *)
Definition new (o2 he : float) : Res Gas :=
  if (o2 <? 0) || (1 <? o2) then Throw InvalidO2
  else if (he <? 0) || (1 <? he) then Throw InvalidHe
  else if 1 <? o2 + he then Throw InvalidTotal
  else Ok (mkGas o2 (Math.round ((1 - (o2 + he)) * 10000) / 10000) he).

(** [new Gas(0.21, 0)]. *)
Definition air : Gas :=
  Eval vm_compute in
    match new 0.21 0 with Ok g => g | _ => mkGas nan nan nan end.

Definition gasPressuresCompound (g : Gas) (gasPressure : float) : PartialPressures :=
  mkPP (o2Pp g * gasPressure) (n2Pp g * gasPressure) (hePp g * gasPressure).

Definition partialPressures (g : Gas) (depth : Depth) (surfacePressure : float)
  : PartialPressures :=
  gasPressuresCompound g (surfacePressure / 1000 + asMeters depth / 10).

Definition inspiredPartialPressures (g : Gas) (depth : Depth) (surfacePressure : float)
  : PartialPressures :=
  gasPressuresCompound g
    (surfacePressure / 1000 + asMeters depth / 10 - ALVEOLI_WATER_VAPOR_PRESSURE).

Definition maxOperatingDepth (g : Gas) (ppO2Limit : float) : Depth :=
  DepthM.fromMeters (10 * (ppO2Limit / o2Pp g - 1)).

Definition equals (a b : Gas) : bool :=
  (o2Pp a =? o2Pp b) && (n2Pp a =? n2Pp b) && (hePp a =? hePp b).
End GasM.

(* ------------------------------------------------------------------ *)
(** ** buhlmannConfig.ts *)

Record BuhlmannConfig := mkConfig {
  gfLow : float;
  gfHigh : float;
  surfacePressureValue : float;
  decoAscentRateValue : float;
  ceilingTypeValue : CeilingType;
  roundCeilingValue : bool;
  ndlTypeValue : NDLType
}.

Module Config.
Local Open Scope float_scope.

Definition default : BuhlmannConfig :=
  mkConfig 100 100 1013 10 Actual false NDL_Actual.

Definition validate (c : BuhlmannConfig) : option ConfigValidationError :=
  if (gfLow c <? 1) || (100 <? gfLow c) then
    Some (mkCfgErr "gfLow" "GF Low must be between 1 and 100")
  else if (gfHigh c <? 1) || (100 <? gfHigh c) then
    Some (mkCfgErr "gfHigh" "GF High must be between 1 and 100")
  else if gfHigh c <? gfLow c then
    Some (mkCfgErr "gradientFactors" "GF Low must be less than or equal to GF High")
  else if (surfacePressureValue c <? 500) || (1200 <? surfacePressureValue c) then
    Some (mkCfgErr "surfacePressure" "Surface pressure must be between 500 and 1200 mbar")
  else if (decoAscentRateValue c <=? 0) || (30 <? decoAscentRateValue c) then
    Some (mkCfgErr "decoAscentRate" "Deco ascent rate must be between 0 and 30 m/min")
  else None.

Definition surfacePressure (c : BuhlmannConfig) : float := surfacePressureValue c.
Definition decoAscentRate (c : BuhlmannConfig) : float := decoAscentRateValue c.
Definition ceilingType (c : BuhlmannConfig) : CeilingType := ceilingTypeValue c.
Definition roundCeiling (c : BuhlmannConfig) : bool := roundCeilingValue c.
Definition gradientFactors (c : BuhlmannConfig) : float * float := (gfLow c, gfHigh c).
Definition ndlType (c : BuhlmannConfig) : NDLType := ndlTypeValue c.

Definition clone (c : BuhlmannConfig) : BuhlmannConfig :=
  mkConfig (gfLow c) (gfHigh c) (surfacePressureValue c) (decoAscentRateValue c)
           (ceilingTypeValue c) (roundCeilingValue c) (ndlTypeValue c).
End Config.

(** buhlmannConfig.ts: [BuhlmannConfigBuilder]. *)
Record BuhlmannConfigBuilder := mkBuilder {
  b_gfLow : float;
  b_gfHigh : float;
  b_surfacePressureValue : float;
  b_decoAscentRateValue : float;
  b_ceilingTypeValue : CeilingType;
  b_roundCeilingValue : bool;
  b_ndlTypeValue : NDLType }.

Inductive BuildResult :=
| Built (config : BuhlmannConfig)
| BuildError (message : string).

Module Builder.

(** [BuhlmannConfig.builder()]: the field initialisers. *)
Definition builder : BuhlmannConfigBuilder :=
  mkBuilder 100 100 1013 10 Actual false NDL_Actual.

Definition gradientFactors (gfLow gfHigh : float) (b : BuhlmannConfigBuilder)
  : BuhlmannConfigBuilder :=
  mkBuilder gfLow gfHigh (b_surfacePressureValue b) (b_decoAscentRateValue b)
            (b_ceilingTypeValue b) (b_roundCeilingValue b) (b_ndlTypeValue b).

Definition surfacePressure (pressure : float) (b : BuhlmannConfigBuilder)
  : BuhlmannConfigBuilder :=
  mkBuilder (b_gfLow b) (b_gfHigh b) pressure (b_decoAscentRateValue b)
            (b_ceilingTypeValue b) (b_roundCeilingValue b) (b_ndlTypeValue b).

Definition decoAscentRate (rate : float) (b : BuhlmannConfigBuilder)
  : BuhlmannConfigBuilder :=
  mkBuilder (b_gfLow b) (b_gfHigh b) (b_surfacePressureValue b) rate
            (b_ceilingTypeValue b) (b_roundCeilingValue b) (b_ndlTypeValue b).

Definition ceilingType (type : CeilingType) (b : BuhlmannConfigBuilder)
  : BuhlmannConfigBuilder :=
  mkBuilder (b_gfLow b) (b_gfHigh b) (b_surfacePressureValue b) (b_decoAscentRateValue b)
            type (b_roundCeilingValue b) (b_ndlTypeValue b).

Definition roundCeiling (round : bool) (b : BuhlmannConfigBuilder)
  : BuhlmannConfigBuilder :=
  mkBuilder (b_gfLow b) (b_gfHigh b) (b_surfacePressureValue b) (b_decoAscentRateValue b)
            (b_ceilingTypeValue b) round (b_ndlTypeValue b).

Definition ndlType (type : NDLType) (b : BuhlmannConfigBuilder)
  : BuhlmannConfigBuilder :=
  mkBuilder (b_gfLow b) (b_gfHigh b) (b_surfacePressureValue b) (b_decoAscentRateValue b)
            (b_ceilingTypeValue b) (b_roundCeilingValue b) type.

(** [build()]: construct, validate, throw on a validation error. *)
Definition build (b : BuhlmannConfigBuilder) : BuildResult :=
  let config := mkConfig (b_gfLow b) (b_gfHigh b) (b_surfacePressureValue b)
                         (b_decoAscentRateValue b) (b_ceilingTypeValue b)
                         (b_roundCeilingValue b) (b_ndlTypeValue b) in
  match Config.validate config with
  | Some error => BuildError (String.append "Invalid configuration: " (reason error))
  | None => Built config
  end.
End Builder.

(* ------------------------------------------------------------------ *)
(** ** oxTox.ts *)

Record CNSCoeffRow := mkRow {
  range_lo : float; range_hi : float; slope : float; intercept : float }.

Record OxTox := mkOxTox { cnsValue : float; otuValue : float }.

Module OxToxM.
Local Open Scope float_scope.

Definition CNS_COEFFICIENTS : list CNSCoeffRow :=
  [ mkRow 0.5 0.6 (-1800) 1800;
    mkRow 0.6 0.7 (-1500) 1620;
    mkRow 0.7 0.8 (-1200) 1410;
    mkRow 0.8 0.9 (-900) 1170;
    mkRow 0.9 1.1 (-600) 900;
    mkRow 1.1 1.5 (-300) 570;
    mkRow 1.5 1.65 (-750) 1245 ].

Definition default : OxTox := mkOxTox 0 0.

(** The [for] loop of [getCnsRate]: the first row whose range holds [ppO2]. *)
Fixpoint findRow (rows : list CNSCoeffRow) (ppO2 : float) : option CNSCoeffRow :=
  match rows with
  | [] => None
  | coeff :: rest =>
      if (range_lo coeff <=? ppO2) && (ppO2 <=? range_hi coeff) then Some coeff
      else findRow rest ppO2
  end.

Definition getCnsRate (ppO2 : float) : float :=
  match findRow CNS_COEFFICIENTS ppO2 with
  | Some coeff => slope coeff * ppO2 + intercept coeff
  | None =>
      if ppO2 <? 0.5 then 0
      else if 1.65 <? ppO2 then
        let lastCoeff := last CNS_COEFFICIENTS (mkRow nan nan nan nan) in
        slope lastCoeff * ppO2 + intercept lastCoeff
      else 0
  end.

Definition addExposure `{JSMath} (ox : OxTox) (ppO2 : float) (time : Time) : OxTox :=
  let cnsRate := getCnsRate ppO2 in
  let cns := if 0 <? cnsRate then cnsValue ox + TimeM.asMinutes time / cnsRate
             else cnsValue ox in
  let otu := if 0.5 <? ppO2 then
               let otuRate := Math_pow ((ppO2 - 0.5) / 0.5) 0.83 in
               otuValue ox + otuRate * TimeM.asMinutes time
             else otuValue ox in
  mkOxTox cns otu.

Definition clone (ox : OxTox) : OxTox := mkOxTox (cnsValue ox) (otuValue ox).
End OxToxM.

(* ------------------------------------------------------------------ *)
(** ** zhlValues.ts *)

Record ZHLParams := mkZHL {
  n2a : float; n2b : float; n2ht : float;
  hea : float; heb : float; heht : float }.

Definition ZHL_16C_N2_16A_HE_VALUES : list ZHLParams :=
  [ mkZHL 1.2599 0.505 4.0 1.7424 0.4245 1.51;
    mkZHL 1.0 0.6514 8.0 1.383 0.5747 3.02;
    mkZHL 0.8618 0.7222 12.5 1.1919 0.6527 4.72;
    mkZHL 0.7562 0.7825 18.5 1.0458 0.7223 6.99;
    mkZHL 0.62 0.8126 27.0 0.922 0.7582 10.21;
    mkZHL 0.5043 0.8434 38.3 0.8205 0.7957 14.48;
    mkZHL 0.441 0.8693 54.3 0.7305 0.8279 20.53;
    mkZHL 0.4 0.891 77.0 0.6502 0.8553 29.11;
    mkZHL 0.375 0.9092 109.0 0.595 0.8757 41.2;
    mkZHL 0.35 0.9222 146.0 0.5545 0.8903 55.19;
    mkZHL 0.3295 0.9319 187.0 0.5333 0.8997 70.69;
    mkZHL 0.3065 0.9403 239.0 0.5189 0.9073 90.34;
    mkZHL 0.2835 0.9477 305.0 0.5181 0.9122 115.29;
    mkZHL 0.261 0.9544 390.0 0.5176 0.9171 147.42;
    mkZHL 0.248 0.9602 498.0 0.5172 0.9217 188.24;
    mkZHL 0.2327 0.9653 635.0 0.5119 0.9267 240.03 ]%float.

(* ------------------------------------------------------------------ *)
(** ** compartment.ts *)

Record Supersaturation := mkSupersat { gf99 : float; gfSurf : float }.

(** The argument of [recalculate]: [{ depth, time, gas }]. *)
Record RecordData := mkRecord { r_depth : Depth; r_time : Time; r_gas : Gas }.

Record Compartment := mkCompartment {
  no : nat;
  minTolerableAmbPressure : float;
  heIp : float;
  n2Ip : float;
  totalIp : float;
  mValueRaw : float;
  mValueCalc : float;
  params : ZHLParams;
  modelConfig : BuhlmannConfig
}.

Module CompartmentM.
Local Open Scope float_scope.

Definition getAirInspiredPartialPressures (depth : Depth) (surfacePressure : float)
  : PartialPressures :=
  let ambientPressure := surfacePressure / 1000 + asMeters depth / 10 in
  let waterVaporPressure := 0.0627 in
  let inspiredPressure := ambientPressure - waterVaporPressure in
  mkPP (0.21 * inspiredPressure) (0.79 * inspiredPressure) (0.0 * inspiredPressure).

(** Weighted ZHL params (half time, a coefficient, b coefficient). *)
Definition weightedParam (heParam hePp n2Param n2Pp : float) : float :=
  (heParam * hePp + n2Param * n2Pp) / (hePp + n2Pp).

Definition weightedZhlParams (c : Compartment) (hePp n2Pp : float)
  : float * float * float :=
  ( weightedParam (heht (params c)) hePp (n2ht (params c)) n2Pp,
    weightedParam (hea (params c)) hePp (n2a (params c)) n2Pp,
    weightedParam (heb (params c)) hePp (n2b (params c)) n2Pp ).

Definition maxGfAdjustedZhlParams (p : float * float * float) (maxGf : float)
  : float * float * float :=
  let '(halfTime, aCoeff, bCoeff) := p in
  let maxGfFraction := maxGf / 100.0 in
  let aCoefficientAdjusted := aCoeff * maxGfFraction in
  let bCoefficientAdjusted :=
    bCoeff / (maxGfFraction - maxGfFraction * bCoeff + bCoeff) in
  (halfTime, aCoefficientAdjusted, bCoefficientAdjusted).

Definition mValue (c : Compartment) (depth : Depth) (surfacePressure maxGf : float)
  : float :=
  let weighted := weightedZhlParams c (heIp c) (n2Ip c) in
  let '(_, aCoeffAdjusted, bCoeffAdjusted) := maxGfAdjustedZhlParams weighted maxGf in
  let pSurf := surfacePressure / 1000.0 in
  let pAmb := pSurf + asMeters depth / 10.0 in
  aCoeffAdjusted + pAmb / bCoeffAdjusted.

Definition minTolerableAmbPressureCalc (c : Compartment) (maxGf : float) : float :=
  let weighted := weightedZhlParams c (heIp c) (n2Ip c) in
  let '(_, aCoefficientAdjusted, bCoefficientAdjusted) :=
    maxGfAdjustedZhlParams weighted maxGf in
  (totalIp c - aCoefficientAdjusted) * bCoefficientAdjusted.

(** Compartment pressure change for one inert gas (Haldane equation);
    [inertGasLoad] is [this.heIp] or [this.n2Ip]. *)
Definition compartmentPressureDeltaHaldane `{JSMath}
    (inertGasLoad gasInspiredP : float) (time : Time) (halfTime : float) : float :=
  let factor := 1.0 - Math_pow 2.0 (- TimeM.asMinutes time / halfTime) in
  (gasInspiredP - inertGasLoad) * factor.

(** Tissue inert gases pressure after a record: [heFinal, n2Final]. *)
Definition compartmentInertPressure `{JSMath}
    (c : Compartment) (record : RecordData) (surfacePressure : float) : float * float :=
  let partialPressures :=
    GasM.inspiredPartialPressures (r_gas record) (r_depth record) surfacePressure in
  let heInspiredPp := pp_he partialPressures in
  let n2Inspired := pp_n2 partialPressures in
  let hePCompDelta :=
    compartmentPressureDeltaHaldane (heIp c) heInspiredPp (r_time record) (heht (params c)) in
  let n2PCompDelta :=
    compartmentPressureDeltaHaldane (n2Ip c) n2Inspired (r_time record) (n2ht (params c)) in
  (heIp c + hePCompDelta, n2Ip c + n2PCompDelta).

(** Field assignments of the constructor and of [recalculate], in order. *)
Definition setPressures (c : Compartment) (he n2 : float) : Compartment :=
  mkCompartment (no c) (minTolerableAmbPressure c) he n2 (he + n2)
                (mValueRaw c) (mValueCalc c) (params c) (modelConfig c).

Definition setMValues (c : Compartment) (raw calc : float) : Compartment :=
  mkCompartment (no c) (minTolerableAmbPressure c) (heIp c) (n2Ip c) (totalIp c)
                raw calc (params c) (modelConfig c).

Definition setMinTolerable (c : Compartment) (p : float) : Compartment :=
  mkCompartment (no c) p (heIp c) (n2Ip c) (totalIp c)
                (mValueRaw c) (mValueCalc c) (params c) (modelConfig c).

Definition new (no : nat) (params : ZHLParams) (modelConfig : BuhlmannConfig)
  : Compartment :=
  let init := getAirInspiredPartialPressures DepthM.zero (Config.surfacePressure modelConfig) in
  let c0 := mkCompartment no nan nan nan nan nan nan params modelConfig in
  let c1 := mkCompartment no nan (pp_he init) (pp_n2 init) (pp_he init + pp_n2 init)
                          nan nan params modelConfig in
  let '(_, gfHigh) := Config.gradientFactors modelConfig in
  let raw := mValue c1 DepthM.zero (Config.surfacePressure modelConfig) 100 in
  let c2 := setMValues c1 raw raw in
  setMinTolerable c2 (minTolerableAmbPressureCalc c2 gfHigh).

(** Recalculate tissue inert gases saturation and tolerable pressure. *)
Definition recalculate `{JSMath}
    (c : Compartment) (record : RecordData) (maxGf surfacePressure : float)
  : Compartment :=
  let '(heInertPressure, n2InertPressure) :=
    compartmentInertPressure c record surfacePressure in
  let c1 := setPressures c heInertPressure n2InertPressure in
  let c2 := setMValues c1 (mValue c1 (r_depth record) surfacePressure 100)
                          (mValue c1 (r_depth record) surfacePressure maxGf) in
  setMinTolerable c2 (minTolerableAmbPressureCalc c2 maxGf).

(** Tissue ceiling as depth. *)
Definition ceiling (c : Compartment) : Depth :=
  let ceil := (minTolerableAmbPressure c
               - Config.surfacePressure (modelConfig c) / 1000.0) * 10.0 in
  DepthM.fromMeters (if ceil <? 0.0 then 0.0 else ceil).

Definition supersaturation (c : Compartment) (surfacePressure : float) (depth : Depth)
  : Supersaturation :=
  let pSurf := surfacePressure / 1000.0 in
  let pAmb := pSurf + asMeters depth / 10.0 in
  let mValue_ := mValueRaw c in
  let mValueSurf := mValue c DepthM.zero surfacePressure 100 in
  mkSupersat ((totalIp c - pAmb) / (mValue_ - pAmb) * 100.0)
             ((totalIp c - pSurf) / (mValueSurf - pSurf) * 100.0).

Definition clone (c : Compartment) : Compartment :=
  let cloned := new (no c) (params c) (modelConfig c) in
  mkCompartment (no cloned) (minTolerableAmbPressure c) (heIp c) (n2Ip c) (totalIp c)
                (mValueRaw c) (mValueCalc c) (params cloned) (modelConfig cloned).
End CompartmentM.

(* ------------------------------------------------------------------ *)
(** ** decoModel.ts and buhlmannModel.ts: the data *)

Record DiveState := mkDiveState {
  ds_depth : Depth; ds_time : Time; ds_gas : Gas; ds_oxTox : OxTox }.

Record DecoStage := mkStage {
  stageType : DecoStageType;
  startDepth : Depth;
  endDepth : Depth;
  duration : Time;
  stageGas : Gas
}.

Record DecoRuntime := mkRuntime {
  decoStages : list DecoStage; tts : Time; ttsSurface : Time; rt_sim : bool }.

(** [interface BuhlmannState]; [gfLowDepth?: Depth] is an optional field. *)
Record BuhlmannState := mkState {
  depth : Depth;
  time : Time;
  gas : Gas;
  gfLowDepth : option Depth;
  oxTox : OxTox
}.

Record BuhlmannModel := mkModel {
  configuration : BuhlmannConfig;
  compartments : list Compartment;
  state : BuhlmannState;
  sim : bool
}.

Definition NDL_CUT_OFF_MINS : float := 99%float.

(* ------------------------------------------------------------------ *)
(** ** Methods as state transformers on the receiver *)

Definition M (A : Type) : Type := BuhlmannModel -> Res A * BuhlmannModel.

Definition ret {A} (a : A) : M A := fun this => (Ok a, this).
Definition throw {A} (e : Error) : M A := fun this => (Throw e, this).
Definition outOfFuel {A} : M A := fun this => (OutOfFuel, this).

Definition bind {A B} (c : M A) (k : A -> M B) : M B := fun this =>
  match c this with
  | (Ok a, this') => k a this'
  | (Throw e, this') => (Throw e, this')
  | (OutOfFuel, this') => (OutOfFuel, this')
  end.

(** Read a field of [this]; assign to [this]. *)
Definition gets {A} (f : BuhlmannModel -> A) : M A := fun this => (Ok (f this), this).
Definition modify (f : BuhlmannModel -> BuhlmannModel) : M unit :=
  fun this => (Ok tt, f this).

(** [obj.method(...)]: run a method on another object; the caller receives the
    result together with the object as the call left it, and an exception or
    fuel exhaustion in the callee propagates to the caller. *)
Definition call {A} (obj : BuhlmannModel) (c : M A) : M (A * BuhlmannModel) :=
  fun this =>
    match c obj with
    | (Ok a, obj') => (Ok (a, obj'), this)
    | (Throw e, _) => (Throw e, this)
    | (OutOfFuel, _) => (OutOfFuel, this)
    end.

Declare Scope m_scope.
Delimit Scope m_scope with M.
Notation "x <- c ;; k" := (bind c (fun x => k))
  (at level 61, c at next level, right associativity) : m_scope.
Notation "' p <- c ;; k" := (bind c (fun x => let p := x in k))
  (at level 61, p pattern, c at next level, right associativity) : m_scope.
Notation "c ;; k" := (bind c (fun _ => k))
  (at level 61, right associativity) : m_scope.

(** Assignments to [this.state.*] and [this.compartments]. *)
Definition setDepth (d : Depth) (m : BuhlmannModel) : BuhlmannModel :=
  let s := state m in
  mkModel (configuration m) (compartments m)
          (mkState d (time s) (gas s) (gfLowDepth s) (oxTox s)) (sim m).

Definition setTime (t : Time) (m : BuhlmannModel) : BuhlmannModel :=
  let s := state m in
  mkModel (configuration m) (compartments m)
          (mkState (depth s) t (gas s) (gfLowDepth s) (oxTox s)) (sim m).

Definition setGas (g : Gas) (m : BuhlmannModel) : BuhlmannModel :=
  let s := state m in
  mkModel (configuration m) (compartments m)
          (mkState (depth s) (time s) g (gfLowDepth s) (oxTox s)) (sim m).

Definition setGfLowDepth (d : Depth) (m : BuhlmannModel) : BuhlmannModel :=
  let s := state m in
  mkModel (configuration m) (compartments m)
          (mkState (depth s) (time s) (gas s) (Some d) (oxTox s)) (sim m).

Definition setOxTox (ox : OxTox) (m : BuhlmannModel) : BuhlmannModel :=
  let s := state m in
  mkModel (configuration m) (compartments m)
          (mkState (depth s) (time s) (gas s) (gfLowDepth s) ox) (sim m).

Definition setCompartments (cs : list Compartment) (m : BuhlmannModel) : BuhlmannModel :=
  mkModel (configuration m) cs (state m) (sim m).

Definition setSim (b : bool) (m : BuhlmannModel) : BuhlmannModel :=
  mkModel (configuration m) (compartments m) (state m) b.

(** [array[i] = x] for an index inside the array. *)
Fixpoint replaceAt {A} (i : nat) (x : A) (l : list A) : list A :=
  match l, i with
  | [], _ => []
  | _ :: r, O => x :: r
  | y :: r, S i' => y :: replaceAt i' x r
  end.

(** [array.map((x, index) => f(x, index))], indices from [i]. *)
Fixpoint mapi {A B} (f : A -> nat -> B) (i : nat) (l : list A) : list B :=
  match l with
  | [] => []
  | x :: r => f x i :: mapi f (S i) r
  end.

(** Constructors, helpers, and the bodies of the methods that reach
    [this.ceiling()]. *)
Module Body.
Local Open Scope float_scope.
Local Open Scope m_scope.

Definition createCompartments (cfg : BuhlmannConfig) : list Compartment :=
  mapi (fun p index => CompartmentM.new (index + 1)%nat p cfg) O ZHL_16C_N2_16A_HE_VALUES.

(** [new BuhlmannModel(config?)]. *)
Definition new (config : option BuhlmannConfig) : Res BuhlmannModel :=
  let configuration := match config with Some c => c | None => Config.default end in
  match Config.validate configuration with
  | Some validationError => Throw (ConfigError validationError)
  | None =>
      Ok (mkModel configuration (createCompartments configuration)
                  (mkState DepthM.zero TimeM.zero GasM.air None OxToxM.default)
                  false)
  end.

Definition config : M BuhlmannConfig := gets configuration.

Definition diveState (m : BuhlmannModel) : DiveState :=
  mkDiveState (depth (state m)) (time (state m)) (gas (state m)) (oxTox (state m)).

Definition validateDepth (d : Depth) : M unit :=
  if DepthM.lessThan d DepthM.zero then throw DepthNegative
  else if 200 <? asMeters d then throw DepthTooDeep
  else ret tt.

(** The copy made by [fork] and by [clone], from the freshly constructed [cloned]. *)
Definition copyInto (cloned this : BuhlmannModel) : BuhlmannModel :=
  mkModel (configuration cloned)
          (map CompartmentM.clone (compartments this))
          (mkState (depth (state this)) (time (state this)) (gas (state this))
                   (gfLowDepth (state this)) (OxToxM.clone (oxTox (state this))))
          true.

Definition fork : M BuhlmannModel := fun this =>
  match new (Some (configuration this)) with
  | Ok cloned => (Ok (copyInto cloned this), this)
  | Throw e => (Throw e, this)
  | OutOfFuel => (OutOfFuel, this)
  end.

Definition clone : M BuhlmannModel := fun this =>
  match new (Some (Config.clone (configuration this))) with
  | Ok cloned => (Ok (copyInto cloned this), this)
  | Throw e => (Throw e, this)
  | OutOfFuel => (OutOfFuel, this)
  end.

(** Leading compartment: the first one with the highest min tolerable
    ambient pressure, with its index; [None] is [undefined] (empty array). *)
Fixpoint leadingFrom (best : nat * Compartment) (i : nat) (rest : list Compartment)
  : nat * Compartment :=
  match rest with
  | [] => best
  | compartment :: rest' =>
      if minTolerableAmbPressure (snd best) <? minTolerableAmbPressure compartment
      then leadingFrom (i, compartment) (S i) rest'
      else leadingFrom best (S i) rest'
  end.

Definition leadingComp (m : BuhlmannModel) : option (nat * Compartment) :=
  match compartments m with
  | [] => None
  | c :: rest => Some (leadingFrom (O, c) 1%nat rest)
  end.

Definition decoStopDepth (ceiling : Depth) : Depth :=
  let window := 3 in
  DepthM.fromMeters (Math.ceil (asMeters ceiling / window) * window).

Definition registerDecoStage (stages : list DecoStage) (stage : DecoStage)
  : list DecoStage :=
  match rev stages with
  | lastStage :: before =>
      if match stageType lastStage, stageType stage with
         | Ascent, Ascent | DecoStop, DecoStop | GasSwitch, GasSwitch => true
         | _, _ => false
         end
         && DepthM.equals (endDepth lastStage) (startDepth stage)
         && GasM.equals (stageGas lastStage) (stageGas stage)
      then rev before ++
           [ mkStage (stageType lastStage) (startDepth lastStage) (endDepth stage)
                     (TimeM.add (duration lastStage) (duration stage))
                     (stageGas lastStage) ]
      else stages ++ [stage]
  | [] => stages ++ [stage]
  end.

(** [candidates.sort((a, b) => a.o2 - b.o2)]: a stable insertion sort. *)
Fixpoint insertByO2 (g : Gas) (sorted : list Gas) : list Gas :=
  match sorted with
  | [] => [g]
  | h :: t => if 0 <? o2Pp h - o2Pp g then g :: h :: t else h :: insertByO2 g t
  end.

Definition sortByO2 (l : list Gas) : list Gas :=
  fold_left (fun acc g => insertByO2 g acc) l [].

Definition nextSwitchGas (this : BuhlmannModel) (currentDepth : Depth)
    (currentGas : Gas) (gasMixes : list Gas) : option Gas :=
  let sp := Config.surfacePressure (configuration this) in
  let currentPPO2 := pp_o2 (GasM.partialPressures currentGas currentDepth sp) in
  let candidates :=
    filter (fun g => currentPPO2 <? pp_o2 (GasM.partialPressures g currentDepth sp))
           gasMixes in
  match candidates with
  | [] => None
  | _ => hd_error (sortByO2 candidates)
  end.

(** The method bodies that reach [this.ceiling()]; [ceiling] stands for that
    method, which is defined below by recursion on the nesting of calls. *)
Section Methods.
Context `{JSMath}.
Variable ceiling : M Depth.

Definition gfSlopePoint (this : BuhlmannModel) (gfLowDepth depth : Depth) : float :=
  let '(gfLow, gfHigh) := Config.gradientFactors (configuration this) in
  gfHigh - (((gfHigh - gfLow) / asMeters gfLowDepth) * asMeters depth).

(** The direct calculation of gf_low_depth over the compartments. *)
Definition calcGfLowDepth (this : BuhlmannModel) : Depth :=
  let '(gfLow, _) := Config.gradientFactors (configuration this) in
  let surfacePressureBar := Config.surfacePressure (configuration this) / 1000.0 in
  let gfLowFraction := gfLow / 100.0 in
  let maxCalculatedDepthM :=
    fold_left
      (fun maxCalculatedDepthM comp =>
         let totalIp := totalIp comp in
         let '(_, aWeighted, bWeighted) :=
           CompartmentM.weightedZhlParams comp (heIp comp) (n2Ip comp) in
         let maxAmbP := (totalIp - gfLowFraction * aWeighted) /
                        (1.0 - gfLowFraction + gfLowFraction / bWeighted) in
         let maxDepth := Math.max 0.0 (10.0 * (maxAmbP - surfacePressureBar)) in
         Math.max maxCalculatedDepthM maxDepth)
      (compartments this) 0.0 in
  DepthM.fromMeters maxCalculatedDepthM.

Definition calcMaxSlopedGF (depth : Depth) : M float :=
  cfg <- config ;;
  let '(gfLow, gfHigh) := Config.gradientFactors cfg in
  c <- ceiling ;;
  let inDeco := DepthM.greaterThan c DepthM.zero in
  if negb inDeco then ret gfHigh
  else
    cached <- gets (fun this => gfLowDepth (state this)) ;;
    (match cached with
     | None => modify (fun this => setGfLowDepth (calcGfLowDepth this) this)
     | Some _ => ret tt
     end) ;;
    cached <- gets (fun this => gfLowDepth (state this)) ;;
    match cached with
    | None => throw TypeError
    | Some gfLowDepth =>
        if DepthM.greaterThan depth gfLowDepth then ret gfLow
        else this <- gets (fun this => this) ;; ret (gfSlopePoint this gfLowDepth depth)
    end.

Definition recalculateCompartments (record : RecordData) : M unit :=
  cfg <- config ;;
  let '(gfLow, gfHigh) := Config.gradientFactors cfg in
  modify (fun this =>
    setCompartments
      (map (fun compartment =>
              CompartmentM.recalculate compartment record gfHigh
                (Config.surfacePressure (configuration this)))
           (compartments this)) this) ;;
  if negb (gfHigh =? gfLow) then
    maxGf <- calcMaxSlopedGF (r_depth record) ;;
    leading <- gets leadingComp ;;
    match leading with
    | None => throw TypeError
    | Some (idx, leadingComp) =>
        modify (fun this =>
          setCompartments
            (replaceAt idx
               (CompartmentM.recalculate leadingComp
                  (mkRecord (r_depth record) TimeM.zero (r_gas record))
                  maxGf (Config.surfacePressure (configuration this)))
               (compartments this)) this)
    end
  else ret tt.

Definition recalculateOxTox (record : RecordData) : M unit :=
  modify (fun this =>
    let partialPressures :=
      GasM.inspiredPartialPressures (r_gas record) (r_depth record)
        (Config.surfacePressure (configuration this)) in
    setOxTox (OxToxM.addExposure (oxTox (state this)) (pp_o2 partialPressures)
                                 (r_time record)) this).

Definition recalculate (record : RecordData) : M unit :=
  recalculateCompartments record ;;
  isSim <- gets sim ;;
  if negb isSim then recalculateOxTox record else ret tt.

Definition record (depth : Depth) (time_ : Time) (gas : Gas) : M unit :=
  validateDepth depth ;;
  modify (setDepth depth) ;;
  modify (setGas gas) ;;
  modify (fun this => setTime (TimeM.add (time (state this)) time_) this) ;;
  recalculate (mkRecord depth time_ gas).

(** The [while (i < travelTime.asSeconds())] loop of [recordTravel]. *)
Fixpoint travelLoop (fuel : nat) (i : float) (travelTime : Time) (distRate : float)
    (currentDepth : Depth) (gas : Gas) : M unit :=
  if i <? asSeconds travelTime then
    match fuel with
    | O => outOfFuel
    | S fuel' =>
        modify (fun this =>
          setTime (TimeM.add (time (state this)) (TimeM.fromSeconds 1)) this) ;;
        let currentDepth := DepthM.fromMeters (asMeters currentDepth + distRate) in
        recalculate (mkRecord currentDepth (TimeM.fromSeconds 1) gas) ;;
        travelLoop fuel' (i + 1) travelTime distRate currentDepth gas
    end
  else ret tt.

Definition recordTravel (fuel : nat) (targetDepth : Depth) (time_ : Time) (gas : Gas)
  : M unit :=
  validateDepth targetDepth ;;
  modify (setGas gas) ;;
  currentDepth <- gets (fun this => depth (state this)) ;;
  let distance := asMeters targetDepth - asMeters currentDepth in
  let travelTime := time_ in
  let distRate := distance / asSeconds travelTime in
  travelLoop fuel 0 travelTime distRate currentDepth gas ;;
  modify (setDepth targetDepth).

Definition recordTravelWithRate (fuel : nat) (targetDepth : Depth) (rate : float)
    (gas : Gas) : M unit :=
  current <- gets (fun this => depth (state this)) ;;
  let distance := Math.abs (asMeters targetDepth - asMeters current) in
  let travelTimeMinutes := distance / rate in
  let travelTime := TimeM.fromMinutes travelTimeMinutes in
  recordTravel fuel targetDepth travelTime gas.

(** The [while (true)] loop of the adaptive ceiling, with its local
    variables [iterations], [calculatedCeiling] and [simModel]; it returns
    the final [calculatedCeiling] and [iterations]. *)
Fixpoint adaptiveLoop (fuel travelFuel : nat) (cfg : BuhlmannConfig) (simGas : Gas)
    (iterations : nat) (calculatedCeiling : Depth) (simModel : BuhlmannModel)
  : M (Depth * nat) :=
  let simDepth := ds_depth (diveState simModel) in
  if (asMeters simDepth <=? 0) || (asMeters simDepth <=? asMeters calculatedCeiling)
  then ret (calculatedCeiling, iterations)
  else
    match fuel with
    | O => outOfFuel
    | S fuel' =>
        '(_, simModel) <-
           call simModel
             (recordTravelWithRate travelFuel calculatedCeiling
                (Config.decoAscentRate cfg) simGas) ;;
        '(calculatedCeiling, simModel) <- call simModel ceiling ;;
        let iterations := S iterations in
        if (50 <? iterations)%nat then ret (calculatedCeiling, iterations)
        else adaptiveLoop fuel' travelFuel cfg simGas iterations calculatedCeiling
                          simModel
    end.

(** The adaptive branch of [ceiling()]. *)
Definition adaptiveCeiling (fuel : nat) (cfg : BuhlmannConfig) : M (Depth * nat) :=
  simModel <- fork ;;
  let simGas := ds_gas (diveState simModel) in
  '(calculatedCeiling, simModel) <- call simModel ceiling ;;
  adaptiveLoop fuel fuel cfg simGas O calculatedCeiling simModel.

(** The body of [ceiling()]. *)
Definition ceilingBody (fuel : nat) : M Depth :=
  cfg <- config ;;
  isSim <- gets sim ;;
  let ceilingType := if isSim then Actual else Config.ceilingType cfg in
  leading <- gets leadingComp ;;
  c <- match ceilingType with
       | Actual =>
           match leading with
           | Some (_, leadingComp) => ret (CompartmentM.ceiling leadingComp)
           | None => throw TypeError
           end
       | Adaptive =>
           '(calculatedCeiling, _) <- adaptiveCeiling fuel cfg ;;
           ret calculatedCeiling
       end ;;
  if Config.roundCeiling cfg
  then ret (DepthM.fromMeters (Math.ceil (asMeters c)))
  else ret c.
End Methods.
End Body.

(* ------------------------------------------------------------------ *)
(** ** The public methods of [BuhlmannModel]

    [fuel] bounds the nesting of [this.ceiling()] calls and the number of
    iterations of every unbounded loop ([recordTravel], [deco]). *)

Module Buhlmann.
Import Body.
Local Open Scope float_scope.
Local Open Scope m_scope.

Section WithMath.
Context `{JSMath}.

Fixpoint ceiling (fuel : nat) : M Depth :=
  match fuel with
  | O => outOfFuel
  | S fuel' => ceilingBody (ceiling fuel') fuel'
  end.

Definition record (fuel : nat) (depth : Depth) (time : Time) (gas : Gas) : M unit :=
  Body.record (ceiling fuel) depth time gas.

Definition recordTravel (fuel : nat) (targetDepth : Depth) (time : Time) (gas : Gas)
  : M unit :=
  Body.recordTravel (ceiling fuel) fuel targetDepth time gas.

Definition recordTravelWithRate (fuel : nat) (targetDepth : Depth) (rate : float)
    (gas : Gas) : M unit :=
  Body.recordTravelWithRate (ceiling fuel) fuel targetDepth rate gas.

(** Debug method to expose current GF. *)
Definition getCurrentGF (fuel : nat) : M float :=
  d <- gets (fun this => depth (state this)) ;;
  calcMaxSlopedGF (ceiling fuel) d.

(** [this.nextDecoAction(simModel, gasMixes)]: the action, the switch gas,
    and [simModel] as the call left it. *)
Definition nextDecoAction (fuel : nat) (simModel : BuhlmannModel) (gasMixes : list Gas)
  : M (option DecoStageType * option Gas * BuhlmannModel) :=
  this <- gets (fun this => this) ;;
  let currentDepth := depth (state simModel) in
  let currentGas := gas (state simModel) in
  if asMeters currentDepth <=? 0 then ret (None, None, simModel)
  else
    '(ceiling, simModel) <- call simModel (ceiling fuel) ;;
    if asMeters ceiling <=? 0 then ret (Some Ascent, None, simModel)
    else if DepthM.lessThan currentDepth (decoStopDepth ceiling)
    then ret (Some Ascent, None, simModel)   (* missed stop *)
    else
      let nextGas := nextSwitchGas this currentDepth currentGas gasMixes in
      let switchNow :=
        match nextGas with
        | Some g =>
            negb (GasM.equals g currentGas)
            && (asMeters currentDepth <=? asMeters (GasM.maxOperatingDepth g 1.6))
        | None => false
        end in
      if switchNow then ret (Some GasSwitch, nextGas, simModel)
      else if DepthM.equals currentDepth (decoStopDepth ceiling)
      then ret (Some DecoStop, None, simModel)
      else
        match nextGas with
        | Some g =>
            if DepthM.greaterThanOrEqual (GasM.maxOperatingDepth g 1.6) ceiling
            then ret (Some GasSwitch, nextGas, simModel)
            else ret (Some Ascent, None, simModel)
        | None => ret (Some Ascent, None, simModel)
        end.

(** The [while (true)] loop of [deco]; [n] bounds its iterations. *)
Fixpoint decoLoop (fuel n : nat) (gasMixes : list Gas) (simModel : BuhlmannModel)
    (stages : list DecoStage) : M (list DecoStage) :=
  match n with
  | O => outOfFuel
  | S n' =>
      let preStageDepth := depth (state simModel) in
      let preStageTime := time (state simModel) in
      let preStageGas := gas (state simModel) in
      '(ceiling, simModel) <- call simModel (ceiling fuel) ;;
      '(decoAction, nextSwitchGas, simModel) <- nextDecoAction fuel simModel gasMixes ;;
      match decoAction with
      | None => ret stages   (* decompression finished *)
      | Some Ascent =>
          let stopDepth := decoStopDepth ceiling in
          cfg <- config ;;
          '(_, simModel) <-
             call simModel
               (recordTravelWithRate fuel stopDepth (Config.decoAscentRate cfg)
                                     preStageGas) ;;
          let postStageState := diveState simModel in
          decoLoop fuel n' gasMixes simModel
            (stages ++
             [ mkStage Ascent preStageDepth (ds_depth postStageState)
                       (TimeM.subtract (ds_time postStageState) preStageTime)
                       (ds_gas postStageState) ])
      | Some DecoStop =>
          let stopDepth := decoStopDepth ceiling in
          '(_, simModel) <-
             call simModel (record fuel preStageDepth (TimeM.fromSeconds 1) preStageGas) ;;
          let postStageState := diveState simModel in
          decoLoop fuel n' gasMixes simModel
            (registerDecoStage stages
               (mkStage DecoStop stopDepth stopDepth
                        (TimeM.subtract (ds_time postStageState) preStageTime)
                        (ds_gas postStageState)))
      | Some GasSwitch =>
          match nextSwitchGas with
          | Some nextSwitchGas =>
              let switchMod := GasM.maxOperatingDepth nextSwitchGas 1.6 in
              cfg <- config ;;
              '(stages, simModel) <-
                 (if DepthM.greaterThan preStageDepth switchMod then
                    '(_, simModel) <-
                       call simModel
                         (recordTravelWithRate fuel switchMod
                            (Config.decoAscentRate cfg) preStageGas) ;;
                    let postAscentState := diveState simModel in
                    ret (stages ++
                         [ mkStage Ascent preStageDepth (ds_depth postAscentState)
                                   (TimeM.subtract (ds_time postAscentState) preStageTime)
                                   preStageGas ],
                         simModel)
                  else ret (stages, simModel)) ;;
              '(_, simModel) <-
                 call simModel
                   (record fuel (ds_depth (diveState simModel)) TimeM.zero nextSwitchGas) ;;
              let postSwitchState := diveState simModel in
              decoLoop fuel n' gasMixes simModel
                (registerDecoStage stages
                   (mkStage GasSwitch (ds_depth postSwitchState) (ds_depth postSwitchState)
                            TimeM.zero nextSwitchGas))
          | None => decoLoop fuel n' gasMixes simModel stages
          end
      end
  end.

Definition deco (fuel : nat) (gasMixes : list Gas) : M DecoRuntime :=
  simModel <- clone ;;
  let simModel := setSim true simModel in
  if (List.length gasMixes =? 0)%nat then throw EmptyGasList
  else if negb (existsb (fun g => GasM.equals g (gas (state simModel))) gasMixes)
  then throw CurrentGasNotInList
  else
    stages <- decoLoop fuel fuel gasMixes simModel [] ;;
    let tts := fold_left (fun total stage => TimeM.add total (duration stage))
                         stages TimeM.zero in
    ret (mkRuntime stages tts tts true).

(** [DecoModel.inDeco]: check if in decompression obligation. *)
Definition inDeco (fuel : nat) : M bool :=
  cfg <- config ;;
  match Config.ceilingType cfg with
  | Actual =>
      c <- ceiling fuel ;;
      ret (DepthM.greaterThan c DepthM.zero)
  | Adaptive =>
      currentGas <- gets (fun this => ds_gas (diveState this)) ;;
      runtime <- deco fuel [currentGas] ;;
      ret (1 <? List.length (decoStages runtime))%nat
  end.

(** The [for (let i = 0; i < NDL_CUT_OFF_MINS; i++)] loop of [ndl];
    [remaining] is the number of values of [i] still to run. *)
Fixpoint ndlLoop (fuel remaining : nat) (i : float) (interval : Time)
    (simModel : BuhlmannModel) (ndl : Time) : M Time :=
  match remaining with
  | O => ret ndl
  | S remaining' =>
      d <- gets (fun this => depth (state this)) ;;
      g <- gets (fun this => gas (state this)) ;;
      '(_, simModel) <- call simModel (record fuel d interval g) ;;
      '(deco, simModel) <- call simModel (inDeco fuel) ;;
      if deco : bool then ret (TimeM.multiply interval i)
      else ndlLoop fuel remaining' (i + 1) interval simModel ndl
  end.

Definition ndl (fuel : nat) : M Time :=
  let ndl := TimeM.fromMinutes NDL_CUT_OFF_MINS in
  deco <- inDeco fuel ;;
  if deco : bool then ret TimeM.zero
  else
    simModel <- fork ;;
    let interval := TimeM.fromMinutes 1 in
    ndlLoop fuel 99 0 interval simModel ndl.

(** Supersaturation: the maximum across all compartments. *)
Definition supersaturation (this : BuhlmannModel) : Supersaturation :=
  fold_left
    (fun acc compartment =>
       let s := CompartmentM.supersaturation compartment
                  (Config.surfacePressure (configuration this)) (depth (state this)) in
       mkSupersat (if gf99 acc <? gf99 s then gf99 s else gf99 acc)
                  (if gfSurf acc <? gfSurf s then gfSurf s else gfSurf acc))
    (compartments this) (mkSupersat 0 0).


(** Central nervous system and pulmonary oxygen toxicity. *)
Definition cns (this : BuhlmannModel) : float := cnsValue (oxTox (state this)).
Definition otu (this : BuhlmannModel) : float := otuValue (oxTox (state this)).
End WithMath.
End Buhlmann.

(* ------------------------------------------------------------------ *)
(** ** A binary64 implementation of [Math.pow]

    Used for running the engine on concrete dives.  It agrees with the
    mathematical power to within a few units in the last place on the
    arguments the engine passes (positive base). *)

Module PowModel.
Local Open Scope float_scope.

Definition ln2 : float := 0.6931471805599453.

(** [(2^k, 2^(2^k))] for k = 10 down to 0. *)
Fixpoint squares (k : nat) (e c : float) (acc : list (float * float))
  : list (float * float) :=
  match k with
  | O => acc
  | S k' => squares k' (e + e) (c * c) ((e, c) :: acc)
  end.

Definition table : list (float * float) := Eval vm_compute in squares 11 1 2 [].

(** [acc * 2^n] or [acc / 2^n] for an integer [0 <= n < 2048]. *)
Fixpoint scale (t : list (float * float)) (up : bool) (n acc : float) : float :=
  match t with
  | [] => acc
  | (e, c) :: rest =>
      if e <=? n then scale rest up (n - e) (if up then acc * c else acc / c)
      else scale rest up n acc
  end.

Definition pow2int (n x : float) : float :=
  if 0 <=? n then (if 2048 <=? n then x * infinity else scale table true n x)
  else (if 2048 <=? - n then x * 0 else scale table false (- n) x).

(** Horner evaluation of the sum of [y^k / k!] for [k < n]. *)
Fixpoint expTaylor (n : nat) (k : float) (y : float) : float :=
  match n with
  | O => 1
  | S n' => 1 + y / k * expTaylor n' (k + 1) y
  end.

Definition exp2 (t : float) : float :=
  if is_nan t then nan
  else if 2048 <=? abs t then (if 0 <? t then infinity else 0)
  else let n := Math.rint t in
       let r := (t - n) * ln2 in
       pow2int n (expTaylor 20 1 r).

(** The sum of [z^(2k) / (2k+1)] for [k < n], Horner in [z2 = z^2]. *)
Fixpoint atanhSeries (n : nat) (d : float) (z2 : float) : float :=
  match n with
  | O => 0
  | S n' => 1 / d + z2 * atanhSeries n' (d + 2) z2
  end.

Definition log2 (b : float) : float :=
  let '(f, e) := frshiftexp b in
  let ef := of_uint63 e - 2101 in
  let '(f, ef) := if f <? 0.7071067811865476 then (f * 2, ef - 1) else (f, ef) in
  let z := (f - 1) / (f + 1) in
  ef + 2 * z * atanhSeries 16 1 (z * z) / ln2.

Definition pow (b x : float) : float :=
  if is_nan x then nan
  else if x =? 0 then 1
  else if is_nan b then nan
  else if b <? 0 then nan
  else if b =? 0 then (if 0 <? x then 0 else infinity)
  else if b =? infinity then (if 0 <? x then infinity else 0)
  else exp2 (x * log2 b).
End PowModel.

Definition binary64Math : JSMath := {| Math_pow := PowModel.pow |}.

(* ================================================================== *)
(** * Properties *)

Import Body Buhlmann.

(** ** Vocabulary *)

Section Vocabulary.
Context `{JSMath}.

Definition readonly {A} (c : M A) : Prop := forall this, snd (c this) = this.

(** A method keeps the cache when a cached gf_low_depth survives the call,
    whatever its outcome. *)
Definition keepsCache {A} (c : M A) : Prop :=
  forall this x,
    gfLowDepth (state this) = Some x -> gfLowDepth (state (snd (c this))) = Some x.

(** A method preserves a view of the model when the view is the same after
    the call as before it, whatever the outcome. *)
Definition preserves {X A} (proj : BuhlmannModel -> X) (c : M A) : Prop :=
  forall this, proj (snd (c this)) = proj this.

(** The breathing gas, the simulation flag and the configuration. *)
Definition frame (m : BuhlmannModel) : Gas * bool * BuhlmannConfig :=
  (gas (state m), sim m, configuration m).

(** The simulation flag and the configuration. *)
Definition static (m : BuhlmannModel) : bool * BuhlmannConfig :=
  (sim m, configuration m).

(** The specification's formulas.  [haldane P Pinsp dt ht] is
    P + (P_insp - P) (1 - 2^(-dt_min / ht)); [inspiredPressure f sp d] is
    f (P_surf/1000 + d/10 - P_wv) with P_wv = 0.0627 bar. *)
Definition haldane (P Pinsp : float) (dt : Time) (ht : float) : float :=
  (P + (Pinsp - P) * (1 - Math_pow 2 (- (asSeconds dt / 60) / ht)))%float.

Definition inspiredPressure (f surfacePressure : float) (d : Depth) : float :=
  (f * (surfacePressure / 1000 + asMeters d / 10 - 0.0627))%float.

(** [c'] is [c] after one Haldane update of both inert species for the
    segment [r], with the total set to the sum. *)
Definition haldaneStep (r : RecordData) (sp : float) (c c' : Compartment) : Prop :=
  n2Ip c' = haldane (n2Ip c) (inspiredPressure (n2Pp (r_gas r)) sp (r_depth r))
                    (r_time r) (n2ht (params c))
  /\ heIp c' = haldane (heIp c) (inspiredPressure (hePp (r_gas r)) sp (r_depth r))
                       (r_time r) (heht (params c))
  /\ totalIp c' = (n2Ip c' + heIp c')%float
  /\ params c' = params c.

(** The two passes of [recalculateCompartments]: every compartment gets one
    Haldane update for the segment, and the leading compartment may get a
    second one, for the same depth and gas over no time. *)
Definition updatedBy (r : RecordData) (sp : float) (c c' : Compartment) : Prop :=
  haldaneStep r sp c c'
  \/ exists c1, haldaneStep r sp c c1
                /\ haldaneStep (mkRecord (r_depth r) TimeM.zero (r_gas r)) sp c1 c'.

(** [Number.isFinite]. *)
Definition isFinite (x : float) : bool :=
  match classify x with NaN | PInf | NInf => false | _ => true end.

(** [g] is a gas of the list: an element of it, or equal to one by
    [Gas.equals], the test [deco] itself applies to the current gas. *)
Definition gasInList (gasMixes : list Gas) (g : Gas) : Prop :=
  In g gasMixes \/ existsb (fun x => GasM.equals x g) gasMixes = true.

Definition stagesClosed (gasMixes : list Gas) (stages : list DecoStage) : Prop :=
  Forall (fun s => gasInList gasMixes (stageGas s)) stages.

(** The JavaScript number [i]: 0 incremented [i] times. *)
Definition counter (i : nat) : float := Nat.iter i (fun x => (x + 1)%float) 0%float.

(** The binary64 value of an integer from 1 to 2^53 - 1: 53 bits of
    mantissa, normalised. *)
Definition SFofZ (z : Z) : spec_float :=
  S754_finite false (Z.to_pos (z * 2 ^ (52 - Z.log2 z))) (Z.log2 z - 52).

(** The binary64 value of the counter after [z] increments: exact up to
    2^53, where it stays. *)
Definition SFcount (z : Z) : spec_float :=
  if (z =? 0)%Z then S754_zero false
  else if (z <? 2 ^ 53)%Z then SFofZ z
  else S754_finite false 4503599627370496 1.

(** A model whose gradient factors coincide has no GF slope. *)
Definition flat (m : BuhlmannModel) : Prop :=
  (gfHigh (configuration m) =? gfLow (configuration m))%float = true.

(** One iteration's record on the fork: a 1-minute segment at the caller's
    depth and gas. *)
Definition minuteAt (fuel : nat) (this simModel : BuhlmannModel)
  : Res unit * BuhlmannModel :=
  record fuel (depth (state this)) (TimeM.fromMinutes 1) (gas (state this)) simModel.

(** The fork after [k] such records. *)
Fixpoint simAfter (fuel : nat) (this simModel : BuhlmannModel) (k : nat) : BuhlmannModel :=
  match k with
  | O => simModel
  | S k' => snd (minuteAt fuel this (simAfter fuel this simModel k'))
  end.

(** The first [n] records on the fork all return and none leaves it in deco. *)
Fixpoint clearFor (fuel : nat) (this simModel : BuhlmannModel) (n : nat) : bool :=
  match n with
  | O => true
  | S n' =>
      match minuteAt fuel this simModel with
      | (Ok _, sim1) =>
          match fst (inDeco fuel sim1) with
          | Ok false => clearFor fuel this sim1 n'
          | _ => false
          end
      | _ => false
      end
  end.

(** [ceiling()] of a simulation model: the leading compartment's ceiling,
    rounded up when configured. *)
Definition actualCeiling (m : BuhlmannModel) : Res Depth :=
  match leadingComp m with
  | Some (_, leading) =>
      let c := CompartmentM.ceiling leading in
      Ok (if Config.roundCeiling (configuration m)
          then DepthM.fromMeters (Math.ceil (asMeters c)) else c)
  | None => Throw TypeError
  end.

(** Replace the ndl_type of a configuration. *)
Definition withNdlType (t : NDLType) (c : BuhlmannConfig) : BuhlmannConfig :=
  mkConfig (gfLow c) (gfHigh c) (surfacePressureValue c) (decoAscentRateValue c)
           (ceilingTypeValue c) (roundCeilingValue c) t.

(** Forget the ndl_type: everywhere a model holds its configuration (the
    model itself and each compartment), set the field to [Actual]. *)
Definition eraseCfg (c : BuhlmannConfig) : BuhlmannConfig := withNdlType NDL_Actual c.

Definition eraseComp (c : Compartment) : Compartment :=
  mkCompartment (no c) (minTolerableAmbPressure c) (heIp c) (n2Ip c) (totalIp c)
                (mValueRaw c) (mValueCalc c) (params c) (eraseCfg (modelConfig c)).

Definition erase (m : BuhlmannModel) : BuhlmannModel :=
  mkModel (eraseCfg (configuration m)) (map eraseComp (compartments m)) (state m) (sim m).

Definition eraseLeading (l : option (nat * Compartment)) : option (nat * Compartment) :=
  match l with
  | Some (i, c) => Some (i, eraseComp c)
  | None => None
  end.

Definition mapRes {A B} (h : A -> B) (r : Res A) : Res B :=
  match r with
  | Ok a => Ok (h a)
  | Throw e => Throw e
  | OutOfFuel => OutOfFuel
  end.

(** [c1] on a model without its ndl_type does what [c2] does on the model
    with it: the same outcome (up to [h], which forgets the ndl_type inside
    a result that holds a configuration) and the same final model. *)
Definition rel {A} (h : A -> A) (c1 c2 : M A) : Prop :=
  forall m, c1 (erase m) = (mapRes h (fst (c2 m)), erase (snd (c2 m))).

(** The recording operations of the public interface. *)
Inductive Op :=
| OpRecord (d : Depth) (t : Time) (g : Gas)
| OpRecordTravel (d : Depth) (t : Time) (g : Gas)
| OpRecordTravelWithRate (d : Depth) (rate : float) (g : Gas).

Definition runOp (fuel : nat) (op : Op) (m : BuhlmannModel) : BuhlmannModel :=
  match op with
  | OpRecord d t g => snd (record fuel d t g m)
  | OpRecordTravel d t g => snd (recordTravel fuel d t g m)
  | OpRecordTravelWithRate d r g => snd (recordTravelWithRate fuel d r g m)
  end.

(** A dive session: construct the model, record the segments in order (an
    operation that throws leaves the model as it was at the throw), then
    query [ndl()]. *)
Definition ndlAfter (fuel : nat) (cfg : BuhlmannConfig) (ops : list Op) : Res (Res Time) :=
  match Body.new (Some cfg) with
  | Ok m => Ok (fst (ndl fuel (fold_left (fun m op => runOp fuel op m) ops m)))
  | Throw e => Throw e
  | OutOfFuel => OutOfFuel
  end.

(** [new BuhlmannModel(cfg)] for a configuration that validates. *)
Definition modelOf (cfg : BuhlmannConfig) : BuhlmannModel :=
  match Body.new (Some cfg) with
  | Ok m => m
  | _ => mkModel cfg [] (mkState DepthM.zero TimeM.zero GasM.air None OxToxM.default) false
  end.

(** The model a call leaves behind, and the outcome of a call. *)
Definition after {A} (c : M A) (m : BuhlmannModel) : BuhlmannModel := snd (c m).
Definition outcome {A} (c : M A) (m : BuhlmannModel) : Res A := fst (c m).

Definition meters (x : float) : Depth := DepthM.fromMeters x.
Definition minutes (x : float) : Time := TimeM.fromMinutes x.

Definition forkOf (m : BuhlmannModel) : BuhlmannModel :=
  match outcome fork m with Ok s => s | _ => m end.

(** The position of a binary64 value in the order of the numbers; NaN has
    none.  Both zeros share one. *)
Definition SFkey (x : spec_float) : option (Z * Z * Z) :=
  match x with
  | S754_nan => None
  | S754_infinity true => Some (-2, 0, 0)%Z
  | S754_infinity false => Some (2, 0, 0)%Z
  | S754_zero _ => Some (0, 0, 0)%Z
  | S754_finite true m e => Some (-1, - e, - Zpos m)%Z
  | S754_finite false m e => Some (1, e, Zpos m)%Z
  end.

(** The lexicographic order of the positions. *)
Definition keyLt (a b : Z * Z * Z) : Prop :=
  let '(a1, a2, a3) := a in
  let '(b1, b2, b3) := b in
  (a1 < b1 \/ (a1 = b1 /\ (a2 < b2 \/ (a2 = b2 /\ a3 < b3))))%Z.

Definition fkey (x : float) : option (Z * Z * Z) := SFkey (Prim2SF x).

(** [x < y] and [x === y] on numbers, as relations. *)
Definition before (x y : float) : Prop :=
  match fkey x, fkey y with
  | Some a, Some b => keyLt a b
  | _, _ => False
  end.

Definition same (x y : float) : Prop :=
  match fkey x, fkey y with
  | Some a, Some b => a = b
  | _, _ => False
  end.

(** Where and when the diver is, on what gas, in which model. *)
Definition whereabouts (m : BuhlmannModel) : Depth * Time * Gas * bool * BuhlmannConfig :=
  (depth (state m), time (state m), gas (state m), sim m, configuration m).

(** The clock after [n] one-second steps. *)
Definition tick (n : nat) (t : Time) : Time :=
  Nat.iter n (fun t => TimeM.add t (TimeM.fromSeconds 1)) t.

(** The oxygen exposure of a model, and the configuration it is computed
    with. *)
Definition exposure (m : BuhlmannModel) : OxTox * BuhlmannConfig :=
  (oxTox (state m), configuration m).

(** What a compartment is, as opposed to what it holds: its number, its
    ZH-L16C parameters and its configuration. *)
Definition identity (c : Compartment) : nat * ZHLParams * BuhlmannConfig :=
  (no c, params c, modelConfig c).

Definition identities (m : BuhlmannModel) : list (nat * ZHLParams * BuhlmannConfig) :=
  map identity (compartments m).

(** The last stage of a schedule ends at depth [d], as an object or by
    [Depth.equals]. *)
Definition endsAt (stages : list DecoStage) (d : Depth) : Prop :=
  match rev stages with
  | [] => True
  | lastStage :: _ =>
      endDepth lastStage = d \/ DepthM.equals (endDepth lastStage) d = true
  end.

(** The last stage of a schedule ends at the surface. *)
Definition endsAtSurface (stages : list DecoStage) : Prop :=
  match rev stages with
  | [] => True
  | lastStage :: _ => (asMeters (endDepth lastStage) <=? 0)%float = true
  end.

(** The cache is empty or holds a depth that is not negative. *)
Definition cacheNotNegative (m : BuhlmannModel) : Prop :=
  match gfLowDepth (state m) with
  | Some x => (asMeters x <? 0)%float = false
  | None => True
  end.

(** A method keeps an invariant of the model, whatever its outcome. *)
Definition keeps {A} (inv : BuhlmannModel -> Prop) (c : M A) : Prop :=
  forall this, inv this -> inv (snd (c this)).

(** The numeric fields of a configuration, and their ranges. *)
Definition configNumbers (c : BuhlmannConfig) : list float :=
  [gfLow c; gfHigh c; surfacePressureValue c; decoAscentRateValue c].

Definition inRange (c : BuhlmannConfig) : bool :=
  ((1 <=? gfLow c) && (gfLow c <=? gfHigh c) && (gfHigh c <=? 100)
   && (500 <=? surfacePressureValue c) && (surfacePressureValue c <=? 1200)
   && (0 <? decoAscentRateValue c) && (decoAscentRateValue c <=? 30))%float.

(** *** The loop of the adaptive ceiling *)

(** The stop test of the adaptive loop: the fork is at the surface, or at
    or below the ceiling just calculated. *)
Definition atCeiling (simModel : BuhlmannModel) (calculatedCeiling : Depth) : bool :=
  let simDepth := ds_depth (diveState simModel) in
  ((asMeters simDepth <=? 0) || (asMeters simDepth <=? asMeters calculatedCeiling))%float.

(** One ascent of the adaptive loop: the fork travels to the ceiling just
    calculated, at the configured ascent rate, on the fork's gas. *)
Definition ascentAt (fuel : nat) (cfg : BuhlmannConfig) (simGas : Gas)
    (simModel : BuhlmannModel) (calculatedCeiling : Depth)
  : Res unit * BuhlmannModel :=
  recordTravelWithRate fuel calculatedCeiling (Config.decoAscentRate cfg) simGas simModel.

(** One iteration's work on the loop variables [calculatedCeiling] and
    [simModel]: the ascent, then [simModel.ceiling()]. *)
Definition ascend (fuel : nat) (cfg : BuhlmannConfig) (simGas : Gas)
    (st : Depth * BuhlmannModel) : Res (Depth * BuhlmannModel) :=
  match ascentAt fuel cfg simGas (snd st) (fst st) with
  | (Ok _, simModel) =>
      match fst (ceiling fuel simModel) with
      | Ok calculatedCeiling => Ok (calculatedCeiling, simModel)
      | Throw e => Throw e
      | OutOfFuel => OutOfFuel
      end
  | (Throw e, _) => Throw e
  | (OutOfFuel, _) => OutOfFuel
  end.

(** The loop variables after [k] iterations that did not break. *)
Fixpoint ascents (fuel : nat) (cfg : BuhlmannConfig) (simGas : Gas)
    (st : Depth * BuhlmannModel) (k : nat) : Res (Depth * BuhlmannModel) :=
  match k with
  | O => Ok st
  | S k' =>
      match ascend fuel cfg simGas st with
      | Ok st' => ascents fuel cfg simGas st' k'
      | Throw e => Throw e
      | OutOfFuel => OutOfFuel
      end
  end.

(** The stop test fails before each of the first [k] iterations. *)
Definition aboveCeilingFor (fuel : nat) (cfg : BuhlmannConfig) (simGas : Gas)
    (st : Depth * BuhlmannModel) (k : nat) : Prop :=
  forall j calculatedCeiling simModel,
    (j < k)%nat ->
    ascents fuel cfg simGas st j = Ok (calculatedCeiling, simModel) ->
    atCeiling simModel calculatedCeiling = false.

(** A decision procedure for [aboveCeilingFor] along [k] ascents that
    return. *)
Fixpoint ascendsFor (fuel : nat) (cfg : BuhlmannConfig) (simGas : Gas)
    (st : Depth * BuhlmannModel) (k : nat) : bool :=
  match k with
  | O => true
  | S k' =>
      negb (atCeiling (snd st) (fst st))
      && match ascend fuel cfg simGas st with
         | Ok st' => ascendsFor fuel cfg simGas st' k'
         | _ => false
         end
  end.

(** The rounding [ceiling()] applies to the ceiling it calculated. *)
Definition rounded (cfg : BuhlmannConfig) (c : Depth) : Depth :=
  if Config.roundCeiling cfg then DepthM.fromMeters (Math.ceil (asMeters c)) else c.
End Vocabulary.

(** ** The dives at which the engine is run

    With [binary64Math] as [Math.pow]; each model is the state the recorded
    segments leave. *)

Section DiveModels.
#[local] Existing Instance binary64Math.

(** Fuel for the concrete dives below. *)
Definition plenty : nat := 2000.

(** [BuhlmannModel.default()], at the surface. *)
Definition surfaceModel : BuhlmannModel := Eval vm_compute in modelOf Config.default.

(** The dive of the C2 counterexample, GF 30/70 on air: 40 m for 40 min (a
    decompression obligation), then 100 h at the surface (no obligation left),
    then 50 m for 30 min (a second, separate obligation). *)
Definition cfg3070 : BuhlmannConfig := mkConfig 30 70 1013 10 Actual false NDL_Actual.

Definition firstObligation : BuhlmannModel :=
  Eval vm_compute in
    after (record plenty (meters 40) (minutes 40) GasM.air) (modelOf cfg3070).

Definition surfaced : BuhlmannModel :=
  Eval vm_compute in
    after (record plenty (meters 0) (minutes 6000) GasM.air) firstObligation.

Definition secondObligation : BuhlmannModel :=
  Eval vm_compute in
    after (record plenty (meters 50) (minutes 30) GasM.air) surfaced.

Definition oxygen : Gas := mkGas 1 0 0.

(** Four hours on pure oxygen at 3 m, from the surface: compartment 1 (half
    times 4 min and 1.51 min) is left with no inert gas at all. *)
Definition afterOxygen : BuhlmannModel :=
  Eval vm_compute in after (record plenty (meters 3) (minutes 240) oxygen) surfaceModel.

(** A 25 min segment at 30 m on air, GF 30/70: one pass over all
    compartments, then the second pass over the leading one. *)
Definition at30m : BuhlmannModel :=
  Eval vm_compute in
    after (record plenty (meters 30) (minutes 25) GasM.air) (modelOf cfg3070).

Definition ean50 : Gas := mkGas 0.5 0.5 0.

(** The multi-gas dive of the test suite: GF 100/100, 9 m/min, 40 m for
    20 min on air, air and EAN50 available. *)
Definition cfg9 : BuhlmannConfig := mkConfig 100 100 1013 9 Actual false NDL_Actual.

Definition at40m : BuhlmannModel :=
  Eval vm_compute in
    after (record plenty (meters 40) (minutes 20) GasM.air) (modelOf cfg9).

Definition multiGasRuntime : DecoRuntime :=
  Eval vm_compute in
    match outcome (deco plenty [GasM.air; ean50]) at40m with
    | Ok rt => rt
    | _ => mkRuntime [] TimeM.zero TimeM.zero true
    end.

(** 30 m on air with the default configuration, before any bottom time. *)
Definition arrivedAt30m : BuhlmannModel :=
  Eval vm_compute in after (record plenty (meters 30) TimeM.zero GasM.air) surfaceModel.

(** The adaptive-ceiling dive of the test suite: GF 100/100, 9 m/min,
    [CeilingType.Adaptive], 40 m for 20 min on air. *)
Definition cfgAdaptive : BuhlmannConfig :=
  mkConfig 100 100 1013 9 Adaptive false NDL_Actual.

Definition adaptiveAt40m : BuhlmannModel :=
  Eval vm_compute in
    after (record plenty (meters 40) (minutes 20) GasM.air) (modelOf cfgAdaptive).

(** The same dive with the smallest positive ascent rate
    ([Number.MIN_VALUE]), which [validate] accepts. *)
Definition cfgSlowest : BuhlmannConfig :=
  mkConfig 100 100 1013 5e-324 Adaptive false NDL_Actual.

Definition slowestAt40m : BuhlmannModel :=
  Eval vm_compute in
    after (record plenty (meters 40) (minutes 20) GasM.air) (modelOf cfgSlowest).

(** A descent from the surface to 10 m in 90.5 s. *)
Definition descended : BuhlmannModel :=
  Eval vm_compute in
    after (recordTravel plenty (meters 10) (TimeM.fromSeconds 90.5) GasM.air) surfaceModel.

(** The adaptive-ceiling dive brought to the surface at once: the tissues
    of 20 min at 40 m, at 0 m. *)
Definition surfacedAdaptive : BuhlmannModel :=
  Eval vm_compute in after (record plenty (meters 0) TimeM.zero GasM.air) adaptiveAt40m.

(** [deco([air])] at the surface. *)
Definition surfaceRuntime : DecoRuntime :=
  Eval vm_compute in
    match outcome (deco plenty [GasM.air]) surfaceModel with
    | Ok rt => rt
    | _ => mkRuntime [mkStage Ascent DepthM.zero DepthM.zero TimeM.zero GasM.air]
                     TimeM.zero TimeM.zero false
    end.

(** A dive without decompression obligation under the adaptive ceiling
    type: 10 min at 10 m on air. *)
Definition adaptiveAt10m : BuhlmannModel :=
  Eval vm_compute in
    after (record plenty (meters 10) (minutes 10) GasM.air) (modelOf cfgAdaptive).

End DiveModels.

(** ** Methods that leave the receiver untouched *)

Section Readonly.
Context `{JSMath}.

Lemma readonly_ret {A} (a : A) : readonly (ret a).
Proof. intro; reflexivity. Qed.

Lemma readonly_throw {A} (e : Error) : readonly (@throw A e).
Proof. intro; reflexivity. Qed.

Lemma readonly_outOfFuel {A} : readonly (@outOfFuel A).
Proof. intro; reflexivity. Qed.

Lemma readonly_gets {A} (f : BuhlmannModel -> A) : readonly (gets f).
Proof. intro; reflexivity. Qed.

Lemma readonly_call {A} (obj : BuhlmannModel) (c : M A) : readonly (call obj c).
Proof. intro this; unfold call; destruct (c obj) as [[a| e|] obj']; reflexivity. Qed.

Lemma readonly_fork : readonly fork.
Proof. intro this; unfold fork; destruct (new _); reflexivity. Qed.

Lemma readonly_clone : readonly clone.
Proof. intro this; unfold clone; destruct (new _); reflexivity. Qed.

Lemma readonly_bind {A B} (c : M A) (k : A -> M B) :
  readonly c -> (forall a, readonly (k a)) -> readonly (bind c k).
Proof.
  intros Hc Hk this; unfold bind.
  specialize (Hc this); destruct (c this) as [[a| e|] this']; simpl in Hc; subst;
    [apply Hk | reflexivity | reflexivity].
Qed.
End Readonly.

(** Decompose a method body into the read-only primitives above; [tac] closes
    the calls of methods already known to be read-only. *)
Ltac readonly_step tac :=
  lazymatch goal with
  | |- readonly (ret _) => apply readonly_ret
  | |- readonly (throw _) => apply readonly_throw
  | |- readonly outOfFuel => apply readonly_outOfFuel
  | |- readonly (gets _) => apply readonly_gets
  | |- readonly config => apply readonly_gets
  | |- readonly (call _ _) => apply readonly_call
  | |- readonly fork => apply readonly_fork
  | |- readonly clone => apply readonly_clone
  | |- readonly (bind _ _) => apply readonly_bind; [ | intro ]
  | |- readonly (match ?x with _ => _ end) => destruct x
  | |- readonly (let _ := _ in _) => cbv zeta
  | |- _ => tac
  end.

Ltac readonly_with tac := repeat (readonly_step tac).

Section Queries.
Context `{JSMath}.

Lemma readonly_adaptiveLoop (c : M Depth) fuel travelFuel cfg simGas it cc simModel :
  readonly (adaptiveLoop c fuel travelFuel cfg simGas it cc simModel).
Proof.
  revert it cc simModel; induction fuel as [|fuel IH]; intros; simpl;
    readonly_with ltac:(apply IH).
Qed.

Lemma readonly_ceilingBody (c : M Depth) fuel : readonly (ceilingBody c fuel).
Proof.
  unfold ceilingBody, adaptiveCeiling;
    readonly_with ltac:(apply readonly_adaptiveLoop).
Qed.

Lemma readonly_ceiling fuel : readonly (ceiling fuel).
Proof.
  destruct fuel; simpl; [apply readonly_outOfFuel | apply readonly_ceilingBody].
Qed.

Lemma readonly_nextDecoAction fuel simModel gasMixes :
  readonly (nextDecoAction fuel simModel gasMixes).
Proof. unfold nextDecoAction; readonly_with fail. Qed.

Lemma readonly_decoLoop fuel n gasMixes :
  forall simModel stages, readonly (decoLoop fuel n gasMixes simModel stages).
Proof.
  induction n as [|n IH]; intros; simpl; [apply readonly_outOfFuel|].
  readonly_with ltac:(first [apply readonly_nextDecoAction | apply IH]).
Qed.

Lemma readonly_deco fuel gasMixes : readonly (deco fuel gasMixes).
Proof. unfold deco; readonly_with ltac:(apply readonly_decoLoop). Qed.

Lemma readonly_inDeco fuel : readonly (inDeco fuel).
Proof.
  unfold inDeco;
    readonly_with ltac:(first [apply readonly_ceiling | apply readonly_deco]).
Qed.

Lemma readonly_ndlLoop fuel remaining :
  forall i interval simModel ndl0,
    readonly (ndlLoop fuel remaining i interval simModel ndl0).
Proof.
  induction remaining as [|r IH]; intros; simpl;
    readonly_with ltac:(first [apply readonly_inDeco | apply IH]).
Qed.

Lemma readonly_ndl fuel : readonly (ndl fuel).
Proof.
  unfold ndl;
    readonly_with ltac:(first [apply readonly_inDeco | apply readonly_ndlLoop]).
Qed.

(** C6.  For every model state, [ceiling()], [ndl()], [deco(gasMixes)] and
    [inDeco()] leave the caller's model unchanged, whatever the outcome of
    the call: the dive state (depth, time, gas, gfLowDepth, oxTox) and every
    compartment are the same before and after. *)
Theorem queries_do_not_mutate (fuel : nat) (gasMixes : list Gas) (this : BuhlmannModel) :
  snd (ceiling fuel this) = this /\
  snd (ndl fuel this) = this /\
  snd (deco fuel gasMixes this) = this /\
  snd (inDeco fuel this) = this.
Proof.
  repeat split;
    [ apply readonly_ceiling | apply readonly_ndl
    | apply readonly_deco | apply readonly_inDeco ].
Qed.
End Queries.

(* ------------------------------------------------------------------ *)
(** ** recordTravelWithRate *)

Section TravelWithRate.
Context `{JSMath}.

(** C8, amended.  [recordTravelWithRate] does not validate [rate]: for every
    rate (so for every rate > 0) it derives the travel time as
    |target - current| / rate minutes and delegates to [recordTravel]; the
    only validation is [recordTravel]'s check of the target depth, which
    precedes every mutation, so when it fails the call throws and the model
    is unchanged. *)
Theorem recordTravelWithRate_delegates
    (fuel : nat) (target : Depth) (rate : float) (g : Gas) (this : BuhlmannModel) :
  recordTravelWithRate fuel target rate g this =
    recordTravel fuel target
      (TimeM.fromMinutes
         (Math.abs (asMeters target - asMeters (depth (state this))) / rate)%float)
      g this
  /\ (forall e, fst (validateDepth target this) = Throw e ->
                recordTravelWithRate fuel target rate g this = (Throw e, this)).
Proof.
  split; [reflexivity|].
  intros e He.
  unfold recordTravelWithRate, Body.recordTravelWithRate, Body.recordTravel, bind, gets.
  unfold validateDepth in *.
  destruct (DepthM.lessThan target DepthM.zero).
  - simpl in *. congruence.
  - destruct (200 <? asMeters target)%float; simpl in *; congruence.
Qed.
End TravelWithRate.

(* ------------------------------------------------------------------ *)
(** ** inDeco *)

Section InDeco.
Context `{JSMath}.

(** C9.  [inDeco()] is decided by the configured ceiling type: under
    [Actual] it is true exactly when [ceiling()] is strictly above 0 m; under
    [Adaptive] it is true exactly when [deco([current gas])] yields more than
    one stage.  An exception in the query it relies on propagates. *)
Theorem inDeco_by_ceiling_type (fuel : nat) (this : BuhlmannModel) :
  fst (inDeco fuel this) =
  match Config.ceilingType (configuration this) with
  | Actual =>
      match fst (ceiling fuel this) with
      | Ok c => Ok (0 <? asMeters c)%float
      | Throw e => Throw e
      | OutOfFuel => OutOfFuel
      end
  | Adaptive =>
      match fst (deco fuel [gas (state this)] this) with
      | Ok runtime => Ok (1 <? List.length (decoStages runtime))%nat
      | Throw e => Throw e
      | OutOfFuel => OutOfFuel
      end
  end.
Proof.
  unfold inDeco, bind, config, gets; simpl.
  destruct (Config.ceilingType (configuration this)).
  - destruct (ceiling fuel this) as [[c|e|] this']; reflexivity.
  - destruct (deco fuel [gas (state this)] this) as [[rt|e|] this']; reflexivity.
Qed.
End InDeco.

(* ------------------------------------------------------------------ *)
(** ** The gf_low_depth cache *)

Section Cache.
Context `{JSMath}.

Lemma keepsCache_readonly {A} (c : M A) : readonly c -> keepsCache c.
Proof. intros Hc this x Hx; rewrite Hc; exact Hx. Qed.

Lemma keepsCache_bind {A B} (c : M A) (k : A -> M B) :
  keepsCache c -> (forall a, keepsCache (k a)) -> keepsCache (bind c k).
Proof.
  intros Hc Hk this x Hx; unfold bind.
  specialize (Hc this x Hx); destruct (c this) as [[a|e|] this']; simpl in Hc;
    [apply Hk; exact Hc | exact Hc | exact Hc].
Qed.

Lemma keepsCache_modify (f : BuhlmannModel -> BuhlmannModel) :
  (forall m, gfLowDepth (state (f m)) = gfLowDepth (state m)) -> keepsCache (modify f).
Proof. intros Hf this x Hx; simpl; rewrite Hf; exact Hx. Qed.

(** What [calcMaxSlopedGF] does to the cache: it fills it, from the
    compartments, only when it is empty and the ceiling is below the surface;
    a filled cache is never written. *)
Lemma calcMaxSlopedGF_cache (ceil : M Depth) (d : Depth) (this : BuhlmannModel) :
  readonly ceil ->
  gfLowDepth (state (snd (calcMaxSlopedGF ceil d this))) =
  match gfLowDepth (state this) with
  | Some x => Some x
  | None =>
      match fst (ceil this) with
      | Ok c => if DepthM.greaterThan c DepthM.zero
                then Some (calcGfLowDepth this) else None
      | _ => None
      end
  end.
Proof.
  intro Hro.
  unfold calcMaxSlopedGF, bind, config, gets, modify, ret, throw, Config.gradientFactors.
  pose proof (Hro this) as Hthis.
  destruct (ceil this) as [[c|e|] this'] eqn:Ec; simpl in Hthis; subst this'; simpl;
    try (destruct (gfLowDepth (state this)); reflexivity).
  destruct (DepthM.greaterThan c DepthM.zero); simpl.
  - destruct (gfLowDepth (state this)) as [x|] eqn:Ex; simpl.
    + rewrite Ex.
      destruct (DepthM.greaterThan d x); simpl; exact Ex.
    + destruct (DepthM.greaterThan d (calcGfLowDepth this)); reflexivity.
  - destruct (gfLowDepth (state this)); reflexivity.
Qed.

Lemma keepsCache_calcMaxSlopedGF (ceil : M Depth) (d : Depth) :
  readonly ceil -> keepsCache (calcMaxSlopedGF ceil d).
Proof.
  intros Hro this x Hx. rewrite calcMaxSlopedGF_cache by exact Hro.
  rewrite Hx; reflexivity.
Qed.
End Cache.

Ltac keeps_step tac :=
  lazymatch goal with
  | |- keepsCache (ret _) => apply keepsCache_readonly, readonly_ret
  | |- keepsCache (throw _) => apply keepsCache_readonly, readonly_throw
  | |- keepsCache outOfFuel => apply keepsCache_readonly, readonly_outOfFuel
  | |- keepsCache (gets _) => apply keepsCache_readonly, readonly_gets
  | |- keepsCache config => apply keepsCache_readonly, readonly_gets
  | |- keepsCache (validateDepth _) =>
      unfold validateDepth
  | |- keepsCache (modify _) => apply keepsCache_modify; intro; reflexivity
  | |- keepsCache (bind _ _) => apply keepsCache_bind; [ | intro ]
  | |- keepsCache (match ?x with _ => _ end) => destruct x
  | |- keepsCache (let _ := _ in _) => cbv zeta
  | |- _ => tac
  end.

Ltac keeps_with tac := repeat (keeps_step tac).

Section CacheMethods.
Context `{JSMath}.
Variable ceil : M Depth.
Hypothesis ceil_readonly : readonly ceil.

Lemma keepsCache_recalculateCompartments r : keepsCache (recalculateCompartments ceil r).
Proof.
  unfold recalculateCompartments.
  keeps_with ltac:(apply keepsCache_calcMaxSlopedGF; exact ceil_readonly).
Qed.

Lemma keepsCache_recalculate r : keepsCache (recalculate ceil r).
Proof.
  unfold recalculate, recalculateOxTox.
  keeps_with ltac:(apply keepsCache_recalculateCompartments).
Qed.

Lemma keepsCache_record d t g : keepsCache (Body.record ceil d t g).
Proof.
  unfold Body.record. keeps_with ltac:(apply keepsCache_recalculate).
Qed.

Lemma keepsCache_travelLoop fuel :
  forall i travelTime distRate currentDepth g,
    keepsCache (travelLoop ceil fuel i travelTime distRate currentDepth g).
Proof.
  induction fuel as [|fuel IH]; intros; simpl;
    keeps_with ltac:(first [apply keepsCache_recalculate | apply IH]).
Qed.

Lemma keepsCache_recordTravel fuel d t g : keepsCache (Body.recordTravel ceil fuel d t g).
Proof.
  unfold Body.recordTravel. keeps_with ltac:(apply keepsCache_travelLoop).
Qed.

Lemma keepsCache_recordTravelWithRate fuel d r g :
  keepsCache (Body.recordTravelWithRate ceil fuel d r g).
Proof.
  unfold Body.recordTravelWithRate. keeps_with ltac:(apply keepsCache_recordTravel).
Qed.
End CacheMethods.

Section CacheTheorem.
Context `{JSMath}.

(** C2, amended.  The cached gf_low_depth is computed the first time a sloped
    GF is needed while the ceiling is below the surface (from the
    compartments as they are then), and from then on it is kept for the life
    of the model: no recording operation invalidates or recomputes it, also
    not when the model is no longer in deco, so a later, separate
    decompression obligation reuses the value of the first one. *)
Theorem gfLowDepth_computed_once_never_invalidated (fuel : nat) (this : BuhlmannModel) :
  (forall d,
     gfLowDepth (state (snd (calcMaxSlopedGF (ceiling fuel) d this))) =
     match gfLowDepth (state this) with
     | Some x => Some x
     | None =>
         match fst (ceiling fuel this) with
         | Ok c => if DepthM.greaterThan c DepthM.zero
                   then Some (calcGfLowDepth this) else None
         | _ => None
         end
     end)
  /\ (forall x, gfLowDepth (state this) = Some x ->
        (forall d t g, gfLowDepth (state (snd (record fuel d t g this))) = Some x)
        /\ (forall d t g, gfLowDepth (state (snd (recordTravel fuel d t g this))) = Some x)
        /\ (forall d r g,
              gfLowDepth (state (snd (recordTravelWithRate fuel d r g this))) = Some x)
        /\ gfLowDepth (state (snd (getCurrentGF fuel this))) = Some x).
Proof.
  pose proof (readonly_ceiling fuel) as Hro.
  split.
  - intro d. apply calcMaxSlopedGF_cache. exact Hro.
  - intros x Hx. repeat split; intros.
    + apply keepsCache_record; assumption.
    + apply keepsCache_recordTravel; assumption.
    + apply keepsCache_recordTravelWithRate; assumption.
    + unfold getCurrentGF.
      apply (keepsCache_bind (gets (fun this => depth (state this)))); try assumption.
      * apply keepsCache_readonly, readonly_gets.
      * intro a. apply keepsCache_calcMaxSlopedGF. exact Hro.
Qed.
End CacheTheorem.

(* ------------------------------------------------------------------ *)
(** ** Weighted coefficients when the tissue holds no inert gas *)

Lemma eqb_zero (d : float) : (d =? 0)%float = true -> exists s, Prim2SF d = S754_zero s.
Proof.
  rewrite FloatAxioms.eqb_spec. change (Prim2SF 0) with (S754_zero false).
  destruct (Prim2SF d) as [s|s| |s m e]; try discriminate.
  - eauto.
  - destruct s; discriminate.
  - destruct s; discriminate.
Qed.

Lemma div_by_zero_not_finite (x d : float) :
  (d =? 0)%float = true -> isFinite (x / d) = false.
Proof.
  intro H. destruct (eqb_zero d H) as [s Hs].
  unfold isFinite. rewrite classify_spec, div_spec, Hs.
  destruct (Prim2SF x) as [sx|sx| |sx mx ex]; simpl; try reflexivity;
    destruct (xorb _ _); reflexivity.
Qed.

(** X1.  [weightedZhlParams] has no branch for P_He + P_N2 = 0: whenever the
    two pressures sum to zero the three weighted parameters are quotients by
    zero, so none of them is a finite number (they are NaN when both
    pressures are zero), whatever the N2 coefficients are. *)
Theorem weightedZhlParams_zero_total_not_finite (c : Compartment) (hePp n2Pp : float) :
  (hePp + n2Pp =? 0)%float = true ->
  let '(ht, a, b) := CompartmentM.weightedZhlParams c hePp n2Pp in
  isFinite ht = false /\ isFinite a = false /\ isFinite b = false.
Proof.
  intro H. unfold CompartmentM.weightedZhlParams, CompartmentM.weightedParam.
  repeat split; apply div_by_zero_not_finite; exact H.
Qed.

(* ------------------------------------------------------------------ *)
(** ** The Haldane update *)

Lemma SFadd_comm x y : SFadd prec emax x y = SFadd prec emax y x.
Proof.
  destruct x as [sx|sx| |sx mx ex], y as [sy|sy| |sy my ey];
    try reflexivity; try (destruct sx, sy; reflexivity).
  cbn [SFadd]. rewrite Z.min_comm, Z.add_comm. reflexivity.
Qed.

Lemma float_add_comm (x y : float) : (x + y = y + x)%float.
Proof. apply Prim2SF_inj. rewrite !add_spec. apply SFadd_comm. Qed.

Lemma Forall2_map_r {A B} (R : A -> B -> Prop) (f : A -> B) (l : list A) :
  (forall a, R a (f a)) -> Forall2 R l (map f l).
Proof. intro Hf; induction l; simpl; constructor; auto. Qed.

Lemma Forall2_replaceAt {A B} (R R2 : A -> B -> Prop) (l : list A) (l1 : list B)
    (idx : nat) (x y : B) :
  Forall2 R l l1 ->
  nth_error l1 idx = Some x ->
  (forall a, R a x -> R2 a y) ->
  (forall a b, R a b -> R2 a b) ->
  Forall2 R2 l (replaceAt idx y l1).
Proof.
  intros HF; revert idx; induction HF as [|a b l l1 Hab HF IH]; intros idx Hn Hx Hw.
  - destruct idx; discriminate.
  - destruct idx as [|idx]; simpl in *.
    + injection Hn as <-. constructor; [auto|].
      clear IH. induction HF; constructor; auto.
    + constructor; [auto|]. apply IH; auto.
Qed.

Lemma leadingFrom_nth (l : list Compartment) :
  forall best i all,
    nth_error all (fst best) = Some (snd best) ->
    (forall k c, nth_error l k = Some c -> nth_error all (i + k) = Some c) ->
    nth_error all (fst (leadingFrom best i l)) = Some (snd (leadingFrom best i l)).
Proof.
  induction l as [|c l IH]; intros best i all Hb Hl; simpl; [exact Hb|].
  assert (Hrest : forall k c0, nth_error l k = Some c0 ->
                               nth_error all (S i + k) = Some c0).
  { intros k c0 Hk. specialize (Hl (S k) c0 Hk).
    replace (S i + k)%nat with (i + S k)%nat by lia. exact Hl. }
  destruct (minTolerableAmbPressure (snd best) <? minTolerableAmbPressure c)%float.
  - apply IH; [|exact Hrest]. simpl.
    specialize (Hl O c eq_refl). rewrite Nat.add_0_r in Hl. exact Hl.
  - apply IH; assumption.
Qed.

(** The leading compartment is the element of the array at the index found. *)
Lemma leadingComp_nth (m : BuhlmannModel) (idx : nat) (c : Compartment) :
  leadingComp m = Some (idx, c) -> nth_error (compartments m) idx = Some c.
Proof.
  unfold leadingComp. destruct (compartments m) as [|c0 rest]; [discriminate|].
  intro Hl. injection Hl as Hl.
  pose proof (leadingFrom_nth rest (O, c0) 1 (c0 :: rest) eq_refl
                (fun k c1 Hk => Hk)) as Hn.
  rewrite Hl in Hn. exact Hn.
Qed.

Section Haldane.
Context `{JSMath}.

(** [Compartment.recalculate] is one Haldane update, whatever the GF. *)
Lemma recalculate_haldaneStep (c : Compartment) (r : RecordData) (maxGf sp : float) :
  haldaneStep r sp c (CompartmentM.recalculate c r maxGf sp).
Proof.
  unfold haldaneStep, CompartmentM.recalculate, CompartmentM.compartmentInertPressure,
    CompartmentM.compartmentPressureDeltaHaldane, haldane, inspiredPressure,
    GasM.inspiredPartialPressures, GasM.gasPressuresCompound, TimeM.asMinutes,
    GasM.ALVEOLI_WATER_VAPOR_PRESSURE; simpl.
  repeat split. apply float_add_comm.
Qed.

Lemma calcMaxSlopedGF_compartments (ceil : M Depth) (d : Depth) (this : BuhlmannModel) :
  readonly ceil ->
  compartments (snd (calcMaxSlopedGF ceil d this)) = compartments this
  /\ configuration (snd (calcMaxSlopedGF ceil d this)) = configuration this.
Proof.
  intro Hro.
  unfold calcMaxSlopedGF, bind, config, gets, modify, ret, throw, Config.gradientFactors.
  pose proof (Hro this) as Hthis.
  destruct (ceil this) as [[c|e|] this'] eqn:Ec; simpl in Hthis; subst this'; simpl;
    try (split; reflexivity).
  destruct (DepthM.greaterThan c DepthM.zero); simpl; [|split; reflexivity].
  destruct (gfLowDepth (state this)) as [x|] eqn:Ex; simpl.
  - rewrite Ex. destruct (DepthM.greaterThan d x); simpl; split; reflexivity.
  - destruct (DepthM.greaterThan d (calcGfLowDepth this)); split; reflexivity.
Qed.

Lemma recalculateCompartments_updatedBy (ceil : M Depth) (r : RecordData)
    (this : BuhlmannModel) :
  readonly ceil ->
  Forall2 (updatedBy r (Config.surfacePressure (configuration this)))
          (compartments this)
          (compartments (snd (recalculateCompartments ceil r this))).
Proof.
  intro Hro.
  set (sp := Config.surfacePressure (configuration this)).
  set (this1 := setCompartments
                  (map (fun c => CompartmentM.recalculate c r (gfHigh (configuration this)) sp)
                       (compartments this)) this).
  assert (H1 : Forall2 (haldaneStep r sp) (compartments this) (compartments this1)).
  { apply Forall2_map_r. intro a. apply recalculate_haldaneStep. }
  assert (Hw : forall a b, haldaneStep r sp a b -> updatedBy r sp a b)
    by (intros; left; assumption).
  unfold recalculateCompartments, bind, config, gets, modify, ret, throw,
    Config.gradientFactors; simpl.
  fold sp. fold this1.
  destruct (negb (gfHigh (configuration this) =? gfLow (configuration this))%float);
    simpl; [|eapply Forall2_impl; [exact Hw|exact H1]].
  destruct (calcMaxSlopedGF_compartments ceil (r_depth r) this1 Hro) as [Hcs Hcfg].
  destruct (calcMaxSlopedGF ceil (r_depth r) this1) as [[maxGf|e|] this2];
    simpl in *; try (rewrite Hcs; eapply Forall2_impl; [exact Hw|exact H1]).
  destruct (leadingComp this2) as [[idx lc]|] eqn:El; simpl;
    [|rewrite Hcs; eapply Forall2_impl; [exact Hw|exact H1]].
  apply leadingComp_nth in El. rewrite Hcs in El. rewrite Hcs, Hcfg.
  eapply Forall2_replaceAt; [exact H1|exact El| |exact Hw].
  intros a Ha. right. exists lc. split; [exact Ha|].
  apply recalculate_haldaneStep.
Qed.

(** C1.  For every record of a segment at depth d over duration dt with gas
    g, every compartment updates each inert species (N2 and He) by the
    Haldane equation P' = P + (P_insp - P) (1 - 2^(-dt_min/ht)), with
    P_insp = f (P_surf/1000 + d/10 - 0.0627), and then sets
    P_total = P_N2 + P_He.  With a GF slope the leading compartment is
    updated a second time by the same equation, over dt = 0. *)
Theorem record_updates_by_haldane
    (fuel : nat) (d : Depth) (dt : Time) (g : Gas) (this this' : BuhlmannModel) :
  record fuel d dt g this = (Ok tt, this') ->
  Forall2 (updatedBy (mkRecord d dt g) (Config.surfacePressure (configuration this)))
          (compartments this) (compartments this').
Proof.
  unfold record, Body.record, bind at 1.
  unfold validateDepth.
  destruct (DepthM.lessThan d DepthM.zero); [discriminate|].
  destruct (200 <? asMeters d)%float; [discriminate|].
  unfold ret at 1. unfold bind, modify at 1 2 3. simpl.
  set (this0 := setTime _ (setGas g (setDepth d this))).
  unfold recalculate, bind.
  pose proof (recalculateCompartments_updatedBy (ceiling fuel) (mkRecord d dt g) this0
                (readonly_ceiling fuel)) as HF.
  change (compartments this0) with (compartments this) in HF.
  change (configuration this0) with (configuration this) in HF.
  destruct (recalculateCompartments (ceiling fuel) (mkRecord d dt g) this0)
    as [[[]|e|] this1]; simpl in *; try discriminate.
  unfold gets. simpl.
  destruct (sim this1); simpl; intro Heq; injection Heq as <-; exact HF.
Qed.
End Haldane.

(* ------------------------------------------------------------------ *)
(** ** What the recording methods leave alone *)

Lemma preserves_readonly {X A} (proj : BuhlmannModel -> X) (c : M A) :
  readonly c -> preserves proj c.
Proof. intros Hc this; rewrite Hc; reflexivity. Qed.

Lemma preserves_bind {X A B} (proj : BuhlmannModel -> X) (c : M A) (k : A -> M B) :
  preserves proj c -> (forall a, preserves proj (k a)) -> preserves proj (bind c k).
Proof.
  intros Hc Hk this; unfold bind.
  specialize (Hc this); destruct (c this) as [[a|e|] this']; simpl in Hc;
    [rewrite Hk; exact Hc | exact Hc | exact Hc].
Qed.

Lemma preserves_modify {X} (proj : BuhlmannModel -> X) (f : BuhlmannModel -> BuhlmannModel) :
  (forall m, proj (f m) = proj m) -> preserves proj (modify f).
Proof. intros Hf this; simpl; apply Hf. Qed.

Lemma preserves_frame_static {A} (c : M A) : preserves frame c -> preserves static c.
Proof.
  intros Hc this. specialize (Hc this). unfold frame, static in *. congruence.
Qed.

Ltac pres_step tac :=
  lazymatch goal with
  | |- preserves _ (ret _) => apply preserves_readonly, readonly_ret
  | |- preserves _ (throw _) => apply preserves_readonly, readonly_throw
  | |- preserves _ outOfFuel => apply preserves_readonly, readonly_outOfFuel
  | |- preserves _ (gets _) => apply preserves_readonly, readonly_gets
  | |- preserves _ config => apply preserves_readonly, readonly_gets
  | |- preserves _ (validateDepth _) => unfold validateDepth
  | |- preserves _ (modify _) => apply preserves_modify; intro; reflexivity
  | |- preserves _ (bind _ _) => apply preserves_bind; [ | intro ]
  | |- preserves _ (match ?x with _ => _ end) => destruct x
  | |- preserves _ (let _ := _ in _) => cbv zeta
  | |- _ => tac
  end.

Ltac pres_with tac := repeat (pres_step tac).

Section Frame.
Context `{JSMath}.
Variable ceil : M Depth.
Hypothesis ceil_readonly : readonly ceil.

Lemma frame_calcMaxSlopedGF d : preserves frame (calcMaxSlopedGF ceil d).
Proof.
  unfold calcMaxSlopedGF.
  pres_with ltac:(apply preserves_readonly; exact ceil_readonly).
Qed.

Lemma frame_recalculateCompartments r : preserves frame (recalculateCompartments ceil r).
Proof.
  unfold recalculateCompartments. pres_with ltac:(apply frame_calcMaxSlopedGF).
Qed.

Lemma frame_recalculate r : preserves frame (recalculate ceil r).
Proof.
  unfold recalculate, recalculateOxTox.
  pres_with ltac:(apply frame_recalculateCompartments).
Qed.

Lemma frame_travelLoop fuel :
  forall i travelTime distRate currentDepth g,
    preserves frame (travelLoop ceil fuel i travelTime distRate currentDepth g).
Proof.
  induction fuel as [|fuel IH]; intros; simpl;
    pres_with ltac:(first [apply frame_recalculate | apply IH]).
Qed.

Lemma static_record d t g : preserves static (Body.record ceil d t g).
Proof.
  unfold Body.record.
  pres_with ltac:(apply preserves_frame_static, frame_recalculate).
Qed.

Lemma static_recordTravel fuel d t g : preserves static (Body.recordTravel ceil fuel d t g).
Proof.
  unfold Body.recordTravel.
  pres_with ltac:(apply preserves_frame_static, frame_travelLoop).
Qed.

Lemma static_recordTravelWithRate fuel d r g :
  preserves static (Body.recordTravelWithRate ceil fuel d r g).
Proof.
  unfold Body.recordTravelWithRate. pres_with ltac:(apply static_recordTravel).
Qed.
End Frame.

(** Inversion of a sequence and of a call on another object. *)
Lemma bind_ok {A B} (c : M A) (k : A -> M B) this b this' :
  bind c k this = (Ok b, this') ->
  exists a this1, c this = (Ok a, this1) /\ k a this1 = (Ok b, this').
Proof.
  unfold bind. destruct (c this) as [[a|e|] this1]; intro Hk; try discriminate.
  exists a, this1. split; [reflexivity|exact Hk].
Qed.

Lemma call_ok {A} (obj : BuhlmannModel) (c : M A) this a obj' this' :
  call obj c this = (Ok (a, obj'), this') -> c obj = (Ok a, obj') /\ this' = this.
Proof.
  unfold call. destruct (c obj) as [[a0|e|] obj0]; intro Hc; try discriminate.
  injection Hc as -> -> ->. split; reflexivity.
Qed.

Section GasAfter.
Context `{JSMath}.
Variable ceil : M Depth.
Hypothesis ceil_readonly : readonly ceil.

Lemma validateDepth_ok d this u this' :
  validateDepth d this = (Ok u, this') -> this' = this.
Proof.
  unfold validateDepth.
  destruct (DepthM.lessThan d DepthM.zero); [discriminate|].
  destruct (200 <? asMeters d)%float; [discriminate|].
  intro Hv. injection Hv as _ Hv. symmetry; exact Hv.
Qed.

Lemma modify_ok f this u this' : modify f this = (Ok u, this') -> this' = f this.
Proof. unfold modify. intro Hm. injection Hm as _ Hm. symmetry; exact Hm. Qed.

(** After [record(depth, time, gas)] returns, the model breathes [gas]. *)
Lemma record_gas d t g this u this' :
  Body.record ceil d t g this = (Ok u, this') -> gas (state this') = g.
Proof.
  unfold Body.record. intro Hr.
  apply bind_ok in Hr as (u0 & m0 & Hv & Hr). apply validateDepth_ok in Hv. subst m0.
  apply bind_ok in Hr as (u1 & m1 & Hm & Hr). apply modify_ok in Hm. subst m1.
  apply bind_ok in Hr as (u2 & m2 & Hm & Hr). apply modify_ok in Hm. subst m2.
  apply bind_ok in Hr as (u3 & m3 & Hm & Hr). apply modify_ok in Hm. subst m3.
  match type of Hr with recalculate _ ?r ?m = _ =>
    pose proof (frame_recalculate ceil ceil_readonly r m) as Hf end.
  rewrite Hr in Hf. unfold frame in Hf. simpl in Hf. congruence.
Qed.

(** After [recordTravel(target, time, gas)] returns, the model breathes [gas]. *)
Lemma recordTravel_gas fuel d t g this u this' :
  Body.recordTravel ceil fuel d t g this = (Ok u, this') -> gas (state this') = g.
Proof.
  unfold Body.recordTravel. intro Hr.
  apply bind_ok in Hr as (u0 & m0 & Hv & Hr). apply validateDepth_ok in Hv. subst m0.
  apply bind_ok in Hr as (u1 & m1 & Hm & Hr). apply modify_ok in Hm. subst m1.
  apply bind_ok in Hr as (cd & m2 & Hg & Hr).
  unfold gets in Hg. injection Hg as <- <-.
  cbv zeta in Hr.
  apply bind_ok in Hr as (u3 & m3 & Hl & Hr). apply modify_ok in Hr. subst this'.
  match type of Hl with travelLoop _ ?f ?i ?tt ?dr ?cd ?gg ?m = _ =>
    pose proof (frame_travelLoop ceil ceil_readonly f i tt dr cd gg m) as Hf end.
  rewrite Hl in Hf. unfold frame in Hf. simpl in Hf. simpl. congruence.
Qed.

Lemma recordTravelWithRate_gas fuel d r g this u this' :
  Body.recordTravelWithRate ceil fuel d r g this = (Ok u, this') -> gas (state this') = g.
Proof.
  unfold Body.recordTravelWithRate, bind at 1, gets at 1. cbv zeta.
  apply recordTravel_gas.
Qed.
End GasAfter.

(* ------------------------------------------------------------------ *)
(** ** Gas-list closure of the decompression schedule *)

Lemma insertByO2_In (x g : Gas) (l : list Gas) :
  In x (insertByO2 g l) -> x = g \/ In x l.
Proof.
  induction l as [|h t IH]; simpl.
  - intros [<-|[]]; left; reflexivity.
  - destruct (0 <? o2Pp h - o2Pp g)%float; simpl.
    + intros [<-|[<-|Ht]]; auto.
    + intros [<-|Hi]; auto. destruct (IH Hi); auto.
Qed.

Lemma sortByO2_In (x : Gas) (l : list Gas) : In x (sortByO2 l) -> In x l.
Proof.
  unfold sortByO2.
  assert (Hgen : forall acc, In x (fold_left (fun acc g => insertByO2 g acc) l acc) ->
                             In x l \/ In x acc).
  { induction l as [|g l IH]; simpl; intros acc Hx; [right; exact Hx|].
    destruct (IH _ Hx) as [Hl|Ha]; [left; right; exact Hl|].
    destruct (insertByO2_In _ _ _ Ha) as [->|Hacc]; [left; left; reflexivity|].
    right; exact Hacc. }
  intro Hx. destruct (Hgen [] Hx) as [Hl|[]]. exact Hl.
Qed.

(** A switch candidate is drawn from the list. *)
Lemma nextSwitchGas_In this d g gasMixes ng :
  nextSwitchGas this d g gasMixes = Some ng -> In ng gasMixes.
Proof.
  unfold nextSwitchGas.
  set (candidates := filter _ gasMixes).
  destruct candidates as [|c0 cs] eqn:Ec; [discriminate|].
  intro Hh. assert (Hin : In ng (sortByO2 (c0 :: cs))).
  { destruct (sortByO2 (c0 :: cs)); [discriminate|].
    injection Hh as <-. left; reflexivity. }
  apply sortByO2_In in Hin. rewrite <- Ec in Hin.
  unfold candidates in Hin. apply filter_In in Hin. apply Hin.
Qed.

Lemma registerDecoStage_closed gasMixes stages stage :
  stagesClosed gasMixes stages ->
  gasInList gasMixes (stageGas stage) ->
  stagesClosed gasMixes (registerDecoStage stages stage).
Proof.
  unfold stagesClosed, registerDecoStage. intros Hs Hg.
  assert (Hpush : Forall (fun s => gasInList gasMixes (stageGas s)) (stages ++ [stage])).
  { apply Forall_app. split; [exact Hs|]. constructor; [exact Hg|constructor]. }
  destruct (rev stages) as [|lastStage before] eqn:Er; [exact Hpush|].
  match goal with |- context [if ?b then _ else _] => destruct b end; [|exact Hpush].
  assert (Hst : stages = rev before ++ [lastStage]).
  { rewrite <- (rev_involutive stages), Er. reflexivity. }
  rewrite Hst in Hs. apply Forall_app in Hs as [Hb Hl].
  apply Forall_app. split; [exact Hb|].
  constructor; [|constructor]. simpl. inversion Hl; assumption.
Qed.

Section Closure.
Context `{JSMath}.

Lemma nextDecoAction_ok fuel simModel gasMixes this act og simModel' this' :
  nextDecoAction fuel simModel gasMixes this = (Ok (act, og, simModel'), this') ->
  simModel' = simModel /\ forall ng, og = Some ng -> In ng gasMixes.
Proof.
  unfold nextDecoAction, bind, gets, call, ret.
  destruct (asMeters (depth (state simModel)) <=? 0)%float.
  { intro Hr. injection Hr as <- <- <- <-. split; [reflexivity|discriminate]. }
  pose proof (readonly_ceiling fuel simModel) as Hro.
  destruct (ceiling fuel simModel) as [[c|e|] sim1]; simpl in Hro; subst; try discriminate.
  destruct (nextSwitchGas this (depth (state simModel)) (gas (state simModel)) gasMixes)
    as [g|] eqn:En.
  - apply nextSwitchGas_In in En.
    repeat match goal with |- context [if ?b then _ else _] => destruct b end;
      intro Hr; injection Hr as <- <- <- <-; (split; [reflexivity|]);
      intros ng Hng; try discriminate; injection Hng as <-; exact En.
  - repeat match goal with |- context [if ?b then _ else _] => destruct b end;
      intro Hr; injection Hr as <- <- <- <-; (split; [reflexivity|]);
      intros ng Hng; discriminate.
Qed.

Lemma decoLoop_closed fuel gasMixes n :
  forall simModel stages this res this',
    gasInList gasMixes (gas (state simModel)) ->
    stagesClosed gasMixes stages ->
    decoLoop fuel n gasMixes simModel stages this = (Ok res, this') ->
    stagesClosed gasMixes res.
Proof.
  pose proof (readonly_ceiling fuel) as Hceil.
  induction n as [|n IH]; intros simModel stages this res this' Hgas Hst Hrun;
    simpl in Hrun; [discriminate|].
  apply bind_ok in Hrun as ([c sim1] & m1 & Hc & Hrun).
  apply call_ok in Hc as [Hc ->].
  pose proof (Hceil simModel) as Hro. rewrite Hc in Hro. simpl in Hro. subst sim1.
  apply bind_ok in Hrun as ([[act og] sim2] & m2 & Hact & Hrun).
  pose proof (readonly_nextDecoAction fuel simModel gasMixes this) as Hm2.
  rewrite Hact in Hm2. simpl in Hm2. subst m2.
  apply nextDecoAction_ok in Hact as [-> Hog].
  destruct act as [[| |]|].
  - (* Ascent *)
    apply bind_ok in Hrun as (cfg & m3 & Hcfg & Hrun).
    unfold config, gets in Hcfg. injection Hcfg as <- <-.
    apply bind_ok in Hrun as ([u sim3] & m4 & Htr & Hrun).
    apply call_ok in Htr as [Htr ->].
    apply recordTravelWithRate_gas in Htr; [|exact Hceil].
    eapply IH; [| |exact Hrun].
    + rewrite Htr. exact Hgas.
    + apply Forall_app. split; [exact Hst|].
      constructor; [|constructor]. simpl. rewrite Htr. exact Hgas.
  - (* DecoStop *)
    apply bind_ok in Hrun as ([u sim3] & m4 & Hrec & Hrun).
    apply call_ok in Hrec as [Hrec ->].
    apply record_gas in Hrec; [|exact Hceil].
    eapply IH; [| |exact Hrun].
    + rewrite Hrec. exact Hgas.
    + apply registerDecoStage_closed; [exact Hst|]. simpl. rewrite Hrec. exact Hgas.
  - (* GasSwitch *)
    destruct og as [ng|]; [|eapply IH; eassumption].
    specialize (Hog ng eq_refl).
    apply bind_ok in Hrun as (cfg & m3 & Hcfg & Hrun).
    unfold config, gets in Hcfg. injection Hcfg as <- <-.
    apply bind_ok in Hrun as ([stages1 sim3] & m4 & Hasc & Hrun).
    assert (Hinv : stagesClosed gasMixes stages1).
    { destruct (DepthM.greaterThan (depth (state simModel)) (GasM.maxOperatingDepth ng 1.6)).
      - apply bind_ok in Hasc as ([u sim4] & m5 & Htr & Hasc).
        unfold ret in Hasc. injection Hasc as <- <- <-.
        apply Forall_app. split; [exact Hst|].
        constructor; [|constructor]. simpl. exact Hgas.
      - unfold ret in Hasc. injection Hasc as <- <- <-. exact Hst. }
    apply bind_ok in Hrun as ([u sim5] & m6 & Hrec & Hrun).
    apply call_ok in Hrec as [Hrec ->].
    apply record_gas in Hrec; [|exact Hceil].
    eapply IH; [| |exact Hrun].
    + rewrite Hrec. left; exact Hog.
    + apply registerDecoStage_closed; [exact Hinv|]. simpl. left; exact Hog.
  - (* finished *)
    unfold ret in Hrun. injection Hrun as <- <-. exact Hst.
Qed.

(** C7.  Whenever [deco(gasMixes)] returns a runtime, the gas list is
    non-empty and holds the current gas, and every stage of the runtime has a
    gas of the list: ascents and stops use the current gas, gas switches a
    candidate drawn from the list. *)
Theorem deco_stages_use_listed_gases
    (fuel : nat) (gasMixes : list Gas) (this : BuhlmannModel) (runtime : DecoRuntime) :
  fst (deco fuel gasMixes this) = Ok runtime ->
  gasMixes <> []
  /\ gasInList gasMixes (gas (state this))
  /\ Forall (fun stage => gasInList gasMixes (stageGas stage)) (decoStages runtime).
Proof.
  unfold deco. intro Hrun.
  destruct (bind clone _ this) as [r this'] eqn:Hd. simpl in Hrun. subst r.
  apply bind_ok in Hd as (simModel & m1 & Hcl & Hd).
  assert (Hgas : gas (state (setSim true simModel)) = gas (state this)).
  { unfold clone in Hcl. destruct (new _); try discriminate.
    injection Hcl as <- _. reflexivity. }
  cbv zeta in Hd.
  destruct gasMixes as [|g0 rest]; [discriminate|].
  change ((List.length (g0 :: rest) =? 0)%nat) with false in Hd. cbv iota in Hd.
  destruct (existsb _ (g0 :: rest)) eqn:Ein; simpl negb in Hd; cbv iota in Hd;
    [|discriminate].
  rewrite Hgas in Ein.
  apply bind_ok in Hd as (stages & m2 & Hloop & Hd).
  unfold ret in Hd. injection Hd as <- _.
  split; [discriminate|]. split; [right; exact Ein|].
  simpl. eapply decoLoop_closed; [| |exact Hloop].
  - rewrite Hgas. right; exact Ein.
  - constructor.
Qed.
End Closure.

(* ------------------------------------------------------------------ *)
(** ** The no-decompression limit *)

Lemma SFmul_comm x y : SFmul prec emax x y = SFmul prec emax y x.
Proof.
  destruct x as [sx|sx| |sx mx ex], y as [sy|sy| |sy my ey];
    try reflexivity; cbn [SFmul]; try (rewrite xorb_comm; reflexivity).
  rewrite xorb_comm, Pos.mul_comm, Z.add_comm. reflexivity.
Qed.

Lemma float_mul_comm (x y : float) : (x * y = y * x)%float.
Proof. apply Prim2SF_inj. rewrite !mul_spec. apply SFmul_comm. Qed.

(** [interval.multiply(i)] for the 1-minute interval is [i] minutes. *)
Lemma one_minute_times (x : float) :
  TimeM.multiply (TimeM.fromMinutes 1) x = TimeM.fromMinutes x.
Proof.
  unfold TimeM.multiply, TimeM.fromMinutes. simpl.
  change (1 * 60)%float with 60%float. f_equal. apply float_mul_comm.
Qed.

Section Ndl.
Context `{JSMath}.

Lemma simAfter_shift fuel this simModel k :
  simAfter fuel this simModel (S k)
  = simAfter fuel this (snd (minuteAt fuel this simModel)) k.
Proof.
  induction k as [|k IH]; [reflexivity|].
  change (simAfter fuel this simModel (S (S k)))
    with (snd (minuteAt fuel this (simAfter fuel this simModel (S k)))).
  rewrite IH. reflexivity.
Qed.

(** One iteration of the loop of [ndl]. *)
Lemma ndlLoop_step fuel r x interval simModel ndl0 this :
  ndlLoop fuel (S r) x interval simModel ndl0 this =
  match record fuel (depth (state this)) interval (gas (state this)) simModel with
  | (Ok _, sim1) =>
      match inDeco fuel sim1 with
      | (Ok true, _) => (Ok (TimeM.multiply interval x), this)
      | (Ok false, sim2) => ndlLoop fuel r (x + 1)%float interval sim2 ndl0 this
      | (Throw e, _) => (Throw e, this)
      | (OutOfFuel, _) => (OutOfFuel, this)
      end
  | (Throw e, _) => (Throw e, this)
  | (OutOfFuel, _) => (OutOfFuel, this)
  end.
Proof.
  simpl. unfold bind, gets, call.
  destruct (record fuel _ interval _ simModel) as [[u|e|] sim1]; try reflexivity.
  destruct (inDeco fuel sim1) as [[[|]|e|] sim2]; reflexivity.
Qed.

Lemma ndlLoop_found fuel this ndl0 :
  forall r simModel x i,
    (i < r)%nat ->
    (forall j, (j <= i)%nat -> fst (minuteAt fuel this (simAfter fuel this simModel j)) = Ok tt) ->
    (forall j, (j < i)%nat -> fst (inDeco fuel (simAfter fuel this simModel (S j))) = Ok false) ->
    fst (inDeco fuel (simAfter fuel this simModel (S i))) = Ok true ->
    fst (ndlLoop fuel r x (TimeM.fromMinutes 1) simModel ndl0 this)
    = Ok (TimeM.multiply (TimeM.fromMinutes 1) (Nat.iter i (fun y => (y + 1)%float) x)).
Proof.
  induction r as [|r IH]; intros simModel x i Hi Hstep Hclear Hdeco; [lia|].
  rewrite ndlLoop_step.
  pose proof (Hstep O (Nat.le_0_l i)) as H0. simpl in H0. unfold minuteAt in H0.
  destruct (record fuel (depth (state this)) (TimeM.fromMinutes 1) (gas (state this))
                   simModel) as [[[]|e|] sim1] eqn:Er; simpl in H0; try discriminate.
  assert (Hs1 : sim1 = snd (minuteAt fuel this simModel))
    by (unfold minuteAt; rewrite Er; reflexivity).
  pose proof (readonly_inDeco fuel sim1) as Hro.
  destruct i as [|i].
  - simpl in Hdeco. rewrite <- Hs1 in Hdeco.
    destruct (inDeco fuel sim1) as [[[|]|e|] sim2]; simpl in Hdeco; try discriminate.
    reflexivity.
  - pose proof (Hclear O (Nat.lt_0_succ i)) as Hc. simpl in Hc. rewrite <- Hs1 in Hc.
    destruct (inDeco fuel sim1) as [[[|]|e|] sim2]; simpl in Hc; try discriminate.
    simpl in Hro. subst sim2.
    rewrite (IH sim1 (x + 1)%float i).
    + rewrite Nat.iter_succ_r. reflexivity.
    + lia.
    + intros j Hj. rewrite Hs1, <- simAfter_shift. apply Hstep. lia.
    + intros j Hj. rewrite Hs1, <- simAfter_shift. apply Hclear. lia.
    + rewrite Hs1, <- simAfter_shift. exact Hdeco.
Qed.

Lemma ndlLoop_cutoff fuel this ndl0 :
  forall r simModel x,
    (forall j, (j < r)%nat ->
       fst (minuteAt fuel this (simAfter fuel this simModel j)) = Ok tt
       /\ fst (inDeco fuel (simAfter fuel this simModel (S j))) = Ok false) ->
    fst (ndlLoop fuel r x (TimeM.fromMinutes 1) simModel ndl0 this) = Ok ndl0.
Proof.
  induction r as [|r IH]; intros simModel x Hall; [reflexivity|].
  rewrite ndlLoop_step.
  destruct (Hall O (Nat.lt_0_succ r)) as [H0 Hc]. simpl in H0, Hc. unfold minuteAt in H0, Hc.
  destruct (record fuel (depth (state this)) (TimeM.fromMinutes 1) (gas (state this))
                   simModel) as [[[]|e|] sim1] eqn:Er; simpl in H0; try discriminate.
  simpl in Hc.
  assert (Hs1 : sim1 = snd (minuteAt fuel this simModel))
    by (unfold minuteAt; rewrite Er; reflexivity).
  pose proof (readonly_inDeco fuel sim1) as Hro.
  destruct (inDeco fuel sim1) as [[[|]|e|] sim2]; simpl in Hc; try discriminate.
  simpl in Hro. subst sim2.
  apply IH. intros j Hj. rewrite Hs1, <- !simAfter_shift. apply Hall. lia.
Qed.

(** C5.  [ndl()] returns 0 whenever the model is in deco.  Otherwise it forks
    the model and, for i = 0..98, records a 1-minute segment at the current
    depth and gas on the fork: it returns i minutes at the first i after
    which the fork is in deco, and the 99-minute cut-off when the fork is not
    in deco after any of the 99 records. *)
Theorem ndl_forward_simulation (fuel : nat) (this : BuhlmannModel) :
  (fst (inDeco fuel this) = Ok true -> fst (ndl fuel this) = Ok TimeM.zero)
  /\ (forall simModel,
        fst (inDeco fuel this) = Ok false ->
        fst (fork this) = Ok simModel ->
        (forall i,
           (i < 99)%nat ->
           (forall j, (j <= i)%nat ->
              fst (minuteAt fuel this (simAfter fuel this simModel j)) = Ok tt) ->
           (forall j, (j < i)%nat ->
              fst (inDeco fuel (simAfter fuel this simModel (S j))) = Ok false) ->
           fst (inDeco fuel (simAfter fuel this simModel (S i))) = Ok true ->
           fst (ndl fuel this) = Ok (TimeM.fromMinutes (counter i)))
        /\ ((forall j, (j < 99)%nat ->
               fst (minuteAt fuel this (simAfter fuel this simModel j)) = Ok tt
               /\ fst (inDeco fuel (simAfter fuel this simModel (S j))) = Ok false) ->
            fst (ndl fuel this) = Ok (TimeM.fromMinutes NDL_CUT_OFF_MINS))).
Proof.
  pose proof (readonly_inDeco fuel this) as Hro.
  split.
  - intro Hd. unfold ndl, bind.
    destruct (inDeco fuel this) as [[[|]|e|] this1]; simpl in Hd; try discriminate.
    reflexivity.
  - intros simModel Hd Hf.
    assert (Hndl : ndl fuel this
                   = ndlLoop fuel 99 0%float (TimeM.fromMinutes 1) simModel
                             (TimeM.fromMinutes NDL_CUT_OFF_MINS) this).
    { unfold ndl, bind.
      destruct (inDeco fuel this) as [[[|]|e|] this1]; simpl in Hd, Hro;
        try discriminate. subst this1.
      pose proof (readonly_fork this) as Hrf.
      destruct (fork this) as [[s|e|] this2]; simpl in Hf, Hrf; try discriminate.
      subst this2. injection Hf as ->. reflexivity. }
    split.
    + intros i Hi Hstep Hclear Hdeco. rewrite Hndl.
      rewrite (ndlLoop_found fuel this _ 99 simModel 0%float i Hi Hstep Hclear Hdeco).
      rewrite one_minute_times. reflexivity.
    + intros Hall. rewrite Hndl.
      apply ndlLoop_cutoff. exact Hall.
Qed.

(** [clearFor] decides the hypothesis on the first [n] records. *)
Lemma clearFor_sound fuel this :
  forall n simModel,
    clearFor fuel this simModel n = true ->
    forall j, (j < n)%nat ->
      fst (minuteAt fuel this (simAfter fuel this simModel j)) = Ok tt
      /\ fst (inDeco fuel (simAfter fuel this simModel (S j))) = Ok false.
Proof.
  induction n as [|n IH]; intros simModel Hc j Hj; [lia|].
  simpl in Hc.
  destruct (minuteAt fuel this simModel) as [[[]|e|] sim1] eqn:Em; try discriminate.
  destruct (fst (inDeco fuel sim1)) as [[|]|e|] eqn:Ed; try discriminate.
  assert (Hs1 : sim1 = snd (minuteAt fuel this simModel)) by (rewrite Em; reflexivity).
  destruct j as [|j].
  - simpl. rewrite Em. simpl. split; [reflexivity|exact Ed].
  - rewrite (simAfter_shift fuel this simModel j),
      (simAfter_shift fuel this simModel (S j)), <- Hs1.
    apply IH; [exact Hc|lia].
Qed.
End Ndl.

(* ------------------------------------------------------------------ *)
(** ** The adaptive ceiling *)

Section Adaptive.
Context `{JSMath}.

(** A simulation model never enters the adaptive branch: its ceiling is the
    actual one, whatever the configured ceiling type and the fuel. *)
Lemma ceiling_of_simulation (fuel : nat) (m : BuhlmannModel) :
  sim m = true -> fst (ceiling (S fuel) m) = actualCeiling m.
Proof.
  intro Hs. simpl. unfold ceilingBody, actualCeiling, bind, config, gets.
  simpl. rewrite Hs.
  destruct (leadingComp m) as [[idx lc]|]; simpl; [|reflexivity].
  destruct (Config.roundCeiling (configuration m)); reflexivity.
Qed.

(** The model [fork()] returns is a simulation model. *)
Lemma fork_is_simulation (this simModel : BuhlmannModel) :
  fst (fork this) = Ok simModel -> sim simModel = true.
Proof.
  unfold fork. destruct (new _); simpl; intro Hf; try discriminate.
  injection Hf as <-. reflexivity.
Qed.

(** Recording on a simulation model leaves it a simulation model. *)
Lemma recording_keeps_simulation (fuel : nat) (m : BuhlmannModel) :
  (forall d t g, sim (snd (record fuel d t g m)) = sim m)
  /\ (forall d t g, sim (snd (recordTravel fuel d t g m)) = sim m)
  /\ (forall d r g, sim (snd (recordTravelWithRate fuel d r g m)) = sim m).
Proof.
  pose proof (readonly_ceiling fuel) as Hro.
  repeat split; intros.
  - pose proof (static_record (ceiling fuel) Hro d t g m) as Hs.
    unfold static in Hs. unfold record. congruence.
  - pose proof (static_recordTravel (ceiling fuel) Hro fuel d t g m) as Hs.
    unfold static in Hs. unfold recordTravel. congruence.
  - pose proof (static_recordTravelWithRate (ceiling fuel) Hro fuel d r g m) as Hs.
    unfold static in Hs. unfold recordTravelWithRate. congruence.
Qed.

(** The iteration counter of the adaptive loop never passes 51. *)
Lemma adaptiveLoop_bounded (ceil : M Depth) (travelFuel : nat) (cfg : BuhlmannConfig)
    (g : Gas) :
  forall fuel it cc simModel this c' it' this',
    (it <= 50)%nat ->
    adaptiveLoop ceil fuel travelFuel cfg g it cc simModel this = (Ok (c', it'), this') ->
    (it' <= 51)%nat.
Proof.
  induction fuel as [|fuel IH]; intros it cc simModel this c' it' this' Hit Hrun;
    simpl in Hrun.
  - destruct (_ || _); [|discriminate].
    unfold ret in Hrun. injection Hrun as _ <- _. lia.
  - destruct (_ || _).
    { unfold ret in Hrun. injection Hrun as _ <- _. lia. }
    apply bind_ok in Hrun as ([u sim1] & m1 & _ & Hrun).
    apply bind_ok in Hrun as ([c1 sim2] & m2 & _ & Hrun).
    cbv zeta in Hrun.
    destruct (50 <? S it)%nat eqn:Ecap.
    + unfold ret in Hrun. injection Hrun as _ <- _. lia.
    + apply Nat.ltb_ge in Ecap. eapply IH; [|exact Hrun]. lia.
Qed.

(** Fuel beyond the iterations the cap leaves to the loop changes nothing:
    with 51 units the loop itself never runs out. *)
Lemma adaptiveLoop_fuel (ceil : M Depth) (travelFuel : nat) (cfg : BuhlmannConfig) (g : Gas) :
  forall fuel it extra cc simModel this,
    (it <= 50)%nat -> (51 <= it + fuel)%nat ->
    adaptiveLoop ceil (fuel + extra) travelFuel cfg g it cc simModel this
    = adaptiveLoop ceil fuel travelFuel cfg g it cc simModel this.
Proof.
  induction fuel as [|fuel IH]; intros it extra cc simModel this Hit Hf; [lia|].
  simpl.
  destruct (_ || _); [reflexivity|].
  unfold bind.
  destruct (call simModel _ this) as [[[u sim1]|e|] m1]; try reflexivity.
  destruct (call sim1 ceil m1) as [[[c1 sim2]|e|] m2]; try reflexivity.
  cbv zeta.
  destruct (50 <? S it)%nat eqn:Ecap; [reflexivity|].
  apply Nat.ltb_ge in Ecap. apply IH; lia.
Qed.

(** [ceiling()] of a simulation model never runs out of fuel. *)
Lemma actualCeiling_returns (m : BuhlmannModel) : actualCeiling m <> OutOfFuel.
Proof. unfold actualCeiling. destruct (leadingComp m) as [[idx lc]|]; discriminate. Qed.

(** [ascendsFor] decides [aboveCeilingFor]. *)
Lemma ascendsFor_sound (fuel : nat) (cfg : BuhlmannConfig) (simGas : Gas) :
  forall k st, ascendsFor fuel cfg simGas st k = true ->
               aboveCeilingFor fuel cfg simGas st k.
Proof.
  induction k as [|k IH]; intros st Hk j c m Hj Hst; [lia|].
  cbn [ascendsFor] in Hk. apply andb_true_iff in Hk as [Hn Hk].
  destruct j as [|j].
  - cbn [ascents] in Hst. injection Hst as ->. cbn [fst snd] in Hn.
    apply negb_true_iff in Hn. exact Hn.
  - cbn [ascents] in Hst.
    destruct (ascend fuel cfg simGas st) as [st'|e|]; try discriminate.
    apply (IH st' Hk j c m); [lia|exact Hst].
Qed.

(** One iteration of the loop that does not break at the stop test. *)
Lemma adaptiveLoop_step (fuelc loopFuel : nat) (cfg : BuhlmannConfig) (g : Gas)
    (it : nat) (cc : Depth) (simModel this : BuhlmannModel) :
  atCeiling simModel cc = false ->
  adaptiveLoop (ceiling fuelc) (S loopFuel) fuelc cfg g it cc simModel this
  = match ascend fuelc cfg g (cc, simModel) with
    | Ok (c1, sim1) =>
        if (50 <? S it)%nat then (Ok (c1, S it), this)
        else adaptiveLoop (ceiling fuelc) loopFuel fuelc cfg g (S it) c1 sim1 this
    | Throw e => (Throw e, this)
    | OutOfFuel => (OutOfFuel, this)
    end.
Proof.
  intro Hstop. cbn [adaptiveLoop]. unfold atCeiling in Hstop. cbv zeta in Hstop.
  rewrite Hstop. unfold ascend, ascentAt, recordTravelWithRate. cbn [fst snd].
  unfold bind at 1, call at 1.
  destruct (Body.recordTravelWithRate (ceiling fuelc) fuelc cc
              (Config.decoAscentRate cfg) g simModel) as [[u|e|] sim1];
    try reflexivity.
  unfold bind at 1, call at 1.
  pose proof (readonly_ceiling fuelc sim1) as Hro.
  destruct (ceiling fuelc sim1) as [[c1|e|] sim2]; cbn [fst snd] in Hro |- *;
    try reflexivity.
  subst sim2. cbv zeta. destruct (50 <? S it)%nat; reflexivity.
Qed.

Lemma adaptiveLoop_stop (fuelc loopFuel : nat) (cfg : BuhlmannConfig) (g : Gas)
    (it : nat) (cc : Depth) (simModel this : BuhlmannModel) :
  atCeiling simModel cc = true ->
  adaptiveLoop (ceiling fuelc) loopFuel fuelc cfg g it cc simModel this
  = (Ok (cc, it), this).
Proof.
  intro Hstop. unfold atCeiling in Hstop. cbv zeta in Hstop.
  destruct loopFuel; cbn [adaptiveLoop]; rewrite Hstop; reflexivity.
Qed.

(** The loop breaks at the first iteration that finds the fork at the
    ceiling. *)
Lemma adaptiveLoop_breaks (fuelc : nat) (cfg : BuhlmannConfig) (g : Gas)
    (this : BuhlmannModel) :
  forall i loopFuel it st c m,
    (it + i <= 50)%nat -> (i <= loopFuel)%nat ->
    ascents fuelc cfg g st i = Ok (c, m) ->
    aboveCeilingFor fuelc cfg g st i ->
    atCeiling m c = true ->
    adaptiveLoop (ceiling fuelc) loopFuel fuelc cfg g it (fst st) (snd st) this
    = (Ok (c, (it + i)%nat), this).
Proof.
  induction i as [|i IH]; intros loopFuel it [cc simModel] c m Hit Hf Hst Hab Hstop.
  - cbn [ascents] in Hst. injection Hst as <- <-. cbn [fst snd].
    rewrite Nat.add_0_r. apply adaptiveLoop_stop. exact Hstop.
  - destruct loopFuel as [|loopFuel]; [lia|]. cbn [fst snd].
    rewrite adaptiveLoop_step
      by (apply (Hab O cc simModel); [lia|reflexivity]).
    cbn [ascents] in Hst.
    assert (Hab' : forall st', ascend fuelc cfg g (cc, simModel) = Ok st' ->
                               aboveCeilingFor fuelc cfg g st' i).
    { intros st' Hst' j cj mj Hj Hsj. apply (Hab (S j) cj mj); [lia|].
      cbn [ascents]. rewrite Hst'. exact Hsj. }
    destruct (ascend fuelc cfg g (cc, simModel)) as [[c1 sim1]|e|]; try discriminate.
    replace (50 <? S it)%nat with false by (symmetry; apply Nat.ltb_ge; lia).
    replace (it + S i)%nat with (S it + i)%nat by lia.
    apply (IH loopFuel (S it) (c1, sim1) c m);
      [lia|lia|exact Hst|apply Hab'; reflexivity|exact Hstop].
Qed.

(** The loop breaks at the cap when no iteration finds the fork at the
    ceiling. *)
Lemma adaptiveLoop_cap (fuelc : nat) (cfg : BuhlmannConfig) (g : Gas)
    (this : BuhlmannModel) :
  forall i loopFuel it st c m,
    (it + S i = 51)%nat -> (S i <= loopFuel)%nat ->
    ascents fuelc cfg g st (S i) = Ok (c, m) ->
    aboveCeilingFor fuelc cfg g st (S i) ->
    adaptiveLoop (ceiling fuelc) loopFuel fuelc cfg g it (fst st) (snd st) this
    = (Ok (c, 51%nat), this).
Proof.
  induction i as [|i IH]; intros loopFuel it [cc simModel] c m Hit Hf Hst Hab;
    (destruct loopFuel as [|loopFuel]; [lia|]); cbn [fst snd];
    rewrite adaptiveLoop_step by (apply (Hab O cc simModel); [lia|reflexivity]);
    cbn [ascents] in Hst.
  - destruct (ascend fuelc cfg g (cc, simModel)) as [[c1 sim1]|e|]; try discriminate.
    injection Hst as <- <-.
    replace (50 <? S it)%nat with true by (symmetry; apply Nat.ltb_lt; lia).
    replace (S it) with 51%nat by lia. reflexivity.
  - assert (Hab' : forall st', ascend fuelc cfg g (cc, simModel) = Ok st' ->
                               aboveCeilingFor fuelc cfg g st' (S i)).
    { intros st' Hst' j cj mj Hj Hsj. apply (Hab (S j) cj mj); [lia|].
      cbn [ascents]. rewrite Hst'. exact Hsj. }
    destruct (ascend fuelc cfg g (cc, simModel)) as [[c1 sim1]|e|]; try discriminate.
    replace (50 <? S it)%nat with false by (symmetry; apply Nat.ltb_ge; lia).
    apply (IH loopFuel (S it) (c1, sim1) c m); [lia|lia|exact Hst|apply Hab'; reflexivity].
Qed.

(** Whenever the loop returns, it made the ascents of [ascents], none from
    at the ceiling, and it stopped at the cap or with the fork at the
    ceiling. *)
Lemma adaptiveLoop_returns (fuelc : nat) (cfg : BuhlmannConfig) (g : Gas)
    (this : BuhlmannModel) :
  forall loopFuel it st c n this',
    (it <= 50)%nat ->
    adaptiveLoop (ceiling fuelc) loopFuel fuelc cfg g it (fst st) (snd st) this
    = (Ok (c, n), this') ->
    this' = this
    /\ exists i m,
         n = (it + i)%nat /\ (n <= 51)%nat
         /\ ascents fuelc cfg g st i = Ok (c, m)
         /\ aboveCeilingFor fuelc cfg g st i
         /\ ((n <= 50)%nat -> atCeiling m c = true).
Proof.
  induction loopFuel as [|loopFuel IH]; intros it [cc simModel] c n this' Hit Hrun;
    cbn [fst snd] in Hrun;
    destruct (atCeiling simModel cc) eqn:Hstop.
  - rewrite adaptiveLoop_stop in Hrun by exact Hstop. injection Hrun as <- <- <-.
    split; [reflexivity|]. exists O, simModel.
    repeat split; try lia; try reflexivity; [intros j cj mj Hj; lia|intros _; exact Hstop].
  - cbn [adaptiveLoop] in Hrun. unfold atCeiling in Hstop. cbv zeta in Hstop.
    rewrite Hstop in Hrun. discriminate.
  - rewrite adaptiveLoop_stop in Hrun by exact Hstop. injection Hrun as <- <- <-.
    split; [reflexivity|]. exists O, simModel.
    repeat split; try lia; try reflexivity; [intros j cj mj Hj; lia|intros _; exact Hstop].
  - rewrite adaptiveLoop_step in Hrun by exact Hstop.
    destruct (ascend fuelc cfg g (cc, simModel)) as [[c1 sim1]|e|] eqn:Hasc;
      try discriminate.
    assert (Hcons : forall i, aboveCeilingFor fuelc cfg g (c1, sim1) i ->
                              aboveCeilingFor fuelc cfg g (cc, simModel) (S i)).
    { intros i Hab j cj mj Hj Hsj. destruct j as [|j].
      - cbn [ascents] in Hsj. injection Hsj as <- <-. exact Hstop.
      - cbn [ascents] in Hsj. rewrite Hasc in Hsj. apply (Hab j cj mj); [lia|exact Hsj]. }
    destruct (50 <? S it)%nat eqn:Ecap.
    + injection Hrun as <- <- <-. apply Nat.ltb_lt in Ecap.
      split; [reflexivity|]. exists 1%nat, sim1.
      split; [lia|]. split; [lia|]. split.
      { cbn [ascents]. rewrite Hasc. reflexivity. }
      split; [apply Hcons; intros j cj mj Hj; lia|lia].
    + apply Nat.ltb_ge in Ecap.
      destruct (IH (S it) (c1, sim1) c n this' ltac:(lia) Hrun)
        as (-> & i & m & Hn & Hn51 & Hst & Hab & Hat).
      split; [reflexivity|]. exists (S i), m.
      split; [lia|]. split; [exact Hn51|]. split.
      { cbn [ascents]. rewrite Hasc. exact Hst. }
      split; [apply Hcons; exact Hab|exact Hat].
Qed.

(** Recording on a simulation model leaves it one. *)
Lemma ascend_sim (fuelc : nat) (cfg : BuhlmannConfig) (g : Gas) st st' :
  sim (snd st) = true -> ascend fuelc cfg g st = Ok st' -> sim (snd st') = true.
Proof.
  intros Hs Hasc. unfold ascend, ascentAt in Hasc.
  destruct (recording_keeps_simulation fuelc (snd st)) as (_ & _ & Hr).
  specialize (Hr (fst st) (Config.decoAscentRate cfg) g).
  destruct (recordTravelWithRate fuelc (fst st) (Config.decoAscentRate cfg) g (snd st))
    as [[u|e|] sim1]; try discriminate.
  cbn [snd] in Hr.
  destruct (fst (ceiling fuelc sim1)) as [c1|e|]; try discriminate.
  injection Hasc as <-. cbn [snd]. congruence.
Qed.

(** With loop fuel for 51 iterations the loop never runs out by itself: when
    it does not return, one of the ascents it makes does not. *)
Lemma adaptiveLoop_exhausted (fuelc : nat) (cfg : BuhlmannConfig) (g : Gas)
    (this : BuhlmannModel) :
  forall loopFuel it st,
    sim (snd st) = true ->
    (it <= 50)%nat -> (51 <= it + loopFuel)%nat ->
    fst (adaptiveLoop (ceiling (S fuelc)) loopFuel (S fuelc) cfg g it (fst st) (snd st) this)
    = OutOfFuel ->
    exists k c m,
      (it + k <= 50)%nat
      /\ ascents (S fuelc) cfg g st k = Ok (c, m)
      /\ aboveCeilingFor (S fuelc) cfg g st (S k)
      /\ fst (ascentAt (S fuelc) cfg g m c) = OutOfFuel.
Proof.
  induction loopFuel as [|loopFuel IH]; intros it [cc simModel] Hs Hit Hf Hrun; [lia|].
  cbn [fst snd] in Hrun, Hs.
  destruct (atCeiling simModel cc) eqn:Hstop.
  { rewrite adaptiveLoop_stop in Hrun by exact Hstop. discriminate. }
  rewrite adaptiveLoop_step in Hrun by exact Hstop.
  destruct (ascend (S fuelc) cfg g (cc, simModel)) as [[c1 sim1]|e|] eqn:Hasc;
    try discriminate.
  - destruct (50 <? S it)%nat eqn:Ecap; [discriminate|]. apply Nat.ltb_ge in Ecap.
    pose proof (ascend_sim (S fuelc) cfg g (cc, simModel) (c1, sim1) Hs Hasc) as Hs1.
    destruct (IH (S it) (c1, sim1) Hs1 ltac:(lia) ltac:(lia) Hrun)
      as (k & c & m & Hk & Hst & Hab & Hout).
    exists (S k), c, m. split; [lia|]. split.
    { cbn [ascents]. rewrite Hasc. exact Hst. }
    split; [|exact Hout].
    intros j cj mj Hj Hsj. destruct j as [|j].
    + cbn [ascents] in Hsj. injection Hsj as <- <-. exact Hstop.
    + cbn [ascents] in Hsj. rewrite Hasc in Hsj. apply (Hab j cj mj); [lia|exact Hsj].
  - exists O, cc, simModel. split; [lia|]. split; [reflexivity|]. split.
    + intros j cj mj Hj Hsj. assert (j = O) by lia. subst j.
      cbn [ascents] in Hsj. injection Hsj as <- <-. exact Hstop.
    + unfold ascend in Hasc. cbn [fst snd] in Hasc.
      destruct (ascentAt (S fuelc) cfg g simModel cc) as [[u|e|] sim1] eqn:Ea;
        try discriminate; [|reflexivity].
      exfalso.
      assert (Hs1 : sim sim1 = true).
      { destruct (recording_keeps_simulation (S fuelc) simModel) as (_ & _ & Hr).
        specialize (Hr cc (Config.decoAscentRate cfg) g).
        unfold ascentAt in Ea. rewrite Ea in Hr. cbn [snd] in Hr. congruence. }
      rewrite (ceiling_of_simulation fuelc sim1 Hs1) in Hasc.
      apply (actualCeiling_returns sim1).
      destruct (actualCeiling sim1); try discriminate. reflexivity.
Qed.

(** C4, amended.  The adaptive branch of [ceiling()] forks the model,
    takes the fork's ceiling and loops: ascend the fork to the ceiling just
    calculated, recalculate.  Whenever it returns, it is after at most 51
    iterations, the fork was above the ceiling (and the surface) before each
    of them, and unless the count is 51 the fork is now at the surface or at
    or below the ceiling returned.  With fuel for 51 iterations: the loop
    breaks at the first iteration that finds the fork at the surface or at
    or below its ceiling; it breaks at the cap, with count 51, when none of
    the iterations 0..50 does (the counter is compared with 50 after it is
    incremented); and it returns whenever its ascents do: when it does not,
    one of the ascents it makes on the fork, from above the ceiling, does
    not.  Under the adaptive ceiling type, [ceiling()] of a model that is
    not a simulation is this result, rounded when configured.  The fork is a
    simulation model and stays one,
    and [ceiling()] of a simulation model is the actual ceiling: the fork
    never re-enters adaptive mode. *)
Theorem adaptive_ceiling_capped_at_51 (fuel : nat) (this : BuhlmannModel) :
  let cfg := configuration this in
  let run := adaptiveCeiling (ceiling (S fuel)) (S fuel) cfg this in
  (forall c it this', run = (Ok (c, it), this') -> (it <= 51)%nat)
  /\ (forall simModel c0,
        fst (fork this) = Ok simModel ->
        fst (ceiling (S fuel) simModel) = Ok c0 ->
        let simGas := ds_gas (diveState simModel) in
        let stateAt := ascents (S fuel) cfg simGas (c0, simModel) in
        let aboveFor := aboveCeilingFor (S fuel) cfg simGas (c0, simModel) in
        (forall c it this',
           run = (Ok (c, it), this') ->
           aboveFor it
           /\ exists m, stateAt it = Ok (c, m)
                        /\ ((it <= 50)%nat -> atCeiling m c = true))
        /\ ((50 <= fuel)%nat ->
            (forall i c m,
               (i <= 50)%nat -> stateAt i = Ok (c, m) -> aboveFor i ->
               atCeiling m c = true ->
               run = (Ok (c, i), this))
            /\ (forall c m,
                  stateAt 51%nat = Ok (c, m) -> aboveFor 51%nat ->
                  run = (Ok (c, 51%nat), this))
            /\ (fst run = OutOfFuel ->
                exists k c m,
                  (k <= 50)%nat /\ stateAt k = Ok (c, m) /\ aboveFor (S k)
                  /\ fst (ascentAt (S fuel) cfg simGas m c) = OutOfFuel)))
  /\ (sim this = false -> Config.ceilingType cfg = Adaptive ->
      fst (ceiling (S (S fuel)) this)
      = match fst run with
        | Ok (c, _) => Ok (rounded cfg c)
        | Throw e => Throw e
        | OutOfFuel => OutOfFuel
        end)
  /\ (forall simModel, fst (fork this) = Ok simModel -> sim simModel = true)
  /\ (forall m d r g,
        sim m = true -> sim (snd (recordTravelWithRate (S fuel) d r g m)) = true)
  /\ (forall m, sim m = true -> ceiling (S fuel) m = (actualCeiling m, m)).
Proof.
  intros cfg run.
  pose proof (readonly_ceiling (S fuel)) as Hro.
  assert (Hact : forall m, sim m = true -> ceiling (S fuel) m = (actualCeiling m, m)).
  { intros m Hs. rewrite (surjective_pairing (ceiling (S fuel) m)).
    rewrite ceiling_of_simulation by exact Hs. rewrite Hro. reflexivity. }
  split; [|split; [|split; [|split; [|split]]]].
  - intros c it this' Hrun. unfold run, adaptiveCeiling in Hrun.
    apply bind_ok in Hrun as (simModel & m1 & _ & Hrun).
    apply bind_ok in Hrun as ([c0 sim1] & m2 & _ & Hrun).
    eapply adaptiveLoop_bounded; [|exact Hrun]. lia.
  - intros simModel c0 Hf Hc simGas stateAt aboveFor.
    assert (Hrun : run = adaptiveLoop (ceiling (S fuel)) (S fuel) (S fuel) cfg simGas
                           O (fst (c0, simModel)) (snd (c0, simModel)) this).
    { unfold run, adaptiveCeiling, bind.
      pose proof (readonly_fork this) as Hrf.
      destruct (fork this) as [[s|e|] m1]; cbn [fst snd] in Hf, Hrf; try discriminate.
      injection Hf as ->. subst m1. unfold call.
      pose proof (Hro simModel) as Hrc.
      destruct (ceiling (S fuel) simModel) as [[c|e|] m1]; cbn [fst snd] in Hc, Hrc;
        try discriminate.
      injection Hc as ->. subst m1. reflexivity. }
    split.
    + intros c it this' Hr. rewrite Hrun in Hr.
      apply adaptiveLoop_returns in Hr; [|lia].
      destruct Hr as (_ & i & m & Hn & _ & Hst & Hab & Hat).
      cbn [Nat.add] in Hn. subst i.
      split; [exact Hab|]. exists m. split; assumption.
    + intro Hfuel. split; [|split].
      * intros i c m Hi Hst Hab Hstop. rewrite Hrun.
        apply (adaptiveLoop_breaks (S fuel) cfg simGas this i (S fuel) O (c0, simModel) c m);
          try assumption; lia.
      * intros c m Hst Hab. rewrite Hrun.
        apply (adaptiveLoop_cap (S fuel) cfg simGas this 50 (S fuel) O (c0, simModel) c m);
          try assumption; lia.
      * intro Hout. rewrite Hrun in Hout.
        apply adaptiveLoop_exhausted in Hout;
          [|apply (fork_is_simulation this); exact Hf|lia|lia].
        destruct Hout as (k & c & m & Hk & Hst & Hab & Hasc).
        exists k, c, m. repeat split; assumption.
  - intros Hs Hct.
    change (ceiling (S (S fuel))) with (ceilingBody (ceiling (S fuel)) (S fuel)).
    unfold ceilingBody.
    unfold bind at 1, config, gets at 1. unfold bind at 1, gets at 1. rewrite Hs.
    fold cfg. rewrite Hct.
    unfold bind at 1, gets at 1. unfold bind at 1. unfold bind at 1.
    fold run. destruct run as [[[c it]|e|] m1]; cbn [fst]; try reflexivity.
    unfold rounded. destruct (Config.roundCeiling cfg); reflexivity.
  - apply fork_is_simulation.
  - intros m d r g Hs.
    destruct (recording_keeps_simulation (S fuel) m) as (_ & _ & Hr).
    rewrite Hr. exact Hs.
  - exact Hact.
Qed.
End Adaptive.

(* ------------------------------------------------------------------ *)
(** ** The loop counter of [recordTravel]

    [i++] on a JavaScript number is exact up to 2^53 and leaves the number
    unchanged from there on, so the counter never reaches Infinity. *)

Section Counter.
Local Open Scope Z_scope.

Lemma digits2_pos_log2 (p : positive) : Zpos (digits2_pos p) = Z.log2 (Zpos p) + 1.
Proof.
  assert (E : forall q, digits2_pos q = Pos.size q) by (induction q; simpl; congruence).
  rewrite E. destruct p; simpl; lia.
Qed.

Lemma iter_xO (n m : positive) : Zpos (Pos.iter xO m n) = Zpos m * 2 ^ Zpos n.
Proof.
  revert m. induction n using Pos.peano_ind; intro m.
  - simpl. lia.
  - rewrite Pos.iter_succ, Pos2Z.inj_succ, Z.pow_succ_r by lia.
    rewrite Pos2Z.inj_xO, IHn. lia.
Qed.

Lemma iter_pos_nat {A} (f : A -> A) (n : positive) (x : A) :
  SpecFloat.iter_pos f n x = Nat.iter (Pos.to_nat n) f x.
Proof.
  revert x. induction n; intro x; simpl SpecFloat.iter_pos.
  - rewrite !IHn, Pos2Nat.inj_xI.
    replace (S (2 * Pos.to_nat n))%nat with (Pos.to_nat n + (Pos.to_nat n + 1))%nat by lia.
    rewrite !Nat.iter_add. reflexivity.
  - rewrite !IHn, Pos2Nat.inj_xO.
    replace (2 * Pos.to_nat n)%nat with (Pos.to_nat n + Pos.to_nat n)%nat by lia.
    rewrite Nat.iter_add. reflexivity.
  - reflexivity.
Qed.

Lemma shr_1_exact (n : nat) (q : positive) :
  Nat.iter n shr_1 (Build_shr_record (Zpos q * 2 ^ Z.of_nat n) false false)
  = Build_shr_record (Zpos q) false false.
Proof.
  induction n.
  - simpl. f_equal. lia.
  - rewrite Nat.iter_succ_r.
    replace (Zpos q * 2 ^ Z.of_nat (S n)) with (Zpos (xO (Z.to_pos (Zpos q * 2 ^ Z.of_nat n)))).
    + cbn [shr_1 orb]. rewrite Z2Pos.id by lia. exact IHn.
    + rewrite Pos2Z.inj_xO, Z2Pos.id, Nat2Z.inj_succ, Z.pow_succ_r by lia. lia.
Qed.

Lemma log2_range z : 0 < z < 2 ^ 53 -> 0 <= Z.log2 z <= 52.
Proof.
  intros [H0 H1]. split; [apply Z.log2_nonneg|].
  apply Z.log2_lt_pow2 in H1; lia.
Qed.

Lemma SFadd_one (z : Z) :
  0 < z -> z + 1 < 2 ^ 53 ->
  SFadd prec emax (SFofZ z) (SFofZ 1) = SFofZ (z + 1).
Proof.
  intros Hz Hz1.
  pose proof (log2_range z ltac:(lia)) as Hj.
  pose proof (log2_range (z + 1) ltac:(lia)) as Hj'.
  set (j := Z.log2 z) in *. set (j' := Z.log2 (z + 1)) in *.
  assert (Hp : 0 < 2 ^ (52 - j)) by (apply Z.pow_pos_nonneg; lia).
  assert (Hp' : 0 < 2 ^ (52 - j')) by (apply Z.pow_pos_nonneg; lia).
  unfold SFofZ. fold j j'. change (Z.log2 1) with 0. 
  change (Z.to_pos (1 * 2 ^ (52 - 0))) with 4503599627370496%positive.
  change (0 - 52) with (-52).
  unfold SFadd.
  replace (Z.min (j - 52) (-52)) with (-52) by lia.
  assert (E1 : Zpos (fst (shl_align (Z.to_pos (z * 2 ^ (52 - j))) (j - 52) (-52)))
               = z * 2 ^ 52).
  { unfold shl_align. replace (-52 - (j - 52)) with (- j) by lia.
    destruct j as [|pj|pj] eqn:Ej; try lia.
    - simpl Z.opp. cbn [fst]. rewrite Z2Pos.id by lia. reflexivity.
    - simpl Z.opp. cbn [fst]. rewrite iter_xO, Z2Pos.id by lia.
      rewrite <- Z.mul_assoc, <- Z.pow_add_r by lia. f_equal. f_equal. lia. }
  cbn [cond_Zopp]. rewrite E1.
  change (fst (shl_align 4503599627370496 (-52) (-52))) with 4503599627370496%positive.
  replace (z * 2 ^ 52 + 4503599627370496) with (Zpos (Z.to_pos ((z + 1) * 2 ^ 52)))
    by (rewrite Z2Pos.id by lia; lia).
  set (S := Z.to_pos ((z + 1) * 2 ^ 52)).
  assert (HS : Zpos S = (z + 1) * 2 ^ 52) by (unfold S; rewrite Z2Pos.id; lia).
  assert (HdS : Zpos (digits2_pos S) = j' + 53).
  { rewrite digits2_pos_log2, HS, Z.log2_mul_pow2 by lia. fold j'. lia. }
  unfold binary_normalize, binary_round.
  rewrite HdS.
  assert (Hfexp : forall d, 0 <= d <= 52 -> fexp prec emax (d + 53 + -52) = d - 52).
  { intros d Hd. unfold fexp, emin, prec, emax. lia. }
  rewrite Hfexp by lia.
  replace (shl_align S (-52) (j' - 52)) with (S, -52).
  2:{ unfold shl_align. replace (j' - 52 - -52) with j' by lia.
      destruct j'; try reflexivity; lia. }
  unfold binary_round_aux.
  unfold shr_fexp at 1. cbn [Zdigits2 shr_record_of_loc]. rewrite HdS, Hfexp by lia.
  replace (j' - 52 - -52) with j' by lia.
  set (q := Z.to_pos ((z + 1) * 2 ^ (52 - j'))).
  assert (Hq : Zpos q = (z + 1) * 2 ^ (52 - j')) by (unfold q; rewrite Z2Pos.id; lia).
  assert (Hshr : shr (Build_shr_record (Zpos S) false false) (-52) j'
                 = (Build_shr_record (Zpos q) false false, j' - 52)).
  { unfold shr. destruct j' as [|pj|pj] eqn:Ej; try lia.
    - replace (Zpos S) with (Zpos q) by (rewrite HS, Hq; reflexivity). reflexivity.
    - rewrite iter_pos_nat.
      replace (Zpos S) with (Zpos q * 2 ^ Z.of_nat (Pos.to_nat pj)).
      + rewrite shr_1_exact. f_equal; lia.
      + rewrite positive_nat_Z, HS, Hq, <- Z.mul_assoc, <- Z.pow_add_r by lia.
        f_equal. f_equal. lia. }
  rewrite Hshr. cbn [shr_m loc_of_shr_record round_nearest_even].
  assert (Hdq : Zpos (digits2_pos q) = 53).
  { rewrite digits2_pos_log2, Hq, Z.log2_mul_pow2 by lia. fold j'. lia. }
  unfold shr_fexp. cbn [Zdigits2 shr_record_of_loc]. rewrite Hdq.
  replace (fexp prec emax (53 + (j' - 52)) - (j' - 52)) with 0
    by (unfold fexp, emin, prec, emax; lia).
  cbn [shr shr_m].
  replace (j' - 52 <=? emax - prec) with true
    by (symmetry; apply Z.leb_le; unfold emax, prec; lia).
  reflexivity.
Qed.

Lemma counter_spec (k : nat) : Prim2SF (counter k) = SFcount (Z.of_nat k).
Proof.
  induction k as [|k IH]; [reflexivity|].
  change (counter (S k)) with (counter k + 1)%float.
  rewrite add_spec, IH. change (Prim2SF 1) with (SFofZ 1).
  rewrite Nat2Z.inj_succ. unfold Z.succ.
  set (z := Z.of_nat k). assert (Hz : 0 <= z) by lia. clearbody z.
  unfold SFcount.
  destruct (Z.eqb_spec z 0) as [->|Hz0]; [reflexivity|].
  destruct (Z.eqb_spec (z + 1) 0) as [|_]; [lia|].
  destruct (Z.ltb_spec z (2 ^ 53)) as [Hlt|Hge].
  - destruct (Z.ltb_spec (z + 1) (2 ^ 53)) as [Hlt1|Hge1].
    + apply SFadd_one; lia.
    + assert (z = 2 ^ 53 - 1) as -> by lia. vm_compute. reflexivity.
  - destruct (Z.ltb_spec (z + 1) (2 ^ 53)) as [Hlt1|_]; [lia|].
    vm_compute. reflexivity.
Qed.

Lemma counter_below_infinity (k : nat) : (counter k <? infinity)%float = true.
Proof.
  rewrite ltb_spec, counter_spec. change (Prim2SF infinity) with (S754_infinity false).
  unfold SFcount, SFofZ.
  destruct (_ =? _); [reflexivity|]. destruct (_ <? _); reflexivity.
Qed.
End Counter.

(* ------------------------------------------------------------------ *)
(** ** An ascent over an infinite travel time *)

Section EndlessAscent.
Context `{JSMath}.
Local Open Scope float_scope.

(** Without a GF slope [recalculate] is the first pass over the
    compartments, and the oxygen exposure on a model that is not a
    simulation: it returns, and leaves configuration and simulation flag. *)
Lemma recalculate_flat (ceil : M Depth) (r : RecordData) (this : BuhlmannModel) :
  flat this ->
  exists this',
    recalculate ceil r this = (Ok tt, this')
    /\ configuration this' = configuration this /\ sim this' = sim this.
Proof.
  unfold flat. intros Hf.
  unfold recalculate, recalculateCompartments, bind, config, gets, modify, ret,
    Config.gradientFactors.
  cbn [fst snd]. cbn [configuration setCompartments sim]. rewrite Hf. cbn [negb].
  unfold setCompartments at 1. cbn [sim].
  destruct (sim this) eqn:Hs; cbn [negb]; [|unfold recalculateOxTox, modify];
    eexists; (split; [reflexivity|]); split; try reflexivity; exact Hs.
Qed.

(** The loop of [recordTravel] over an infinite travel time never ends. *)
Lemma travelLoop_endless (ceil : M Depth) (travelTime : Time) (distRate : float) (g : Gas) :
  asSeconds travelTime = infinity ->
  forall fuel k currentDepth this,
    flat this ->
    fst (travelLoop ceil fuel (counter k) travelTime distRate currentDepth g this)
    = OutOfFuel.
Proof.
  intros Hinf. induction fuel as [|fuel IH]; intros k d this Hf;
    cbn [travelLoop]; rewrite Hinf, counter_below_infinity; [reflexivity|].
  unfold bind at 1. unfold modify at 1. cbn [fst snd].
  set (this1 := setTime _ this).
  destruct (recalculate_flat ceil
              (mkRecord (DepthM.fromMeters (asMeters d + distRate)) (TimeM.fromSeconds 1) g)
              this1) as (this2 & E & Hc & _); [exact Hf|].
  unfold bind. rewrite E.
  apply (IH (S k)). unfold flat. rewrite Hc. exact Hf.
Qed.

Lemma recordTravel_endless (ceil : M Depth) (fuel : nat) (target : Depth)
    (travelTime : Time) (g : Gas) (this : BuhlmannModel) :
  asSeconds travelTime = infinity ->
  fst (validateDepth target this) = Ok tt ->
  flat this ->
  fst (Body.recordTravel ceil fuel target travelTime g this) = OutOfFuel.
Proof.
  intros Hinf Hv Hf. unfold Body.recordTravel.
  unfold bind at 1. destruct (validateDepth target this) as [r m0] eqn:Ev.
  cbn [fst] in Hv. subst r. apply validateDepth_ok in Ev. subst m0.
  unfold bind at 1, modify at 1. unfold bind at 1, gets at 1.
  unfold bind at 1.
  pose proof (travelLoop_endless ceil travelTime
       ((asMeters target - asMeters (depth (state (setGas g this)))) / asSeconds travelTime)
       g Hinf fuel O (depth (state (setGas g this))) (setGas g this) Hf) as Hloop.
  change (counter 0) with 0%float in Hloop.
  destruct (travelLoop _ _ _ _ _ _ _ _) as [[u|e|] m1]; cbn [fst] in Hloop;
    try discriminate. reflexivity.
Qed.

Lemma recordTravelWithRate_endless (ceil : M Depth) (fuel : nat) (target : Depth)
    (rate : float) (g : Gas) (this : BuhlmannModel) :
  asSeconds (TimeM.fromMinutes
               (Math.abs (asMeters target - asMeters (depth (state this))) / rate))
  = infinity ->
  fst (validateDepth target this) = Ok tt ->
  flat this ->
  fst (Body.recordTravelWithRate ceil fuel target rate g this) = OutOfFuel.
Proof.
  intros Hinf Hv Hf. unfold Body.recordTravelWithRate, bind, gets.
  apply recordTravel_endless; assumption.
Qed.

(** X2.  On a model without a GF slope, [recordTravelWithRate] to a valid
    target depth never returns when the travel time it derives is infinite,
    as it is for rate 0 and a target other than the current depth: the loop
    of [recordTravel] is still running after any number of iterations. *)
Theorem recordTravelWithRate_infinite_time_never_returns
    (target : Depth) (rate : float) (g : Gas) (this : BuhlmannModel) :
  flat this ->
  fst (validateDepth target this) = Ok tt ->
  asSeconds (TimeM.fromMinutes
               (Math.abs (asMeters target - asMeters (depth (state this))) / rate))
  = infinity ->
  forall fuel, fst (recordTravelWithRate fuel target rate g this) = OutOfFuel.
Proof.
  intros Hf Hv Hinf fuel. unfold recordTravelWithRate.
  apply recordTravelWithRate_endless; assumption.
Qed.

(** An adaptive ceiling whose first simulated ascent takes an infinite
    time never returns. *)
Lemma ceiling_endless (this simModel : BuhlmannModel) (cc : Depth) :
  sim this = false ->
  Config.ceilingType (configuration this) = Adaptive ->
  fst (fork this) = Ok simModel ->
  actualCeiling simModel = Ok cc ->
  (asMeters (depth (state simModel)) <=? 0)
  || (asMeters (depth (state simModel)) <=? asMeters cc) = false ->
  asSeconds (TimeM.fromMinutes
               (Math.abs (asMeters cc - asMeters (depth (state simModel)))
                / Config.decoAscentRate (configuration this)))
  = infinity ->
  fst (validateDepth cc simModel) = Ok tt ->
  flat simModel ->
  forall fuel, fst (ceiling fuel this) = OutOfFuel.
Proof.
  intros Hs Hct Hfork Hcc Hcond Hinf Hv Hflat fuel.
  pose proof (fork_is_simulation this simModel Hfork) as Hsim.
  destruct fuel as [|fuel]; [reflexivity|].
  cbn [ceiling]. unfold ceilingBody.
  unfold bind at 1, config, gets at 1. unfold bind at 1, gets at 1. rewrite Hs, Hct.
  unfold bind at 1, gets at 1. unfold bind at 1. unfold bind at 1.
  unfold adaptiveCeiling. unfold bind at 1.
  pose proof (readonly_fork this) as Hro.
  destruct (fork this) as [r m0]. cbn [fst snd] in Hfork, Hro. subst r m0.
  unfold bind at 1. unfold call at 1.
  destruct fuel as [|fuel]; [reflexivity|].
  pose proof (ceiling_of_simulation fuel simModel Hsim) as Hc.
  pose proof (readonly_ceiling (S fuel) simModel) as Hrc.
  destruct (ceiling (S fuel) simModel) as [r m0]. cbn [fst snd] in Hc, Hrc.
  subst r m0. rewrite Hcc.
  cbn [adaptiveLoop diveState ds_depth ds_gas]. rewrite Hcond.
  unfold bind at 1. unfold call at 1.
  pose proof (recordTravelWithRate_endless (ceiling (S fuel)) (S fuel) cc
                (Config.decoAscentRate (configuration this)) (gas (state simModel))
                simModel Hinf Hv Hflat) as Hrun.
  destruct (Body.recordTravelWithRate _ _ _ _ _ _) as [[u|e|] m1];
    cbn [fst] in Hrun; try discriminate.
  reflexivity.
Qed.
End EndlessAscent.

(* ------------------------------------------------------------------ *)
(** ** The configured ndl_type *)

Lemma rel_ret {A} (h : A -> A) (a : A) : rel h (ret (h a)) (ret a).
Proof. intro m; reflexivity. Qed.

Lemma rel_throw {A} (h : A -> A) (e : Error) : rel h (throw e) (throw e).
Proof. intro m; reflexivity. Qed.

Lemma rel_outOfFuel {A} (h : A -> A) : rel h outOfFuel outOfFuel.
Proof. intro m; reflexivity. Qed.

Lemma rel_bind {A B} (hA : A -> A) (hB : B -> B) (c1 c2 : M A) (k1 k2 : A -> M B) :
  rel hA c1 c2 -> (forall a, rel hB (k1 (hA a)) (k2 a)) ->
  rel hB (bind c1 k1) (bind c2 k2).
Proof.
  intros Hc Hk m. unfold bind. rewrite (Hc m).
  destruct (c2 m) as [[a|e|] m1]; simpl; [apply Hk|reflexivity|reflexivity].
Qed.

Lemma rel_gets {A} (h : A -> A) (f1 f2 : BuhlmannModel -> A) :
  (forall m, f1 (erase m) = h (f2 m)) -> rel h (gets f1) (gets f2).
Proof. intros Hf m. unfold gets. rewrite Hf. reflexivity. Qed.

Lemma rel_modify (f1 f2 : BuhlmannModel -> BuhlmannModel) :
  (forall m, f1 (erase m) = erase (f2 m)) -> rel (fun u => u) (modify f1) (modify f2).
Proof. intros Hf m. unfold modify. rewrite Hf. reflexivity. Qed.

Lemma rel_call {A} (h : A -> A) (c1 c2 : M A) (obj : BuhlmannModel) :
  rel h c1 c2 ->
  rel (fun p => (h (fst p), erase (snd p))) (call (erase obj) c1) (call obj c2).
Proof.
  intros Hc m. unfold call. rewrite (Hc obj).
  destruct (c2 obj) as [[a|e|] obj']; reflexivity.
Qed.

Lemma rel_ext {A} (h h' : A -> A) (c1 c2 : M A) :
  (forall a, h a = h' a) -> rel h c1 c2 -> rel h' c1 c2.
Proof.
  intros Hh Hc m. rewrite (Hc m). destruct (c2 m) as [[a|e|] m1]; simpl;
    [rewrite Hh|..]; reflexivity.
Qed.

(** *** The pure parts *)

Lemma eraseComp_clone (c : Compartment) :
  CompartmentM.clone (eraseComp c) = eraseComp (CompartmentM.clone c).
Proof. reflexivity. Qed.

Lemma eraseComp_recalculate `{JSMath} (c : Compartment) (r : RecordData) (maxGf sp : float) :
  CompartmentM.recalculate (eraseComp c) r maxGf sp
  = eraseComp (CompartmentM.recalculate c r maxGf sp).
Proof. reflexivity. Qed.

Lemma createCompartments_erase (cfg : BuhlmannConfig) :
  createCompartments (eraseCfg cfg) = map eraseComp (createCompartments cfg).
Proof. reflexivity. Qed.

Lemma new_erase (cfg : BuhlmannConfig) :
  Body.new (Some (eraseCfg cfg)) = mapRes erase (Body.new (Some cfg)).
Proof.
  unfold Body.new.
  change (Config.validate (eraseCfg cfg)) with (Config.validate cfg).
  destruct (Config.validate cfg); [reflexivity|].
  simpl. unfold erase. simpl. rewrite createCompartments_erase. reflexivity.
Qed.

Lemma copyInto_erase (cloned this : BuhlmannModel) :
  copyInto (erase cloned) (erase this) = erase (copyInto cloned this).
Proof.
  unfold copyInto, erase. simpl. f_equal.
  rewrite !map_map. apply map_ext. intro c. apply eraseComp_clone.
Qed.

Lemma leadingFrom_erase (rest : list Compartment) :
  forall best i,
    leadingFrom (fst best, eraseComp (snd best)) i (map eraseComp rest)
    = (fst (leadingFrom best i rest), eraseComp (snd (leadingFrom best i rest))).
Proof.
  induction rest as [|c rest IH]; intros best i; simpl; [reflexivity|].
  destruct (minTolerableAmbPressure (snd best) <? minTolerableAmbPressure c)%float.
  - apply (IH (i, c)).
  - apply IH.
Qed.

Lemma leadingComp_erase (m : BuhlmannModel) :
  leadingComp (erase m) = eraseLeading (leadingComp m).
Proof.
  unfold leadingComp, erase. simpl.
  destruct (compartments m) as [|c rest]; simpl; [reflexivity|].
  pose proof (leadingFrom_erase rest (O, c) 1) as Hl. simpl in Hl. rewrite Hl.
  destruct (leadingFrom (O, c) 1 rest); reflexivity.
Qed.

Lemma fold_left_map {A B C} (f : A -> C -> A) (g : B -> C) (l : list B) (acc : A) :
  fold_left f (map g l) acc = fold_left (fun a b => f a (g b)) l acc.
Proof. revert acc; induction l as [|b l IH]; intro acc; simpl; [reflexivity|apply IH]. Qed.

Lemma calcGfLowDepth_erase (m : BuhlmannModel) :
  calcGfLowDepth (erase m) = calcGfLowDepth m.
Proof.
  unfold calcGfLowDepth, Config.gradientFactors, Config.surfacePressure.
  cbn [erase eraseCfg withNdlType compartments configuration gfLow gfHigh
       surfacePressureValue].
  rewrite fold_left_map. reflexivity.
Qed.

Lemma replaceAt_erase (idx : nat) (x : Compartment) (l : list Compartment) :
  replaceAt idx (eraseComp x) (map eraseComp l) = map eraseComp (replaceAt idx x l).
Proof.
  revert idx; induction l as [|y l IH]; intros [|idx]; simpl; try reflexivity.
  rewrite IH. reflexivity.
Qed.

(** *** The methods *)

Lemma rel_fork : rel erase fork fork.
Proof.
  intro m. unfold fork.
  change (configuration (erase m)) with (eraseCfg (configuration m)).
  rewrite new_erase. destruct (Body.new (Some (configuration m))) as [cloned|e|]; simpl;
    [rewrite copyInto_erase|..]; reflexivity.
Qed.

Lemma rel_clone : rel erase clone clone.
Proof.
  intro m. unfold clone.
  change (Config.clone (configuration (erase m)))
    with (eraseCfg (Config.clone (configuration m))).
  rewrite new_erase.
  destruct (Body.new (Some (Config.clone (configuration m)))) as [cloned|e|]; simpl;
    [rewrite copyInto_erase|..]; reflexivity.
Qed.

Lemma rel_validateDepth (d : Depth) : rel (fun u => u) (validateDepth d) (validateDepth d).
Proof.
  unfold validateDepth.
  destruct (DepthM.lessThan d DepthM.zero); [apply rel_throw|].
  destruct (200 <? asMeters d)%float; [apply rel_throw|apply (rel_ret (fun u => u))].
Qed.

Section RelMethods.
Context `{JSMath}.
Variable ceil : M Depth.
Hypothesis ceil_rel : rel (fun c => c) ceil ceil.

Lemma rel_calcMaxSlopedGF (d : Depth) :
  rel (fun x => x) (calcMaxSlopedGF ceil d) (calcMaxSlopedGF ceil d).
Proof.
  unfold calcMaxSlopedGF, config.
  eapply rel_bind; [apply (rel_gets eraseCfg); reflexivity|]. intro cfg.
  change (Config.gradientFactors (eraseCfg cfg)) with (Config.gradientFactors cfg).
  destruct (Config.gradientFactors cfg) as [lo hi].
  eapply rel_bind; [exact ceil_rel|]. intro c.
  destruct (negb (DepthM.greaterThan c DepthM.zero)); [apply (rel_ret (fun x => x))|].
  eapply rel_bind; [apply (rel_gets (fun x => x)); reflexivity|]. intro cached.
  eapply rel_bind.
  { instantiate (1 := fun u => u).
    destruct cached; [apply (rel_ret (fun u => u))|].
    apply rel_modify. intro m. rewrite calcGfLowDepth_erase. reflexivity. }
  intros _.
  eapply rel_bind; [apply (rel_gets (fun x => x)); reflexivity|]. intro cached'.
  destruct cached' as [gld|]; [|apply rel_throw].
  destruct (DepthM.greaterThan d gld); [apply (rel_ret (fun x => x))|].
  eapply rel_bind; [apply (rel_gets erase); reflexivity|]. intro this.
  apply (rel_ret (fun x => x)).
Qed.

Lemma rel_recalculateCompartments (r : RecordData) :
  rel (fun u => u) (recalculateCompartments ceil r) (recalculateCompartments ceil r).
Proof.
  unfold recalculateCompartments, config.
  eapply rel_bind; [apply (rel_gets eraseCfg); reflexivity|]. intro cfg.
  change (Config.gradientFactors (eraseCfg cfg)) with (Config.gradientFactors cfg).
  destruct (Config.gradientFactors cfg) as [lo hi].
  eapply rel_bind.
  { apply rel_modify. intro m. unfold erase, setCompartments. simpl. f_equal.
    rewrite !map_map. apply map_ext. intro c. apply eraseComp_recalculate. }
  intros _.
  destruct (negb (hi =? lo)%float); [|apply (rel_ret (fun u => u))].
  eapply rel_bind; [apply rel_calcMaxSlopedGF|]. intro maxGf.
  eapply rel_bind; [apply (rel_gets eraseLeading); apply leadingComp_erase|].
  intros [[idx lc]|]; simpl; [|apply rel_throw].
  apply rel_modify. intro m. unfold erase, setCompartments. simpl. f_equal.
  rewrite <- replaceAt_erase. reflexivity.
Qed.

Lemma rel_recalculateOxTox (r : RecordData) :
  rel (fun u => u) (recalculateOxTox r) (recalculateOxTox r).
Proof. unfold recalculateOxTox. apply rel_modify. intro m. reflexivity. Qed.

Lemma rel_recalculate (r : RecordData) :
  rel (fun u => u) (recalculate ceil r) (recalculate ceil r).
Proof.
  unfold recalculate.
  eapply rel_bind; [apply rel_recalculateCompartments|]. intros _.
  eapply rel_bind; [apply (rel_gets (fun x => x)); reflexivity|]. intro isSim.
  destruct (negb isSim); [apply rel_recalculateOxTox|apply (rel_ret (fun u => u))].
Qed.

Lemma rel_record d t g : rel (fun u => u) (Body.record ceil d t g) (Body.record ceil d t g).
Proof.
  unfold Body.record.
  eapply rel_bind; [apply rel_validateDepth|]. intros _.
  eapply rel_bind; [apply rel_modify; intro; reflexivity|]. intros _.
  eapply rel_bind; [apply rel_modify; intro; reflexivity|]. intros _.
  eapply rel_bind; [apply rel_modify; intro; reflexivity|]. intros _.
  apply rel_recalculate.
Qed.

Lemma rel_travelLoop fuel :
  forall i travelTime distRate currentDepth g,
    rel (fun u => u) (travelLoop ceil fuel i travelTime distRate currentDepth g)
                     (travelLoop ceil fuel i travelTime distRate currentDepth g).
Proof.
  induction fuel as [|fuel IH]; intros; simpl.
  - destruct (i <? asSeconds travelTime)%float;
      [apply rel_outOfFuel|apply (rel_ret (fun u => u))].
  - destruct (i <? asSeconds travelTime)%float; [|apply (rel_ret (fun u => u))].
    eapply rel_bind; [apply rel_modify; intro; reflexivity|]. intros _.
    eapply rel_bind; [apply rel_recalculate|]. intros _.
    apply IH.
Qed.

Lemma rel_recordTravel fuel d t g :
  rel (fun u => u) (Body.recordTravel ceil fuel d t g) (Body.recordTravel ceil fuel d t g).
Proof.
  unfold Body.recordTravel.
  eapply rel_bind; [apply rel_validateDepth|]. intros _.
  eapply rel_bind; [apply rel_modify; intro; reflexivity|]. intros _.
  eapply rel_bind; [apply (rel_gets (fun x => x)); reflexivity|]. intro currentDepth.
  cbv zeta.
  eapply rel_bind; [apply rel_travelLoop|]. intros _.
  apply rel_modify; intro; reflexivity.
Qed.

Lemma rel_recordTravelWithRate fuel d r g :
  rel (fun u => u) (Body.recordTravelWithRate ceil fuel d r g)
                   (Body.recordTravelWithRate ceil fuel d r g).
Proof.
  unfold Body.recordTravelWithRate.
  eapply rel_bind; [apply (rel_gets (fun x => x)); reflexivity|]. intro current.
  apply rel_recordTravel.
Qed.

Lemma rel_adaptiveLoop travelFuel cfg g :
  forall fuel it cc simModel,
    rel (fun p => p)
        (adaptiveLoop ceil fuel travelFuel (eraseCfg cfg) g it cc (erase simModel))
        (adaptiveLoop ceil fuel travelFuel cfg g it cc simModel).
Proof.
  induction fuel as [|fuel IH]; intros; simpl.
  - destruct (_ || _); [apply (rel_ret (fun p => p))|apply rel_outOfFuel].
  - destruct (_ || _); [apply (rel_ret (fun p => p))|].
    change (Config.decoAscentRate (eraseCfg cfg)) with (Config.decoAscentRate cfg).
    eapply rel_bind; [apply rel_call; apply rel_recordTravelWithRate|].
    intros [u sim1]. cbn [fst snd].
    eapply rel_bind; [apply rel_call; exact ceil_rel|].
    intros [c1 sim2]. cbn [fst snd].
    destruct (50 <? S it)%nat; [apply (rel_ret (fun p => p))|].
    apply IH.
Qed.

Lemma rel_adaptiveCeiling fuel cfg :
  rel (fun p => p) (adaptiveCeiling ceil fuel (eraseCfg cfg))
                   (adaptiveCeiling ceil fuel cfg).
Proof.
  unfold adaptiveCeiling.
  eapply rel_bind; [apply rel_fork|]. intro simModel.
  change (ds_gas (diveState (erase simModel))) with (ds_gas (diveState simModel)).
  eapply rel_bind; [apply rel_call; exact ceil_rel|].
  intros [c0 sim1]. cbn [fst snd].
  apply rel_adaptiveLoop.
Qed.

Lemma rel_ceilingBody fuel :
  rel (fun c => c) (ceilingBody ceil fuel) (ceilingBody ceil fuel).
Proof.
  unfold ceilingBody, config.
  eapply rel_bind; [apply (rel_gets eraseCfg); reflexivity|]. intro cfg.
  eapply rel_bind; [apply (rel_gets (fun x => x)); reflexivity|]. intro isSim.
  change (Config.ceilingType (eraseCfg cfg)) with (Config.ceilingType cfg).
  change (Config.roundCeiling (eraseCfg cfg)) with (Config.roundCeiling cfg).
  eapply rel_bind; [apply (rel_gets eraseLeading); apply leadingComp_erase|].
  intro leading.
  eapply rel_bind.
  { instantiate (1 := fun c => c).
    destruct (if isSim then Actual else Config.ceilingType cfg).
    - destruct leading as [[idx lc]|]; simpl;
        [apply (rel_ret (fun c => c))|apply rel_throw].
    - eapply rel_bind; [apply rel_adaptiveCeiling|].
      intros [cc it]. apply (rel_ret (fun c => c)). }
  intro c. destruct (Config.roundCeiling cfg); apply (rel_ret (fun c => c)).
Qed.
End RelMethods.

Section RelQueries.
Context `{JSMath}.

Lemma rel_ceiling fuel : rel (fun c => c) (ceiling fuel) (ceiling fuel).
Proof.
  induction fuel as [|fuel IH]; simpl; [apply rel_outOfFuel|].
  apply rel_ceilingBody. exact IH.
Qed.

Lemma rel_public_record fuel d t g : rel (fun u => u) (record fuel d t g) (record fuel d t g).
Proof. apply rel_record, rel_ceiling. Qed.

Lemma rel_public_recordTravel fuel d t g :
  rel (fun u => u) (recordTravel fuel d t g) (recordTravel fuel d t g).
Proof. apply rel_recordTravel, rel_ceiling. Qed.

Lemma rel_public_recordTravelWithRate fuel d r g :
  rel (fun u => u) (recordTravelWithRate fuel d r g) (recordTravelWithRate fuel d r g).
Proof. apply rel_recordTravelWithRate, rel_ceiling. Qed.

Lemma rel_nextDecoAction fuel simModel gasMixes :
  rel (fun p => (fst p, erase (snd p)))
      (nextDecoAction fuel (erase simModel) gasMixes)
      (nextDecoAction fuel simModel gasMixes).
Proof.
  unfold nextDecoAction.
  eapply rel_bind; [apply (rel_gets erase); reflexivity|]. intro this.
  change (depth (state (erase simModel))) with (depth (state simModel)).
  change (gas (state (erase simModel))) with (gas (state simModel)).
  destruct (asMeters (depth (state simModel)) <=? 0)%float.
  { apply (rel_ret (fun p => (fst p, erase (snd p))) (None, None, simModel)). }
  eapply rel_bind; [apply rel_call; apply rel_ceiling|].
  intros [c sim1]. cbn [fst snd].
  change (nextSwitchGas (erase this)) with (nextSwitchGas this).
  repeat match goal with
         | |- rel _ (if ?b then _ else _) _ => destruct b
         | |- rel _ (match ?x with Some _ => _ | None => _ end) _ => destruct x
         end;
    match goal with
    | |- rel _ _ (ret ?v) => apply (rel_ret (fun p => (fst p, erase (snd p))) v)
    end.
Qed.

Lemma rel_decoLoop fuel gasMixes :
  forall n simModel stages,
    rel (fun s => s) (decoLoop fuel n gasMixes (erase simModel) stages)
                     (decoLoop fuel n gasMixes simModel stages).
Proof.
  induction n as [|n IH]; intros simModel stages; simpl; [apply rel_outOfFuel|].
  change (depth (state (erase simModel))) with (depth (state simModel)).
  change (time (state (erase simModel))) with (time (state simModel)).
  change (gas (state (erase simModel))) with (gas (state simModel)).
  eapply rel_bind; [apply rel_call; apply rel_ceiling|].
  intros [c sim1]. cbn [fst snd].
  eapply rel_bind; [apply rel_nextDecoAction|].
  intros [[act og] sim2]. cbn [fst snd].
  destruct act as [[| |]|].
  - eapply rel_bind; [apply (rel_gets eraseCfg); reflexivity|]. intro cfg.
    change (Config.decoAscentRate (eraseCfg cfg)) with (Config.decoAscentRate cfg).
    eapply rel_bind; [apply rel_call; apply rel_public_recordTravelWithRate|].
    intros [u sim3]. cbn [fst snd]. apply IH.
  - eapply rel_bind; [apply rel_call; apply rel_public_record|].
    intros [u sim3]. cbn [fst snd]. apply IH.
  - destruct og as [ng|]; [|apply IH].
    eapply rel_bind; [apply (rel_gets eraseCfg); reflexivity|]. intro cfg.
    change (Config.decoAscentRate (eraseCfg cfg)) with (Config.decoAscentRate cfg).
    eapply rel_bind.
    { instantiate (1 := fun p => (fst p, erase (snd p))).
      destruct (DepthM.greaterThan (depth (state simModel)) (GasM.maxOperatingDepth ng 1.6)).
      - eapply rel_bind; [apply rel_call; apply rel_public_recordTravelWithRate|].
        intros [u sim3]. cbn [fst snd].
        match goal with
        | |- rel _ _ (ret ?v) => apply (rel_ret (fun p => (fst p, erase (snd p))) v)
        end.
      - apply (rel_ret (fun p => (fst p, erase (snd p))) (stages, sim2)). }
    intros [stages1 sim3]. cbn [fst snd].
    change (ds_depth (diveState (erase sim3))) with (ds_depth (diveState sim3)).
    eapply rel_bind; [apply rel_call; apply rel_public_record|].
    intros [u sim4]. cbn [fst snd]. apply IH.
  - apply (rel_ret (fun s => s)).
Qed.

Lemma rel_deco fuel gasMixes : rel (fun r => r) (deco fuel gasMixes) (deco fuel gasMixes).
Proof.
  unfold deco.
  eapply rel_bind; [apply rel_clone|]. intro simModel. cbv zeta.
  destruct (List.length gasMixes =? 0)%nat; [apply rel_throw|].
  change (gas (state (setSim true (erase simModel))))
    with (gas (state (setSim true simModel))).
  destruct (negb _); [apply rel_throw|].
  eapply rel_bind; [apply (rel_decoLoop fuel gasMixes fuel (setSim true simModel))|].
  intro stages. apply (rel_ret (fun r => r)).
Qed.

Lemma rel_inDeco fuel : rel (fun b => b) (inDeco fuel) (inDeco fuel).
Proof.
  unfold inDeco, config.
  eapply rel_bind; [apply (rel_gets eraseCfg); reflexivity|]. intro cfg.
  change (Config.ceilingType (eraseCfg cfg)) with (Config.ceilingType cfg).
  destruct (Config.ceilingType cfg).
  - eapply rel_bind; [apply rel_ceiling|]. intro c. apply (rel_ret (fun b => b)).
  - eapply rel_bind; [apply (rel_gets (fun g => g)); reflexivity|]. intro g.
    eapply rel_bind; [apply rel_deco|]. intro rt. apply (rel_ret (fun b => b)).
Qed.

Lemma rel_ndlLoop fuel :
  forall remaining i interval simModel ndl0,
    rel (fun t => t) (ndlLoop fuel remaining i interval (erase simModel) ndl0)
                     (ndlLoop fuel remaining i interval simModel ndl0).
Proof.
  induction remaining as [|r IH]; intros; simpl; [apply (rel_ret (fun t => t))|].
  eapply rel_bind; [apply (rel_gets (fun x => x)); reflexivity|]. intro d.
  eapply rel_bind; [apply (rel_gets (fun x => x)); reflexivity|]. intro g.
  eapply rel_bind; [apply rel_call; apply rel_public_record|].
  intros [u sim1]. cbn [fst snd].
  eapply rel_bind; [apply rel_call; apply rel_inDeco|].
  intros [b sim2]. cbn [fst snd].
  destruct b; [apply (rel_ret (fun t => t))|apply IH].
Qed.

Lemma rel_ndl fuel : rel (fun t => t) (ndl fuel) (ndl fuel).
Proof.
  unfold ndl.
  eapply rel_bind; [apply rel_inDeco|]. intro b.
  destruct b; [apply (rel_ret (fun t => t))|].
  eapply rel_bind; [apply rel_fork|]. intro simModel.
  apply rel_ndlLoop.
Qed.

Lemma mapRes_id {A} (r : Res A) : mapRes (fun a => a) r = r.
Proof. destruct r; reflexivity. Qed.

Lemma runOp_erase fuel op m : runOp fuel op (erase m) = erase (runOp fuel op m).
Proof.
  destruct op as [d t g|d t g|d r g]; simpl.
  - rewrite (rel_public_record fuel d t g m). reflexivity.
  - rewrite (rel_public_recordTravel fuel d t g m). reflexivity.
  - rewrite (rel_public_recordTravelWithRate fuel d r g m). reflexivity.
Qed.

Lemma runOps_erase fuel ops :
  forall m, fold_left (fun m op => runOp fuel op m) ops (erase m)
            = erase (fold_left (fun m op => runOp fuel op m) ops m).
Proof.
  induction ops as [|op ops IH]; intro m; simpl; [reflexivity|].
  rewrite runOp_erase. apply IH.
Qed.

(** [ndl()] does not see the ndl_type of the model it is called on. *)
Lemma ndl_erase fuel m : fst (ndl fuel (erase m)) = fst (ndl fuel m).
Proof. rewrite (rel_ndl fuel m). simpl. apply mapRes_id. Qed.

Lemma ndlAfter_erase fuel cfg ops : ndlAfter fuel (eraseCfg cfg) ops = ndlAfter fuel cfg ops.
Proof.
  unfold ndlAfter. rewrite new_erase.
  destruct (Body.new (Some cfg)) as [m|e|]; simpl; try reflexivity.
  rewrite runOps_erase, ndl_erase. reflexivity.
Qed.

(** C10.  The configured ndl_type has no influence on the NDL: two models
    whose configurations differ only in ndl_type and that have recorded the
    same segments return the same [ndl()].  (Construction fails for both or
    for neither: [validate] does not read the field either.) *)
Theorem ndl_independent_of_ndlType
    (fuel : nat) (cfg : BuhlmannConfig) (ops : list Op) (t1 t2 : NDLType) :
  ndlAfter fuel (withNdlType t1 cfg) ops = ndlAfter fuel (withNdlType t2 cfg) ops.
Proof.
  rewrite <- (ndlAfter_erase fuel (withNdlType t1 cfg)).
  rewrite <- (ndlAfter_erase fuel (withNdlType t2 cfg)).
  reflexivity.
Qed.
End RelQueries.

(* ------------------------------------------------------------------ *)
(** ** The order of the numbers

    The comparisons of the engine are those of binary64: a total order on
    the numbers, in which NaN compares with nothing. *)

Section FloatOrder.
Local Open Scope Z_scope.

Lemma SFcompare_key (x y : spec_float) :
  match SFcompare x y with
  | None => SFkey x = None \/ SFkey y = None
  | Some Lt => exists a b, SFkey x = Some a /\ SFkey y = Some b /\ keyLt a b
  | Some Gt => exists a b, SFkey x = Some a /\ SFkey y = Some b /\ keyLt b a
  | Some Eq => exists a, SFkey x = Some a /\ SFkey y = Some a
  end.
Proof.
  destruct x as [sx|sx| |sx mx ex], y as [sy|sy| |sy my ey];
    try destruct sx; try destruct sy; cbn [SFcompare SFkey];
    try (left; reflexivity); try (right; reflexivity);
    try (eexists; split; reflexivity);
    try (do 2 eexists; split; [reflexivity|split; [reflexivity|cbn; lia]]).
  - (* both negative *)
    destruct (Z.compare_spec ex ey) as [->|Hlt|Hgt].
    + change (Pos.compare_cont Eq mx my) with (Pos.compare mx my).
      destruct (Pos.compare_spec mx my) as [->|Hm|Hm]; cbn [CompOpp].
      * eexists; split; reflexivity.
      * do 2 eexists; split; [reflexivity|split; [reflexivity|cbn; lia]].
      * do 2 eexists; split; [reflexivity|split; [reflexivity|cbn; lia]].
    + do 2 eexists; split; [reflexivity|split; [reflexivity|cbn; lia]].
    + do 2 eexists; split; [reflexivity|split; [reflexivity|cbn; lia]].
  - destruct (Z.compare_spec ex ey) as [->|Hlt|Hgt].
    + change (Pos.compare_cont Eq mx my) with (Pos.compare mx my).
      destruct (Pos.compare_spec mx my) as [->|Hm|Hm].
      * eexists; split; reflexivity.
      * do 2 eexists; split; [reflexivity|split; [reflexivity|cbn; lia]].
      * do 2 eexists; split; [reflexivity|split; [reflexivity|cbn; lia]].
    + do 2 eexists; split; [reflexivity|split; [reflexivity|cbn; lia]].
    + do 2 eexists; split; [reflexivity|split; [reflexivity|cbn; lia]].
Qed.

Lemma keyLt_irrefl a : ~ keyLt a a.
Proof. destruct a as [[a1 a2] a3]. cbn. lia. Qed.

Lemma keyLt_asym a b : keyLt a b -> ~ keyLt b a.
Proof. destruct a as [[a1 a2] a3], b as [[b1 b2] b3]. cbn. lia. Qed.

Lemma keyLt_trans a b c : keyLt a b -> keyLt b c -> keyLt a c.
Proof. destruct a as [[a1 a2] a3], b as [[b1 b2] b3], c as [[c1 c2] c3]. cbn. lia. Qed.

Lemma keyLt_total a b : keyLt a b \/ a = b \/ keyLt b a.
Proof.
  destruct a as [[a1 a2] a3], b as [[b1 b2] b3]. cbn.
  destruct (Z.lt_trichotomy a1 b1) as [|[->|]]; [lia| |lia].
  destruct (Z.lt_trichotomy a2 b2) as [|[->|]]; [lia| |lia].
  destruct (Z.lt_trichotomy a3 b3) as [|[->|]]; [lia| |lia].
  right; left; reflexivity.
Qed.

Lemma ltb_before (x y : float) : (x <? y)%float = true <-> before x y.
Proof.
  rewrite ltb_spec. unfold SFltb, before, fkey.
  pose proof (SFcompare_key (Prim2SF x) (Prim2SF y)) as H.
  destruct (SFcompare _ _) as [[| |]|].
  - destruct H as (a & -> & ->). split; [discriminate|]. intro K. elim (keyLt_irrefl _ K).
  - destruct H as (a & b & -> & -> & K). tauto.
  - destruct H as (a & b & -> & -> & K). split; [discriminate|].
    intro K'. elim (keyLt_asym _ _ K K').
  - split; [discriminate|]. destruct H as [-> | ->]; [tauto|].
    destruct (SFkey (Prim2SF x)); tauto.
Qed.

Lemma eqb_same (x y : float) : (x =? y)%float = true <-> same x y.
Proof.
  rewrite FloatAxioms.eqb_spec. unfold SFeqb, same, fkey.
  pose proof (SFcompare_key (Prim2SF x) (Prim2SF y)) as H.
  destruct (SFcompare _ _) as [[| |]|].
  - destruct H as (a & -> & ->). tauto.
  - destruct H as (a & b & -> & -> & K). split; [discriminate|].
    intros ->. elim (keyLt_irrefl _ K).
  - destruct H as (a & b & -> & -> & K). split; [discriminate|].
    intros ->. elim (keyLt_irrefl _ K).
  - split; [discriminate|]. destruct H as [-> | ->]; [tauto|].
    destruct (SFkey (Prim2SF x)); tauto.
Qed.

Lemma leb_before (x y : float) : (x <=? y)%float = true <-> before x y \/ same x y.
Proof.
  rewrite leb_spec. unfold SFleb, before, same, fkey.
  pose proof (SFcompare_key (Prim2SF x) (Prim2SF y)) as H.
  destruct (SFcompare _ _) as [[| |]|].
  - destruct H as (a & -> & ->). tauto.
  - destruct H as (a & b & -> & -> & K). tauto.
  - destruct H as (a & b & -> & -> & K). split; [discriminate|].
    intros [K'| ->]; [elim (keyLt_asym _ _ K K')|elim (keyLt_irrefl _ K)].
  - split; [discriminate|]. destruct H as [-> | ->]; [tauto|].
    destruct (SFkey (Prim2SF x)); tauto.
Qed.

Lemma same_sym x y : same x y -> same y x.
Proof. unfold same. destruct (fkey x), (fkey y); try tauto. intros ->. reflexivity. Qed.

Lemma same_trans x y z : same x y -> same y z -> same x z.
Proof.
  unfold same. destruct (fkey x), (fkey y), (fkey z); try tauto. intros -> ->. reflexivity.
Qed.

Lemma before_trans x y z : before x y -> before y z -> before x z.
Proof.
  unfold before. destruct (fkey x), (fkey y), (fkey z); try tauto. apply keyLt_trans.
Qed.

Lemma before_same x y z : before x y -> same y z -> before x z.
Proof.
  unfold before, same. destruct (fkey x), (fkey y), (fkey z); try tauto. intros K ->. exact K.
Qed.

Lemma same_before x y z : same x y -> before y z -> before x z.
Proof.
  unfold before, same. destruct (fkey x), (fkey y), (fkey z); try tauto. intros -> K. exact K.
Qed.


Lemma before_asym x y : before x y -> ~ before y x.
Proof. unfold before. destruct (fkey x), (fkey y); try tauto. apply keyLt_asym. Qed.

Lemma before_not_same x y : before x y -> ~ same x y /\ ~ same y x.
Proof.
  unfold before, same. destruct (fkey x), (fkey y); try tauto.
  intro K. split; intros ->; exact (keyLt_irrefl _ K).
Qed.

(** Two numbers are comparable; NaN is comparable with nothing. *)
Lemma number_total x y :
  fkey x <> None -> fkey y <> None -> before x y \/ same x y \/ before y x.
Proof.
  unfold before, same. destruct (fkey x) as [a|], (fkey y) as [b|]; try tauto.
  intros _ _. apply keyLt_total.
Qed.

Lemma before_number x y : before x y -> fkey x <> None /\ fkey y <> None.
Proof. unfold before. destruct (fkey x), (fkey y); try tauto. split; discriminate. Qed.

Lemma same_number x y : same x y -> fkey x <> None /\ fkey y <> None.
Proof. unfold same. destruct (fkey x), (fkey y); try tauto. split; discriminate. Qed.

Lemma float_ltb_false_number x y :
  (x <? y)%float = false -> fkey x <> None -> fkey y <> None -> (y <=? x)%float = true.
Proof.
  intros Hlt Hx Hy. apply leb_before.
  destruct (number_total x y Hx Hy) as [K|[K|K]].
  - apply ltb_before in K. congruence.
  - right. apply same_sym. exact K.
  - left. exact K.
Qed.

Lemma float_leb_trans x y z :
  (x <=? y)%float = true -> (y <=? z)%float = true -> (x <=? z)%float = true.
Proof.
  rewrite !leb_before. intros [A|A] [B|B].
  - left. eapply before_trans; eassumption.
  - left. eapply before_same; eassumption.
  - left. eapply same_before; eassumption.
  - right. eapply same_trans; eassumption.
Qed.

Lemma float_ltb_leb_trans x y z :
  (x <? y)%float = true -> (y <=? z)%float = true -> (x <? z)%float = true.
Proof.
  rewrite !ltb_before, leb_before. intros A [B|B].
  - eapply before_trans; eassumption.
  - eapply before_same; eassumption.
Qed.

Lemma float_leb_ltb_trans x y z :
  (x <=? y)%float = true -> (y <? z)%float = true -> (x <? z)%float = true.
Proof.
  rewrite !ltb_before, leb_before. intros [A|A] B.
  - eapply before_trans; eassumption.
  - eapply same_before; eassumption.
Qed.

Lemma float_ltb_leb_false x y : (x <? y)%float = true -> (y <=? x)%float = false.
Proof.
  intro A. destruct (y <=? x)%float eqn:E; [|reflexivity].
  apply ltb_before in A. apply leb_before in E as [E|E].
  - elim (before_asym _ _ A E).
  - elim (proj2 (before_not_same _ _ A) E).
Qed.

Lemma float_leb_ltb_false x y : (x <=? y)%float = true -> (y <? x)%float = false.
Proof.
  intro A. destruct (y <? x)%float eqn:E; [|reflexivity].
  apply float_ltb_leb_false in E. congruence.
Qed.

Lemma float_ltb_leb x y : (x <? y)%float = true -> (x <=? y)%float = true.
Proof. rewrite ltb_before, leb_before. tauto. Qed.

Lemma float_eqb_leb x y : (x =? y)%float = true -> (x <=? y)%float = true.
Proof. rewrite eqb_same, leb_before. tauto. Qed.

Lemma float_eqb_sym x y : (x =? y)%float = true -> (y =? x)%float = true.
Proof. rewrite !eqb_same. apply same_sym. Qed.

Lemma float_eqb_trans x y z :
  (x =? y)%float = true -> (y =? z)%float = true -> (x =? z)%float = true.
Proof. rewrite !eqb_same. apply same_trans. Qed.

(** A number is a value other than NaN. *)
Lemma is_nan_key (x : float) : is_nan x = false <-> fkey x <> None.
Proof.
  unfold is_nan. rewrite negb_false_iff, eqb_same. unfold same.
  destruct (fkey x); split; intro K; try discriminate; try reflexivity; tauto.
Qed.

Lemma float_leb_refl (x : float) : fkey x <> None -> (x <=? x)%float = true.
Proof.
  intro Hx. apply leb_before. right. unfold same. destruct (fkey x); [reflexivity|tauto].
Qed.

Lemma ltb_number x y : (x <? y)%float = true -> fkey x <> None /\ fkey y <> None.
Proof. rewrite ltb_before. apply before_number. Qed.

Lemma leb_number x y : (x <=? y)%float = true -> fkey x <> None /\ fkey y <> None.
Proof. rewrite leb_before. intros [K|K]; [apply before_number|apply same_number]; exact K. Qed.

Lemma ltb_nan_r x y : fkey y = None -> (x <? y)%float = false.
Proof.
  intro Hy. destruct (x <? y)%float eqn:E; [|reflexivity].
  apply ltb_number in E. tauto.
Qed.


Lemma float_leb_false_number x y :
  (x <=? y)%float = false -> fkey x <> None -> fkey y <> None -> (y <? x)%float = true.
Proof.
  intros Hle Hx Hy. apply ltb_before.
  destruct (number_total x y Hx Hy) as [K|[K|K]].
  - assert (E : (x <=? y)%float = true) by (apply leb_before; left; exact K). congruence.
  - assert (E : (x <=? y)%float = true) by (apply leb_before; right; exact K). congruence.
  - exact K.
Qed.

Lemma float_ltb_asym x y : (x <? y)%float = true -> (y <? x)%float = false.
Proof.
  intro A. destruct (y <? x)%float eqn:E; [|reflexivity].
  apply ltb_before in A, E. elim (before_asym _ _ A E).
Qed.
End FloatOrder.

(* ------------------------------------------------------------------ *)
(** ** What a recording does to the dive state *)

Section Whereabouts.
Context `{JSMath}.
Variable ceil : M Depth.
Hypothesis ceil_readonly : readonly ceil.

Lemma whereabouts_calcMaxSlopedGF d : preserves whereabouts (calcMaxSlopedGF ceil d).
Proof.
  unfold calcMaxSlopedGF.
  pres_with ltac:(apply preserves_readonly; exact ceil_readonly).
Qed.

Lemma whereabouts_recalculateCompartments r :
  preserves whereabouts (recalculateCompartments ceil r).
Proof.
  unfold recalculateCompartments. pres_with ltac:(apply whereabouts_calcMaxSlopedGF).
Qed.

Lemma whereabouts_recalculate r : preserves whereabouts (recalculate ceil r).
Proof.
  unfold recalculate, recalculateOxTox.
  pres_with ltac:(apply whereabouts_recalculateCompartments).
Qed.

(** What [record] leaves when it returns. *)
Lemma record_whereabouts d t g this u this' :
  Body.record ceil d t g this = (Ok u, this') ->
  whereabouts this'
  = (d, TimeM.add (time (state this)) t, g, sim this, configuration this).
Proof.
  unfold Body.record. intro Hr.
  apply bind_ok in Hr as (u0 & m0 & Hv & Hr). apply validateDepth_ok in Hv. subst m0.
  apply bind_ok in Hr as (u1 & m1 & Hm & Hr). apply modify_ok in Hm. subst m1.
  apply bind_ok in Hr as (u2 & m2 & Hm & Hr). apply modify_ok in Hm. subst m2.
  apply bind_ok in Hr as (u3 & m3 & Hm & Hr). apply modify_ok in Hm. subst m3.
  match type of Hr with recalculate _ ?r ?m = _ =>
    pose proof (whereabouts_recalculate r m) as Hf end.
  rewrite Hr in Hf. cbn [snd] in Hf. rewrite Hf. reflexivity.
Qed.

(** Validation comes first: a rejected depth leaves the model untouched. *)
Lemma record_rejected d t g this e :
  fst (validateDepth d this) = Throw e ->
  Body.record ceil d t g this = (Throw e, this).
Proof.
  unfold Body.record, bind at 1, validateDepth. 
  destruct (DepthM.lessThan d DepthM.zero); cbn [fst throw ret].
  - intro E. injection E as <-. reflexivity.
  - destruct (200 <? asMeters d)%float; cbn [fst throw ret]; [|discriminate].
    intro E. injection E as <-. reflexivity.
Qed.

Lemma recordTravel_rejected fuel d t g this e :
  fst (validateDepth d this) = Throw e ->
  Body.recordTravel ceil fuel d t g this = (Throw e, this).
Proof.
  unfold Body.recordTravel, bind at 1, validateDepth. 
  destruct (DepthM.lessThan d DepthM.zero); cbn [fst throw ret].
  - intro E. injection E as <-. reflexivity.
  - destruct (200 <? asMeters d)%float; cbn [fst throw ret]; [|discriminate].
    intro E. injection E as <-. reflexivity.
Qed.

(** A travel time that is not above zero: the loop body never runs. *)
Lemma recordTravel_no_time fuel target travelTime g this :
  (0 <? asSeconds travelTime)%float = false ->
  fst (validateDepth target this) = Ok tt ->
  Body.recordTravel ceil fuel target travelTime g this
  = (Ok tt, setDepth target (setGas g this)).
Proof.
  intros Ht Hv. unfold Body.recordTravel.
  unfold bind at 1. destruct (validateDepth target this) as [r m0] eqn:Ev.
  cbn [fst] in Hv. subst r. apply validateDepth_ok in Ev. subst m0.
  unfold bind at 1, modify at 1. unfold bind at 1, gets at 1.
  unfold bind at 1.
  destruct fuel; cbn [travelLoop]; rewrite Ht; reflexivity.
Qed.
End Whereabouts.

Section Recording.
Context `{JSMath}.

(** X3.  [record] and [recordTravel] validate the depth before they touch the
    model: a negative depth raises 'Depth cannot be negative', a depth above
    200 m raises the maximum-depth error, and in both cases the model is
    exactly as before. *)
Theorem recording_rejects_invalid_depth
    (fuel : nat) (d : Depth) (t : Time) (g : Gas) (this : BuhlmannModel) :
  ((asMeters d <? 0)%float = true ->
     record fuel d t g this = (Throw DepthNegative, this)
     /\ recordTravel fuel d t g this = (Throw DepthNegative, this))
  /\ ((asMeters d <? 0)%float = false -> (200 <? asMeters d)%float = true ->
     record fuel d t g this = (Throw DepthTooDeep, this)
     /\ recordTravel fuel d t g this = (Throw DepthTooDeep, this)).
Proof.
  split.
  - intro Hn. assert (Hv : fst (validateDepth d this) = Throw DepthNegative).
    { unfold validateDepth, DepthM.lessThan, DepthM.zero. cbn [asMeters].
      rewrite Hn. reflexivity. }
    split; [apply record_rejected|apply recordTravel_rejected]; exact Hv.
  - intros Hn Hd. assert (Hv : fst (validateDepth d this) = Throw DepthTooDeep).
    { unfold validateDepth, DepthM.lessThan, DepthM.zero. cbn [asMeters].
      rewrite Hn, Hd. reflexivity. }
    split; [apply record_rejected|apply recordTravel_rejected]; exact Hv.
Qed.

(** X4.  When [record(depth, time, gas)] returns, the dive state is at
    [depth], on [gas], with [time] added to the clock; the configuration and
    the simulation flag are as before, and the depth passed both checks: it
    is neither below 0 nor above 200 m, so a depth that is a number (not
    NaN) is within 0..200 m. *)
Theorem record_sets_dive_state
    (fuel : nat) (d : Depth) (t : Time) (g : Gas) (this this' : BuhlmannModel) :
  record fuel d t g this = (Ok tt, this') ->
  depth (state this') = d
  /\ gas (state this') = g
  /\ time (state this') = TimeM.add (time (state this)) t
  /\ configuration this' = configuration this
  /\ sim this' = sim this
  /\ (asMeters d <? 0)%float = false /\ (200 <? asMeters d)%float = false
  /\ (is_nan (asMeters d) = false ->
      (0 <=? asMeters d)%float = true /\ (asMeters d <=? 200)%float = true).
Proof.
  intro Hr.
  pose proof (record_whereabouts (ceiling fuel) (readonly_ceiling fuel) d t g this tt this' Hr)
    as Hw.
  unfold whereabouts in Hw. injection Hw as -> -> -> -> ->.
  assert (Hd : (asMeters d <? 0)%float = false /\ (200 <? asMeters d)%float = false).
  { unfold record, Body.record, bind at 1, validateDepth, DepthM.lessThan, DepthM.zero in Hr.
    cbn [asMeters] in Hr. destruct (asMeters d <? 0)%float; [discriminate|].
    destruct (200 <? asMeters d)%float; [discriminate|split; reflexivity]. }
  destruct Hd as [Hlo Hhi].
  repeat split; try reflexivity; try assumption.
  - apply float_ltb_false_number; [exact Hlo|apply is_nan_key; assumption|].
    apply is_nan_key. reflexivity.
  - apply float_ltb_false_number; [exact Hhi| |apply is_nan_key; assumption].
    apply is_nan_key. reflexivity.
Qed.

(** X5.  A travel whose time is not above zero (zero, negative or NaN, as
    a rate below zero or a target at the current depth gives) moves the
    diver without any tissue calculation: [recordTravel] sets the gas and the
    depth and nothing else, so compartments, clock and oxygen exposure are as
    before. *)
Theorem recordTravel_without_time_only_moves
    (fuel : nat) (target : Depth) (travelTime : Time) (g : Gas) (this : BuhlmannModel) :
  (0 <? asSeconds travelTime)%float = false ->
  (asMeters target <? 0)%float = false ->
  (200 <? asMeters target)%float = false ->
  recordTravel fuel target travelTime g this
  = (Ok tt, mkModel (configuration this) (compartments this)
                    (mkState target (time (state this)) g (gfLowDepth (state this))
                             (oxTox (state this)))
                    (sim this)).
Proof.
  intros Ht Hn Hd. unfold recordTravel.
  rewrite (recordTravel_no_time (ceiling fuel) fuel target travelTime g this Ht).
  - reflexivity.
  - unfold validateDepth, DepthM.lessThan, DepthM.zero. cbn [asMeters].
    rewrite Hn, Hd. reflexivity.
Qed.
End Recording.

(* ------------------------------------------------------------------ *)
(** ** Copies of the model, and the compartments it keeps *)

Lemma compartment_clone_id (c : Compartment) : CompartmentM.clone c = c.
Proof. destruct c. reflexivity. Qed.

Lemma compartments_clone_id (cs : list Compartment) : map CompartmentM.clone cs = cs.
Proof. induction cs as [|c cs IH]; simpl; [reflexivity|]. rewrite IH, compartment_clone_id. reflexivity. Qed.

Lemma copyInto_copy (cloned this : BuhlmannModel) :
  copyInto cloned this = mkModel (configuration cloned) (compartments this) (state this) true.
Proof.
  unfold copyInto. rewrite compartments_clone_id.
  destruct this as [cfg cs [d t g gl [cns otu]] s]. reflexivity.
Qed.

Lemma fork_copy (this : BuhlmannModel) :
  fork this =
  match Config.validate (configuration this) with
  | None => (Ok (setSim true this), this)
  | Some validationError => (Throw (ConfigError validationError), this)
  end.
Proof.
  unfold fork, new.
  destruct (Config.validate (configuration this)); [reflexivity|].
  rewrite copyInto_copy. reflexivity.
Qed.

Lemma clone_copy (this : BuhlmannModel) :
  clone this =
  match Config.validate (configuration this) with
  | None => (Ok (setSim true this), this)
  | Some validationError => (Throw (ConfigError validationError), this)
  end.
Proof.
  unfold clone, new.
  assert (Hc : Config.clone (configuration this) = configuration this)
    by (destruct (configuration this); reflexivity).
  rewrite Hc.
  destruct (Config.validate (configuration this)); [reflexivity|].
  rewrite copyInto_copy. reflexivity.
Qed.

(** X6.  [fork()] and [clone()] return an exact copy of the model (same
    configuration, same sixteen compartments field by field, same dive
    state and oxygen exposure) with the simulation flag set; they fail only
    when the configuration no longer validates, with the constructor's
    error. *)
Theorem fork_and_clone_copy_the_model (this : BuhlmannModel) :
  match Config.validate (configuration this) with
  | None =>
      fork this = (Ok (setSim true this), this) /\ clone this = (Ok (setSim true this), this)
  | Some validationError =>
      fork this = (Throw (ConfigError validationError), this)
      /\ clone this = (Throw (ConfigError validationError), this)
  end.
Proof.
  rewrite fork_copy, clone_copy.
  destruct (Config.validate (configuration this)); split; reflexivity.
Qed.

Lemma replaceAt_identity (l : list Compartment) (idx : nat) (c c' : Compartment) :
  nth_error l idx = Some c -> identity c' = identity c ->
  map identity (replaceAt idx c' l) = map identity l.
Proof.
  revert idx. induction l as [|x l IH]; intros idx Hn Hi; [destruct idx; discriminate|].
  destruct idx as [|idx]; simpl in *.
  - injection Hn as ->. rewrite Hi. reflexivity.
  - rewrite (IH idx Hn Hi). reflexivity.
Qed.

Lemma mapi_identity (cfg : BuhlmannConfig) (l : list ZHLParams) (i : nat) :
  map identity (mapi (fun p index => CompartmentM.new (index + 1)%nat p cfg) i l)
  = mapi (fun p index => ((index + 1)%nat, p, cfg)) i l.
Proof.
  revert i. induction l as [|p l IH]; intro i; simpl; [reflexivity|].
  rewrite IH. f_equal.
Qed.

Section Identities.
Context `{JSMath}.

Lemma recalculate_identity (c : Compartment) (r : RecordData) (maxGf sp : float) :
  identity (CompartmentM.recalculate c r maxGf sp) = identity c.
Proof.
  unfold CompartmentM.recalculate.
  destruct (CompartmentM.compartmentInertPressure c r sp). reflexivity.
Qed.

Variable ceil : M Depth.
Hypothesis ceil_readonly : readonly ceil.

Lemma identities_calcMaxSlopedGF d : preserves identities (calcMaxSlopedGF ceil d).
Proof.
  unfold calcMaxSlopedGF.
  pres_with ltac:(apply preserves_readonly; exact ceil_readonly).
Qed.

Lemma identities_recalculateCompartments r :
  preserves identities (recalculateCompartments ceil r).
Proof.
  unfold recalculateCompartments.
  apply preserves_bind; [apply preserves_readonly, readonly_gets|]. intro cfg.
  destruct (Config.gradientFactors cfg) as [gfLow gfHigh].
  apply preserves_bind.
  { apply preserves_modify. intro m. unfold identities, setCompartments. cbn [compartments].
    rewrite map_map. apply map_ext. intro c. apply recalculate_identity. }
  intros _. destruct (negb _); [|apply preserves_readonly, readonly_ret].
  apply preserves_bind; [apply identities_calcMaxSlopedGF|]. intro maxGf.
  intro this. unfold bind, gets. cbn [fst snd].
  destruct (leadingComp this) as [[idx lc]|] eqn:El; [|reflexivity].
  unfold modify. cbn [snd]. unfold identities, setCompartments. cbn [compartments].
  apply (replaceAt_identity _ idx lc); [apply leadingComp_nth; exact El|].
  apply recalculate_identity.
Qed.

Lemma identities_recalculate r : preserves identities (recalculate ceil r).
Proof.
  unfold recalculate, recalculateOxTox.
  pres_with ltac:(apply identities_recalculateCompartments).
Qed.

Lemma identities_travelLoop fuel :
  forall i travelTime distRate currentDepth g,
    preserves identities (travelLoop ceil fuel i travelTime distRate currentDepth g).
Proof.
  induction fuel as [|fuel IH]; intros; simpl;
    pres_with ltac:(first [apply identities_recalculate | apply IH]).
Qed.

Lemma identities_record d t g : preserves identities (Body.record ceil d t g).
Proof.
  unfold Body.record. pres_with ltac:(apply identities_recalculate).
Qed.

Lemma identities_recordTravel fuel d t g :
  preserves identities (Body.recordTravel ceil fuel d t g).
Proof.
  unfold Body.recordTravel. pres_with ltac:(apply identities_travelLoop).
Qed.

Lemma identities_recordTravelWithRate fuel d r g :
  preserves identities (Body.recordTravelWithRate ceil fuel d r g).
Proof.
  unfold Body.recordTravelWithRate. pres_with ltac:(apply identities_recordTravel).
Qed.
End Identities.

Section IdentitiesTheorem.
Context `{JSMath}.

(** X7.  A model is built with the sixteen ZH-L16C compartments, numbered
    1 to 16 in table order, each holding the model's configuration; and
    [record], [recordTravel] and [recordTravelWithRate] never add, drop,
    reorder or renumber a compartment nor change its parameters, whatever
    their outcome. *)
Theorem compartments_keep_their_identity (fuel : nat) (this : BuhlmannModel) :
  (forall cfg m, Body.new (Some cfg) = Ok m ->
     identities m = mapi (fun p index => ((index + 1)%nat, p, cfg)) O ZHL_16C_N2_16A_HE_VALUES
     /\ List.length (compartments m) = 16%nat)
  /\ (forall d t g, identities (snd (record fuel d t g this)) = identities this)
  /\ (forall d t g, identities (snd (recordTravel fuel d t g this)) = identities this)
  /\ (forall d r g, identities (snd (recordTravelWithRate fuel d r g this)) = identities this).
Proof.
  pose proof (readonly_ceiling fuel) as Hro.
  split; [|split; [|split]].
  - intros cfg m Hn. unfold Body.new in Hn.
    destruct (Config.validate cfg); [discriminate|]. injection Hn as <-.
    unfold identities, createCompartments. cbn [compartments].
    split; [apply mapi_identity|].
    rewrite <- (length_map identity), mapi_identity. reflexivity.
  - intros. apply identities_record. exact Hro.
  - intros. apply identities_recordTravel. exact Hro.
  - intros. apply identities_recordTravelWithRate. exact Hro.
Qed.
End IdentitiesTheorem.

(* ------------------------------------------------------------------ *)
(** ** The errors of [deco] *)

Section DecoErrors.
Context `{JSMath}.

(** X8.  [deco(gasMixes)] rejects its input before it simulates anything:
    with a configuration that no longer validates it raises the
    constructor's error (from the clone it starts with); otherwise an empty
    list raises 'Empty gas list', and a list without a gas that [equals] the
    current one raises 'Current gas not in list'.  The model is untouched. *)
Theorem deco_validates_gas_list (fuel : nat) (gasMixes : list Gas) (this : BuhlmannModel) :
  (forall validationError,
     Config.validate (configuration this) = Some validationError ->
     deco fuel gasMixes this = (Throw (ConfigError validationError), this))
  /\ (Config.validate (configuration this) = None ->
      (gasMixes = [] -> deco fuel gasMixes this = (Throw EmptyGasList, this))
      /\ (gasMixes <> [] ->
          existsb (fun g => GasM.equals g (gas (state this))) gasMixes = false ->
          deco fuel gasMixes this = (Throw CurrentGasNotInList, this))).
Proof.
  split.
  - intros e He. unfold deco. unfold bind at 1. rewrite clone_copy, He. reflexivity.
  - intros Hv. split.
    + intros ->. unfold deco. unfold bind at 1. rewrite clone_copy, Hv. reflexivity.
    + intros Hne Hex. unfold deco. unfold bind at 1. rewrite clone_copy, Hv.
      destruct gasMixes as [|g0 gs]; [elim Hne; reflexivity|].
      cbn [List.length Nat.eqb].
      change (gas (state (setSim true (setSim true this)))) with (gas (state this)).
      rewrite Hex. reflexivity.
Qed.
End DecoErrors.

(* ------------------------------------------------------------------ *)
(** ** The shape of the decompression schedule *)

Lemma registerDecoStage_last (stages : list DecoStage) (stage : DecoStage) :
  exists lastStage before,
    rev (registerDecoStage stages stage) = lastStage :: before
    /\ endDepth lastStage = endDepth stage.
Proof.
  unfold registerDecoStage.
  destruct (rev stages) as [|l before] eqn:Er.
  - rewrite rev_app_distr. simpl. eauto.
  - match goal with |- context [if ?b then _ else _] => destruct b end.
    + rewrite rev_app_distr. simpl. eauto.
    + rewrite rev_app_distr. simpl. eauto.
Qed.

Lemma registerDecoStage_endsAt stages stage d :
  endDepth stage = d \/ DepthM.equals (endDepth stage) d = true ->
  endsAt (registerDecoStage stages stage) d.
Proof.
  intro Hd. unfold endsAt.
  destruct (registerDecoStage_last stages stage) as (l & b & -> & ->). exact Hd.
Qed.

Lemma push_endsAt stages stage :
  endsAt (stages ++ [stage]) (endDepth stage).
Proof. unfold endsAt. rewrite rev_app_distr. simpl. left; reflexivity. Qed.

Lemma registerDecoStage_nonempty stages stage : registerDecoStage stages stage <> [].
Proof.
  destruct (registerDecoStage_last stages stage) as (l & b & Hr & _).
  intro E. rewrite E in Hr. discriminate.
Qed.

Section DecoShape.
Context `{JSMath}.

(** What the action chosen by [nextDecoAction] says about the simulation
    model it was chosen for. *)
Lemma nextDecoAction_spec fuel simModel gasMixes this act og simModel' this' :
  nextDecoAction fuel simModel gasMixes this = (Ok (act, og, simModel'), this') ->
  (act = None <-> (asMeters (depth (state simModel)) <=? 0)%float = true)
  /\ (act = Some DecoStop ->
      exists c, fst (ceiling fuel simModel) = Ok c
                /\ DepthM.equals (depth (state simModel)) (decoStopDepth c) = true)
  /\ (act = Some GasSwitch -> og <> None).
Proof.
  unfold nextDecoAction, bind, gets, call, ret.
  destruct (asMeters (depth (state simModel)) <=? 0)%float.
  { intro Hr. injection Hr as <- <- <- <-.
    split; [tauto|]. split; discriminate. }
  destruct (ceiling fuel simModel) as [[c|e|] sim1]; try discriminate.
  cbn [fst].
  assert (Hnn : forall a : DecoStageType, Some a = None <-> false = true)
    by (intro a; split; discriminate).
  destruct (nextSwitchGas this (depth (state simModel)) (gas (state simModel)) gasMixes)
    as [g|] eqn:En;
    repeat match goal with |- context [if ?b then _ else _] => destruct b eqn:? end;
    intro Hr; injection Hr as <- <- <- <-;
    (split; [apply Hnn|]); split; try discriminate;
    intros _; eexists; split; try reflexivity; assumption.
Qed.

Lemma decoLoop_ends fuel gasMixes n :
  forall simModel stages this res this',
    endsAt stages (depth (state simModel)) ->
    decoLoop fuel n gasMixes simModel stages this = (Ok res, this') ->
    endsAtSurface res.
Proof.
  pose proof (readonly_ceiling fuel) as Hceil.
  induction n as [|n IH]; intros simModel stages this res this' Hend Hrun;
    cbn [decoLoop] in Hrun; [discriminate|].
  apply bind_ok in Hrun as ([c sim1] & m1 & Hc & Hrun).
  apply call_ok in Hc as [Hc ->].
  pose proof (Hceil simModel) as Hro. rewrite Hc in Hro. cbn [snd] in Hro. subst sim1.
  apply bind_ok in Hrun as ([[act og] sim2] & m2 & Hact & Hrun).
  pose proof (nextDecoAction_spec _ _ _ _ _ _ _ _ Hact) as (Hnone & Hstop & Hswitch).
  apply nextDecoAction_ok in Hact as [-> _].
  cbv beta iota zeta in Hrun.
  destruct act as [[| |]|].
  - (* ascent *)
    apply bind_ok in Hrun as (cfg & m3 & _ & Hrun).
    apply bind_ok in Hrun as ([u sim3] & m4 & _ & Hrun).
    cbv beta iota zeta in Hrun.
    eapply IH; [|exact Hrun]. apply push_endsAt.
  - (* stop *)
    apply bind_ok in Hrun as ([u sim3] & m3 & Hrec & Hrun).
    apply call_ok in Hrec as [Hrec ->].
    cbv beta iota zeta in Hrun.
    eapply IH; [|exact Hrun].
    apply registerDecoStage_endsAt. cbn [endDepth]. right.
    destruct u. unfold record in Hrec.
    pose proof (record_whereabouts (ceiling fuel) Hceil _ _ _ _ _ _ Hrec) as Hw.
    unfold whereabouts in Hw. injection Hw as Hd _ _ _ _.
    unfold diveState. cbn [ds_depth].
    destruct (Hstop eq_refl) as (c' & Hc' & Heq).
    rewrite Hc in Hc'. cbn [fst] in Hc'. injection Hc' as <-.
    rewrite Hd. unfold DepthM.equals in *. apply float_eqb_sym. exact Heq.
  - (* gas switch *)
    destruct og as [g|]; [|elim (Hswitch eq_refl); reflexivity].
    apply bind_ok in Hrun as (cfg & m3 & _ & Hrun).
    apply bind_ok in Hrun as ([stages1 sim3] & m4 & _ & Hrun).
    cbv beta iota zeta in Hrun.
    apply bind_ok in Hrun as ([u sim4] & m5 & Hrec & Hrun).
    cbv beta iota zeta in Hrun.
    eapply IH; [|exact Hrun].
    apply registerDecoStage_endsAt. cbn [endDepth]. left. reflexivity.
  - (* finished *)
    unfold ret in Hrun. injection Hrun as <- _.
    unfold endsAt in Hend. unfold endsAtSurface.
    destruct (rev stages) as [|l before]; [exact I|].
    pose proof (proj1 Hnone eq_refl) as Hs.
    destruct Hend as [->|Heq]; [exact Hs|].
    unfold DepthM.equals in Heq. apply float_eqb_leb in Heq.
    eapply float_leb_trans; eassumption.
Qed.

Lemma decoLoop_empty fuel gasMixes n :
  forall simModel stages this res this',
    decoLoop fuel n gasMixes simModel stages this = (Ok res, this') ->
    (res = [] <->
     stages = [] /\ (asMeters (depth (state simModel)) <=? 0)%float = true).
Proof.
  pose proof (readonly_ceiling fuel) as Hceil.
  induction n as [|n IH]; intros simModel stages this res this' Hrun;
    cbn [decoLoop] in Hrun; [discriminate|].
  apply bind_ok in Hrun as ([c sim1] & m1 & Hc & Hrun).
  apply call_ok in Hc as [Hc ->].
  pose proof (Hceil simModel) as Hro. rewrite Hc in Hro. cbn [snd] in Hro. subst sim1.
  apply bind_ok in Hrun as ([[act og] sim2] & m2 & Hact & Hrun).
  pose proof (nextDecoAction_spec _ _ _ _ _ _ _ _ Hact) as (Hnone & Hstop & Hswitch).
  apply nextDecoAction_ok in Hact as [-> _].
  cbv beta iota zeta in Hrun.
  assert (Hsome : forall a, act = Some a ->
            (asMeters (depth (state simModel)) <=? 0)%float = true -> False).
  { intros a -> Hs. apply Hnone in Hs. discriminate. }
  destruct act as [[| |]|].
  - apply bind_ok in Hrun as (cfg & m3 & _ & Hrun).
    apply bind_ok in Hrun as ([u sim3] & m4 & _ & Hrun).
    cbv beta iota zeta in Hrun.
    apply IH in Hrun. split.
    + intro E. apply Hrun in E as [E _]. destruct stages; discriminate.
    + intros [_ Hs]. elim (Hsome _ eq_refl Hs).
  - apply bind_ok in Hrun as ([u sim3] & m3 & _ & Hrun).
    cbv beta iota zeta in Hrun.
    apply IH in Hrun. split.
    + intro E. apply Hrun in E as [E _]. elim (registerDecoStage_nonempty _ _ E).
    + intros [_ Hs]. elim (Hsome _ eq_refl Hs).
  - destruct og as [g|]; [|elim (Hswitch eq_refl); reflexivity].
    apply bind_ok in Hrun as (cfg & m3 & _ & Hrun).
    apply bind_ok in Hrun as ([stages1 sim3] & m4 & _ & Hrun).
    cbv beta iota zeta in Hrun.
    apply bind_ok in Hrun as ([u sim4] & m5 & _ & Hrun).
    cbv beta iota zeta in Hrun.
    apply IH in Hrun. split.
    + intro E. apply Hrun in E as [E _]. elim (registerDecoStage_nonempty _ _ E).
    + intros [_ Hs]. elim (Hsome _ eq_refl Hs).
  - unfold ret in Hrun. injection Hrun as <- _.
    pose proof (proj1 Hnone eq_refl). tauto.
Qed.

Lemma deco_ok fuel gasMixes this runtime :
  fst (deco fuel gasMixes this) = Ok runtime ->
  exists this',
    decoLoop fuel fuel gasMixes (setSim true this) [] this = (Ok (decoStages runtime), this')
    /\ runtime = mkRuntime (decoStages runtime)
                   (fold_left (fun total stage => TimeM.add total (duration stage))
                              (decoStages runtime) TimeM.zero)
                   (fold_left (fun total stage => TimeM.add total (duration stage))
                              (decoStages runtime) TimeM.zero) true.
Proof.
  unfold deco. unfold bind at 1. rewrite clone_copy.
  destruct (Config.validate (configuration this)); [discriminate|].
  destruct (List.length gasMixes =? 0)%nat; [discriminate|].
  destruct (negb _); [discriminate|].
  change (setSim true (setSim true this)) with (setSim true this).
  unfold bind.
  destruct (decoLoop fuel fuel gasMixes (setSim true this) [] this) as [[stages|e|] m1];
    try discriminate.
  unfold ret. cbn [fst]. intro E. injection E as <-. cbn [decoStages].
  eexists. split; reflexivity.
Qed.

(** X9.  Whenever [deco] returns, its schedule is empty exactly when the
    diver is already at the surface (depth <= 0): below the surface there is
    always at least one stage. *)
Theorem deco_schedule_empty_at_surface
    (fuel : nat) (gasMixes : list Gas) (this : BuhlmannModel) (runtime : DecoRuntime) :
  fst (deco fuel gasMixes this) = Ok runtime ->
  (decoStages runtime = [] <-> (asMeters (depth (state this)) <=? 0)%float = true).
Proof.
  intro Hd. apply deco_ok in Hd as (this' & Hrun & _).
  apply decoLoop_empty in Hrun. cbn [setSim state depth] in Hrun. tauto.
Qed.

(** X10.  Whenever [deco] returns, the last stage of the schedule ends at
    the surface (its end depth is <= 0); [tts] is the sum of the stage
    durations in order, [ttsSurface] is the same value, and the runtime is
    flagged as a simulation. *)
Theorem deco_schedule_ends_at_surface
    (fuel : nat) (gasMixes : list Gas) (this : BuhlmannModel) (runtime : DecoRuntime) :
  fst (deco fuel gasMixes this) = Ok runtime ->
  endsAtSurface (decoStages runtime)
  /\ tts runtime = fold_left (fun total stage => TimeM.add total (duration stage))
                             (decoStages runtime) TimeM.zero
  /\ ttsSurface runtime = tts runtime
  /\ rt_sim runtime = true.
Proof.
  intro Hd. apply deco_ok in Hd as (this' & Hrun & Hrt).
  split.
  - eapply decoLoop_ends; [|exact Hrun]. exact I.
  - rewrite Hrt. cbn [tts ttsSurface rt_sim decoStages]. repeat split.
Qed.
End DecoShape.

(* ------------------------------------------------------------------ *)
(** ** The range of the no-decompression limit *)

Lemma whole_minutes_in_range (k : nat) :
  (k <= 99)%nat ->
  (0 <=? asSeconds (TimeM.fromMinutes (counter k)))%float = true
  /\ (asSeconds (TimeM.fromMinutes (counter k)) <=? 5940)%float = true.
Proof.
  intro Hk.
  assert (Hall : forallb (fun k => (0 <=? asSeconds (TimeM.fromMinutes (counter k)))%float
                                   && (asSeconds (TimeM.fromMinutes (counter k)) <=? 5940)%float)
                         (seq 0 100) = true) by (vm_compute; reflexivity).
  rewrite forallb_forall in Hall.
  specialize (Hall k). rewrite in_seq in Hall.
  apply andb_true_iff. apply Hall. lia.
Qed.

Section NdlRange.
Context `{JSMath}.

Lemma ndlLoop_whole_minutes fuel this :
  forall r simModel j t,
    (j + r = 99)%nat ->
    fst (ndlLoop fuel r (counter j) (TimeM.fromMinutes 1) simModel
           (TimeM.fromMinutes NDL_CUT_OFF_MINS) this) = Ok t ->
    exists k, (k <= 99)%nat /\ t = TimeM.fromMinutes (counter k).
Proof.
  induction r as [|r IH]; intros simModel j t Hj Hrun.
  - cbn in Hrun. injection Hrun as <-. exists 99%nat. split; [lia|].
    vm_compute. reflexivity.
  - rewrite ndlLoop_step in Hrun.
    destruct (record fuel _ _ _ simModel) as [[u|e|] sim1]; try discriminate.
    destruct (inDeco fuel sim1) as [[[|]|e|] sim2]; try discriminate.
    + cbn [fst] in Hrun. injection Hrun as <-. exists j. split; [lia|].
      apply one_minute_times.
    + apply (IH sim2 (S j) t); [lia|exact Hrun].
Qed.

(** X11.  Whenever [ndl()] returns, the limit is a whole number of minutes
    from 0 to 99: never negative, never above the 99-minute cut-off. *)
Theorem ndl_is_whole_minutes_up_to_99 (fuel : nat) (this : BuhlmannModel) (t : Time) :
  fst (ndl fuel this) = Ok t ->
  exists k,
    (k <= 99)%nat /\ t = TimeM.fromMinutes (counter k)
    /\ (0 <=? asSeconds t)%float = true /\ (asSeconds t <=? 5940)%float = true.
Proof.
  intro Hn.
  assert (Hk : exists k, (k <= 99)%nat /\ t = TimeM.fromMinutes (counter k)).
  { unfold ndl in Hn. cbv zeta in Hn. unfold bind at 1 in Hn.
    destruct (inDeco fuel this) as [[[|]|e|] m1]; try discriminate.
    - cbn in Hn. injection Hn as <-. exists O. split; [lia|]. vm_compute. reflexivity.
    - unfold bind in Hn. destruct (fork m1) as [[simModel|e|] m2]; try discriminate.
      apply (ndlLoop_whole_minutes fuel m2 99 simModel O t); [lia|exact Hn]. }
  destruct Hk as (k & Hk & ->). exists k.
  destruct (whole_minutes_in_range k Hk). auto.
Qed.
End NdlRange.

(* ------------------------------------------------------------------ *)
(** ** Maxima over the compartments *)

(** ** The leading compartment *)

Lemma leadingFrom_max (rest : list Compartment) :
  forall best i,
    is_nan (minTolerableAmbPressure (snd best)) = false ->
    Forall (fun c => is_nan (minTolerableAmbPressure c) = false) rest ->
    let lead := snd (leadingFrom best i rest) in
    (minTolerableAmbPressure (snd best) <=? minTolerableAmbPressure lead)%float = true
    /\ forall c, In c rest ->
         (minTolerableAmbPressure c <=? minTolerableAmbPressure lead)%float = true.
Proof.
  induction rest as [|c rest IH]; intros best i Hb Hrest; cbn [leadingFrom].
  - split; [apply float_leb_refl, is_nan_key; exact Hb|]. intros c [].
  - inversion Hrest as [|c' rest' Hc Hrest']; subst.
    destruct (minTolerableAmbPressure (snd best) <? minTolerableAmbPressure c)%float eqn:E.
    + destruct (IH (i, c) (S i) Hc Hrest') as [Hle Hall]. cbn [snd] in Hle. split.
      * eapply float_leb_trans; [apply float_ltb_leb; exact E|exact Hle].
      * intros c' [<-|Hin]; [exact Hle|apply Hall; exact Hin].
    + destruct (IH best (S i) Hb Hrest') as [Hle Hall]. split; [exact Hle|].
      intros c' [<-|Hin]; [|apply Hall; exact Hin].
      eapply float_leb_trans; [|exact Hle].
      apply float_ltb_false_number; [exact E| |]; apply is_nan_key; assumption.
Qed.

(** X12.  When no compartment holds a NaN, [leadingComp()] is a compartment
    of the model whose min tolerable ambient pressure is at least that of
    every compartment. *)
Theorem leadingComp_has_highest_tolerable_pressure
    (m : BuhlmannModel) (idx : nat) (lead : Compartment) :
  Forall (fun c => is_nan (minTolerableAmbPressure c) = false) (compartments m) ->
  leadingComp m = Some (idx, lead) ->
  nth_error (compartments m) idx = Some lead
  /\ forall c, In c (compartments m) ->
       (minTolerableAmbPressure c <=? minTolerableAmbPressure lead)%float = true.
Proof.
  intros Hnum Hl. split; [apply leadingComp_nth; exact Hl|].
  unfold leadingComp in Hl. destruct (compartments m) as [|c0 rest]; [discriminate|].
  injection Hl as Hl. inversion Hnum as [|c' rest' Hc Hrest]; subst.
  destruct (leadingFrom_max rest (O, c0) 1%nat Hc Hrest) as [Hle Hall].
  rewrite Hl in Hle, Hall. cbn [snd] in Hle, Hall.
  intros c [<-|Hin]; [exact Hle|apply Hall; exact Hin].
Qed.

(** ** Supersaturation *)



(** ** The ceiling is not above the surface *)

Lemma compartment_ceiling_nonneg (c : Compartment) :
  (asMeters (CompartmentM.ceiling c) <? 0)%float = false.
Proof.
  unfold CompartmentM.ceiling. cbn [DepthM.fromMeters asMeters].
  match goal with |- context [if ?b then _ else _] => destruct b eqn:E end;
    [reflexivity|exact E].
Qed.

Lemma actualCeiling_nonneg (m : BuhlmannModel) (c : Depth) :
  Config.roundCeiling (configuration m) = false ->
  actualCeiling m = Ok c -> (asMeters c <? 0)%float = false.
Proof.
  unfold actualCeiling. intros Hr.
  destruct (leadingComp m) as [[idx lc]|]; [|discriminate].
  rewrite Hr. intro E. injection E as <-. apply compartment_ceiling_nonneg.
Qed.

Section CeilingSign.
Context `{JSMath}.

Lemma ceiling_sim_nonneg fuel (m : BuhlmannModel) (c : Depth) :
  sim m = true -> Config.roundCeiling (configuration m) = false ->
  fst (ceiling fuel m) = Ok c -> (asMeters c <? 0)%float = false.
Proof.
  intros Hs Hr Hc. destruct fuel as [|fuel]; [discriminate|].
  rewrite (ceiling_of_simulation fuel m Hs) in Hc.
  eapply actualCeiling_nonneg; eassumption.
Qed.

Lemma adaptiveLoop_nonneg (fc travelFuel : nat) (cfg : BuhlmannConfig) (g : Gas) :
  forall fuel it cc simModel this c' it' this',
    sim simModel = true ->
    Config.roundCeiling (configuration simModel) = false ->
    (asMeters cc <? 0)%float = false ->
    adaptiveLoop (ceiling fc) fuel travelFuel cfg g it cc simModel this
    = (Ok (c', it'), this') ->
    (asMeters c' <? 0)%float = false.
Proof.
  pose proof (readonly_ceiling fc) as Hro.
  induction fuel as [|fuel IH]; intros it cc simModel this c' it' this' Hs Hr Hcc Hrun;
    cbn [adaptiveLoop] in Hrun.
  - destruct (_ || _); [|discriminate].
    unfold ret in Hrun. injection Hrun as <- _ _. exact Hcc.
  - destruct (_ || _).
    { unfold ret in Hrun. injection Hrun as <- _ _. exact Hcc. }
    apply bind_ok in Hrun as ([u sim1] & m1 & Ht & Hrun).
    apply call_ok in Ht as [Ht ->].
    pose proof (static_recordTravelWithRate (ceiling fc) Hro travelFuel cc
                  (Config.decoAscentRate cfg) g simModel) as Hst.
    rewrite Ht in Hst. cbn [snd] in Hst. unfold static in Hst. injection Hst as Hs1 Hc1.
    cbv beta iota zeta in Hrun.
    apply bind_ok in Hrun as ([c1 sim2] & m2 & Hc & Hrun).
    apply call_ok in Hc as [Hc ->].
    pose proof (Hro sim1) as Hro1. rewrite Hc in Hro1. cbn [snd] in Hro1. subst sim2.
    assert (Hc1n : (asMeters c1 <? 0)%float = false).
    { apply (ceiling_sim_nonneg fc sim1 c1); [congruence|congruence|].
      rewrite Hc. reflexivity. }
    cbv beta iota zeta in Hrun.
    destruct (50 <? S it)%nat.
    + unfold ret in Hrun. injection Hrun as <- _ _. exact Hc1n.
    + eapply IH; [| |exact Hc1n|exact Hrun]; congruence.
Qed.

(** X14.  With ceiling rounding off, [ceiling()] never returns a negative
    depth, under the actual and under the adaptive ceiling type: every
    value it returns is a compartment ceiling, which is capped at 0. *)
Theorem ceiling_never_negative (fuel : nat) (this : BuhlmannModel) (c : Depth) :
  Config.roundCeiling (configuration this) = false ->
  fst (ceiling fuel this) = Ok c ->
  (asMeters c <? 0)%float = false.
Proof.
  intros Hr Hc. destruct fuel as [|fuel]; [discriminate|].
  cbn [ceiling] in Hc. unfold ceilingBody in Hc.
  unfold bind at 1, config, gets at 1 in Hc. unfold bind at 1, gets at 1 in Hc.
  unfold bind at 1, gets at 1 in Hc. rewrite Hr in Hc.
  unfold Config.roundCeiling in *.
  destruct (sim this) eqn:Hs.
  - unfold bind in Hc. destruct (leadingComp this) as [[idx lc]|]; [|discriminate].
    cbn in Hc. injection Hc as <-. apply compartment_ceiling_nonneg.
  - destruct (Config.ceilingType (configuration this)).
    + unfold bind in Hc. destruct (leadingComp this) as [[idx lc]|]; [|discriminate].
      cbn in Hc. injection Hc as <-. apply compartment_ceiling_nonneg.
    + unfold bind at 1 in Hc. unfold bind at 1 in Hc.
      destruct (adaptiveCeiling (ceiling fuel) fuel (configuration this) this)
        as [[[cc it]|e|] m1] eqn:Ea; try discriminate.
      cbn in Hc. injection Hc as <-.
      unfold adaptiveCeiling in Ea.
      apply bind_ok in Ea as (simModel & m2 & Hf & Ea).
      rewrite fork_copy in Hf.
      destruct (Config.validate (configuration this)); [discriminate|].
      injection Hf as <- <-.
      apply bind_ok in Ea as ([c0 sim1] & m3 & Hc0 & Ea).
      apply call_ok in Hc0 as [Hc0 ->].
      pose proof (readonly_ceiling fuel (setSim true this)) as Hro.
      rewrite Hc0 in Hro. cbn [snd] in Hro. subst sim1.
      cbv beta iota zeta in Ea.
      eapply (adaptiveLoop_nonneg fuel fuel _ _ fuel); [| | |exact Ea].
      * reflexivity.
      * exact Hr.
      * apply (ceiling_sim_nonneg fuel (setSim true this) c0); [reflexivity|exact Hr|].
        rewrite Hc0. reflexivity.
Qed.
End CeilingSign.

(* ------------------------------------------------------------------ *)
(** ** Configurations that validate *)

Lemma number_of_is_nan x : is_nan x = false -> fkey x <> None.
Proof. apply is_nan_key. Qed.

Lemma validate_inRange (c : BuhlmannConfig) :
  forallb (fun x => negb (is_nan x)) (configNumbers c) = true ->
  (Config.validate c = None <-> inRange c = true).
Proof.
  unfold configNumbers. cbn [forallb]. rewrite !andb_true_iff, !negb_true_iff.
  intros (Ha & Hb & Hs & Hr & _).
  apply number_of_is_nan in Ha, Hb, Hs, Hr.
  assert (N1 : fkey 1%float <> None) by (vm_compute; discriminate).
  assert (N100 : fkey 100%float <> None) by (vm_compute; discriminate).
  assert (N500 : fkey 500%float <> None) by (vm_compute; discriminate).
  assert (N1200 : fkey 1200%float <> None) by (vm_compute; discriminate).
  assert (N0 : fkey 0%float <> None) by (vm_compute; discriminate).
  assert (N30 : fkey 30%float <> None) by (vm_compute; discriminate).
  unfold Config.validate, inRange. split.
  - destruct (gfLow c <? 1)%float eqn:E1; [discriminate|].
    destruct (100 <? gfLow c)%float eqn:E2; [discriminate|].
    destruct (gfHigh c <? 1)%float eqn:E3; [discriminate|].
    destruct (100 <? gfHigh c)%float eqn:E4; [discriminate|].
    destruct (gfHigh c <? gfLow c)%float eqn:E5; [discriminate|].
    destruct (surfacePressureValue c <? 500)%float eqn:E6; [discriminate|].
    destruct (1200 <? surfacePressureValue c)%float eqn:E7; [discriminate|].
    destruct (decoAscentRateValue c <=? 0)%float eqn:E8; [discriminate|].
    destruct (30 <? decoAscentRateValue c)%float eqn:E9; [discriminate|].
    intros _. cbn [orb].
    apply float_ltb_false_number in E1, E4, E5, E6, E7, E9; try assumption.
    apply float_leb_false_number in E8; try assumption.
    rewrite E1, E4, E5, E6, E7, E8, E9. reflexivity.
  - rewrite !andb_true_iff. intros ((((((A1 & A2) & A3) & A4) & A5) & A6) & A7).
    rewrite (float_leb_ltb_false _ _ A1).
    rewrite (float_leb_ltb_false _ _ (float_leb_trans _ _ _ A2 A3)).
    rewrite (float_leb_ltb_false _ _ (float_leb_trans _ _ _ A1 A2)).
    rewrite (float_leb_ltb_false _ _ A3), (float_leb_ltb_false _ _ A2),
      (float_leb_ltb_false _ _ A4), (float_leb_ltb_false _ _ A5),
      (float_ltb_leb_false _ _ A6), (float_leb_ltb_false _ _ A7).
    reflexivity.
Qed.

(** X15.  For a configuration whose numbers are not NaN, [validate]
    returns null exactly when 1 <= gfLow <= gfHigh <= 100, the surface
    pressure is within 500..1200 mbar and the ascent rate within (0, 30]
    m/min.  (A NaN in any field fails none of the comparisons.) *)
Theorem validate_accepts_exactly_the_ranges (c : BuhlmannConfig) :
  forallb (fun x => negb (is_nan x)) (configNumbers c) = true ->
  (Config.validate c = None <-> inRange c = true).
Proof. apply validate_inRange. Qed.

(** X16.  [build()] returns the configuration with exactly the values set
    on the builder, and only one that validates: the model constructor
    accepts every built configuration, and its numbers, when none is NaN,
    are within the ranges.  A builder left untouched builds the default
    configuration. *)
Theorem built_configurations_are_valid (b : BuhlmannConfigBuilder) (c : BuhlmannConfig) :
  Builder.build b = Built c ->
  c = mkConfig (b_gfLow b) (b_gfHigh b) (b_surfacePressureValue b)
               (b_decoAscentRateValue b) (b_ceilingTypeValue b)
               (b_roundCeilingValue b) (b_ndlTypeValue b)
  /\ (exists m, Body.new (Some c) = Ok m /\ configuration m = c)
  /\ (forallb (fun x => negb (is_nan x)) (configNumbers c) = true -> inRange c = true)
  /\ Builder.build Builder.builder = Built Config.default.
Proof.
  unfold Builder.build at 1.
  destruct (Config.validate _) as [e|] eqn:Ev; [discriminate|].
  intro E. injection E as <-. split; [reflexivity|]. split; [|split].
  - unfold Body.new. rewrite Ev. eexists. split; reflexivity.
  - intro Hn. apply (validate_inRange _ Hn). exact Ev.
  - reflexivity.
Qed.

(* ------------------------------------------------------------------ *)
(** ** Switch gases and oxygen exposure *)

(** ** The next switch gas *)

Lemma insertByO2_nonempty g l : insertByO2 g l <> [].
Proof. destruct l as [|h t]; simpl; [discriminate|]. destruct (_ <? _)%float; discriminate. Qed.

Lemma sortByO2_nonempty l : l <> [] -> sortByO2 l <> [].
Proof.
  unfold sortByO2. intro Hl.
  assert (Hgen : forall l acc, (l <> [] \/ acc <> []) ->
            fold_left (fun acc g => insertByO2 g acc) l acc <> []).
  { clear. induction l as [|g l IH]; intros acc Hor; simpl.
    - destruct Hor as [K|K]; [elim K; reflexivity|exact K].
    - apply IH. right. apply insertByO2_nonempty. }
  apply Hgen. left. exact Hl.
Qed.

(** X17.  [nextSwitchGas] returns a gas of the list whose ppO2 at the
    current depth is strictly above that of the current gas, and returns
    null only when the list holds no such gas. *)
Theorem nextSwitchGas_is_richer_and_listed
    (this : BuhlmannModel) (currentDepth : Depth) (currentGas : Gas) (gasMixes : list Gas) :
  let ppO2 := fun g => pp_o2 (GasM.partialPressures g currentDepth
                                (Config.surfacePressure (configuration this))) in
  match nextSwitchGas this currentDepth currentGas gasMixes with
  | Some nextGas => In nextGas gasMixes /\ (ppO2 currentGas <? ppO2 nextGas)%float = true
  | None => forall g, In g gasMixes -> (ppO2 currentGas <? ppO2 g)%float = false
  end.
Proof.
  cbv zeta. unfold nextSwitchGas.
  set (candidates := filter _ gasMixes).
  destruct candidates as [|c0 cs] eqn:Ec.
  - intros g Hg. destruct (_ <? _)%float eqn:E; [|reflexivity].
    assert (Hin : In g candidates).
    { unfold candidates. apply filter_In. split; [exact Hg|exact E]. }
    rewrite Ec in Hin. destruct Hin.
  - destruct (sortByO2 (c0 :: cs)) as [|s0 ss] eqn:Es.
    + exfalso. apply (sortByO2_nonempty (c0 :: cs)); [discriminate|exact Es].
    + cbn [hd_error].
      assert (Hin : In s0 (sortByO2 (c0 :: cs))) by (rewrite Es; left; reflexivity).
      apply sortByO2_In in Hin. rewrite <- Ec in Hin. unfold candidates in Hin.
      apply filter_In in Hin. exact Hin.
Qed.

(** ** Oxygen exposure below 0.5 bar *)

Lemma findRow_below (ppO2 : float) :
  (0.5 <=? ppO2)%float = false -> OxToxM.findRow OxToxM.CNS_COEFFICIENTS ppO2 = None.
Proof.
  intro Hp.
  assert (Hrow : forall lo, (0.5 <=? lo)%float = true -> (lo <=? ppO2)%float = false).
  { intros lo Hlo. destruct (lo <=? ppO2)%float eqn:E; [|reflexivity].
    rewrite (float_leb_trans _ _ _ Hlo E) in Hp. discriminate. }
  unfold OxToxM.CNS_COEFFICIENTS. cbn [OxToxM.findRow range_lo range_hi].
  rewrite !Hrow by (vm_compute; reflexivity). reflexivity.
Qed.

Lemma getCnsRate_below (ppO2 : float) :
  (0.5 <=? ppO2)%float = false -> OxToxM.getCnsRate ppO2 = 0%float.
Proof.
  intro Hp. unfold OxToxM.getCnsRate. rewrite (findRow_below _ Hp).
  destruct (ppO2 <? 0.5)%float; [reflexivity|].
  destruct (1.65 <? ppO2)%float eqn:E; [|reflexivity].
  assert (K : (0.5 <=? ppO2)%float = true).
  { apply float_ltb_leb. eapply float_leb_ltb_trans; [|exact E]. vm_compute. reflexivity. }
  congruence.
Qed.

Section Exposure.
Context `{JSMath}.

Lemma addExposure_below (ox : OxTox) (ppO2 : float) (t : Time) :
  (0.5 <=? ppO2)%float = false -> OxToxM.addExposure ox ppO2 t = ox.
Proof.
  intro Hp. unfold OxToxM.addExposure. rewrite (getCnsRate_below _ Hp).
  change (0 <? 0)%float with false.
  destruct (0.5 <? ppO2)%float eqn:E.
  - apply float_ltb_leb in E. congruence.
  - destruct ox. reflexivity.
Qed.

Variable ceil : M Depth.
Hypothesis ceil_readonly : readonly ceil.

Lemma exposure_calcMaxSlopedGF d : preserves exposure (calcMaxSlopedGF ceil d).
Proof.
  unfold calcMaxSlopedGF.
  pres_with ltac:(apply preserves_readonly; exact ceil_readonly).
Qed.

Lemma exposure_recalculateCompartments r :
  preserves exposure (recalculateCompartments ceil r).
Proof.
  unfold recalculateCompartments. pres_with ltac:(apply exposure_calcMaxSlopedGF).
Qed.

Lemma recalculate_below r this :
  (0.5 <=? pp_o2 (GasM.inspiredPartialPressures (r_gas r) (r_depth r)
                    (Config.surfacePressure (configuration this))))%float = false ->
  exposure (snd (recalculate ceil r this)) = exposure this.
Proof.
  intro Hp. unfold recalculate. unfold bind at 1.
  pose proof (exposure_recalculateCompartments r this) as Hc.
  destruct (recalculateCompartments ceil r this) as [[u|e|] m1]; cbn [snd] in Hc;
    [|exact Hc|exact Hc].
  unfold bind, gets. cbn [fst snd].
  destruct (negb (sim m1)); [|exact Hc].
  unfold recalculateOxTox, modify. cbn [snd]. rewrite <- Hc.
  unfold exposure in *. injection Hc as Ho Hcfg.
  unfold setOxTox. cbn [state oxTox configuration]. rewrite Hcfg.
  rewrite (addExposure_below _ _ _ Hp). reflexivity.
Qed.
End Exposure.

Section ExposureTheorem.
Context `{JSMath}.

(** X18.  A segment whose inspired ppO2 is not at or above 0.5 bar adds no
    oxygen exposure: [addExposure] returns the exposure unchanged, and
    [record] leaves CNS and OTU of the model as they were. *)
Theorem no_oxygen_exposure_below_half_bar
    (fuel : nat) (d : Depth) (t : Time) (g : Gas) (this : BuhlmannModel) :
  (0.5 <=? pp_o2 (GasM.inspiredPartialPressures g d
                    (Config.surfacePressure (configuration this))))%float = false ->
  cns (snd (record fuel d t g this)) = cns this
  /\ otu (snd (record fuel d t g this)) = otu this
  /\ forall ox, OxToxM.addExposure ox
                  (pp_o2 (GasM.inspiredPartialPressures g d
                            (Config.surfacePressure (configuration this)))) t = ox.
Proof.
  intro Hp.
  cut (oxTox (state (snd (record fuel d t g this))) = oxTox (state this)).
  { intro E. unfold cns, otu. rewrite E. repeat split.
    intro ox; apply addExposure_below; exact Hp. }
  unfold record, Body.record.
  unfold bind at 1. unfold validateDepth.
  destruct (DepthM.lessThan d DepthM.zero); [reflexivity|].
  destruct (200 <? asMeters d)%float; [reflexivity|].
  unfold ret at 1. unfold bind at 1, modify at 1. unfold bind at 1, modify at 1.
  unfold bind at 1, modify at 1. cbv beta iota.
  match goal with |- context [recalculate ?c ?r ?m] =>
    pose proof (recalculate_below c (readonly_ceiling fuel) r m) as Hr end.
  cbn [r_gas r_depth] in Hr. specialize (Hr Hp).
  unfold exposure in Hr. injection Hr as Hr _. exact Hr.
Qed.
End ExposureTheorem.

(* ------------------------------------------------------------------ *)
(** ** Bounds, fractions, and a record over no time *)

(** X19.  For numbers with minVal <= maxVal, [clamp] returns a value within
    [minVal, maxVal], and returns [value] itself (up to ===) when it is
    already within the bounds. *)
Theorem clamp_stays_within_bounds (value minVal maxVal : float) :
  is_nan value = false -> is_nan minVal = false -> is_nan maxVal = false ->
  (minVal <=? maxVal)%float = true ->
  let r := MathUtils.clamp value minVal maxVal in
  (minVal <=? r)%float = true /\ (r <=? maxVal)%float = true
  /\ ((minVal <=? value)%float = true -> (value <=? maxVal)%float = true ->
      (r =? value)%float = true).
Proof.
  intros Hv Hlo Hhi Hle. cbv zeta.
  unfold MathUtils.clamp, MathUtils.max, Math.max. rewrite Hv, Hlo. cbn [orb].
  pose proof (proj1 (is_nan_key _) Hv) as Nv.
  pose proof (proj1 (is_nan_key _) Hlo) as Nlo.
  pose proof (proj1 (is_nan_key _) Hhi) as Nhi.
  set (m := if (value <? minVal)%float then minVal else value).
  assert (Hm : is_nan m = false /\ (minVal <=? m)%float = true).
  { unfold m. destruct (value <? minVal)%float eqn:E.
    - split; [exact Hlo|apply float_leb_refl; exact Nlo].
    - split; [exact Hv|apply float_ltb_false_number; assumption]. }
  destruct Hm as [Hmn Hmle]. unfold MathUtils.min. rewrite Hmn, Hhi. cbn [orb].
  split; [|split].
  - destruct (maxVal <? m)%float; [exact Hle|exact Hmle].
  - destruct (maxVal <? m)%float eqn:E; [apply float_leb_refl; exact Nhi|].
    apply float_ltb_false_number; [exact E|exact Nhi|apply is_nan_key; exact Hmn].
  - intros A B. unfold m. rewrite (float_leb_ltb_false _ _ A).
    rewrite (float_leb_ltb_false _ _ B). unfold is_nan in Hv.
    apply negb_false_iff in Hv. exact Hv.
Qed.

(** ** The constructor of [Gas] *)

(** X20.  For fractions that are numbers, the constructor of [Gas] succeeds
    exactly when 0 <= o2 <= 1, 0 <= he <= 1 and o2 + he <= 1, and the gas
    it builds holds the two fractions as given. *)
Theorem gas_constructor_accepts_fractions (o2 he : float) :
  is_nan o2 = false -> is_nan he = false -> is_nan (o2 + he) = false ->
  ((exists g, GasM.new o2 he = Ok g /\ o2Pp g = o2 /\ hePp g = he)
   <-> ((0 <=? o2) && (o2 <=? 1) && (0 <=? he) && (he <=? 1) && (o2 + he <=? 1))%float = true).
Proof.
  intros Ho Hh Hs.
  apply is_nan_key in Ho, Hh, Hs.
  assert (N0 : fkey 0%float <> None) by (vm_compute; discriminate).
  assert (N1 : fkey 1%float <> None) by (vm_compute; discriminate).
  unfold GasM.new. split.
  - intros (g & Hg & _).
    destruct (o2 <? 0)%float eqn:E1; [discriminate|].
    destruct (1 <? o2)%float eqn:E2; [discriminate|].
    destruct (he <? 0)%float eqn:E3; [discriminate|].
    destruct (1 <? he)%float eqn:E4; [discriminate|].
    destruct (1 <? o2 + he)%float eqn:E5; [discriminate|].
    apply float_ltb_false_number in E1, E2, E3, E4, E5; try assumption.
    rewrite E1, E2, E3, E4, E5. reflexivity.
  - rewrite !andb_true_iff. intros ((((A1 & A2) & A3) & A4) & A5).
    rewrite (float_leb_ltb_false _ _ A1), (float_leb_ltb_false _ _ A2),
      (float_leb_ltb_false _ _ A3), (float_leb_ltb_false _ _ A4),
      (float_leb_ltb_false _ _ A5).
    cbn [orb]. eexists. split; [reflexivity|]. split; reflexivity.
Qed.

(** ** A record over no time *)

Lemma finite_times_zero (x : float) :
  isFinite x = true -> exists s, Prim2SF (x * 0)%float = S754_zero s.
Proof.
  unfold isFinite. rewrite classify_spec, mul_spec.
  change (Prim2SF 0) with (S754_zero false).
  destruct (Prim2SF x) as [s|s| |s m e]; cbn [SFclassify SFmul].
  - intros _. eexists. reflexivity.
  - destruct s; discriminate.
  - discriminate.
  - intros _. eexists. reflexivity.
Qed.

Lemma plus_zero (p z : float) (s : bool) :
  Prim2SF z = S754_zero s -> is_nan p = false -> (p + z =? p)%float = true.
Proof.
  intros Hz Hp. unfold is_nan in Hp. apply negb_false_iff in Hp.
  rewrite FloatAxioms.eqb_spec in *. rewrite add_spec, Hz.
  destruct (Prim2SF p) as [sp|sp| |sp m e]; cbn [SFadd].
  - destruct sp, s; reflexivity.
  - exact Hp.
  - discriminate.
  - exact Hp.
Qed.

Section NoTime.
Context `{JSMath}.

(** X21.  A record over no time leaves the tissue loading of a compartment
    as it is: with 2^(-0/ht) = 1, as ECMAScript requires of [Math.pow], a
    finite difference between inspired and tissue pressure is multiplied by
    1 - 1 = 0, and the helium and nitrogen pressures after the update are
    === the ones before.  (A gas switch of the decompression schedule is
    such a record.) *)
Theorem haldane_update_over_no_time
    (c : Compartment) (r : RecordData) (maxGf sp : float) :
  r_time r = TimeM.zero ->
  Math_pow 2 (- TimeM.asMinutes TimeM.zero / heht (params c)) = 1%float ->
  Math_pow 2 (- TimeM.asMinutes TimeM.zero / n2ht (params c)) = 1%float ->
  isFinite (pp_he (GasM.inspiredPartialPressures (r_gas r) (r_depth r) sp) - heIp c) = true ->
  isFinite (pp_n2 (GasM.inspiredPartialPressures (r_gas r) (r_depth r) sp) - n2Ip c) = true ->
  is_nan (heIp c) = false -> is_nan (n2Ip c) = false ->
  let c' := CompartmentM.recalculate c r maxGf sp in
  (heIp c' =? heIp c)%float = true /\ (n2Ip c' =? n2Ip c)%float = true.
Proof.
  intros Ht Hhe Hn2 Fhe Fn2 Nhe Nn2. cbv zeta.
  unfold CompartmentM.recalculate, CompartmentM.compartmentInertPressure,
    CompartmentM.compartmentPressureDeltaHaldane.
  rewrite Ht, Hhe, Hn2. change (1.0 - 1)%float with 0%float.
  cbn [CompartmentM.setPressures CompartmentM.setMValues CompartmentM.setMinTolerable
       heIp n2Ip].
  destruct (finite_times_zero _ Fhe) as [s1 Z1].
  destruct (finite_times_zero _ Fn2) as [s2 Z2].
  split; [apply (plus_zero _ _ s1 Z1 Nhe)|apply (plus_zero _ _ s2 Z2 Nn2)].
Qed.
End NoTime.

(* ------------------------------------------------------------------ *)
(** ** The clock of a travel *)

(** ** The clock of a travel *)

Lemma tick_shift n t : tick n (TimeM.add t (TimeM.fromSeconds 1)) = tick (S n) t.
Proof.
  induction n as [|n IH]; [reflexivity|].
  change (tick (S n) (TimeM.add t (TimeM.fromSeconds 1)))
    with (TimeM.add (tick n (TimeM.add t (TimeM.fromSeconds 1))) (TimeM.fromSeconds 1)).
  rewrite IH. reflexivity.
Qed.

Section TravelClock.
Context `{JSMath}.
Variable ceil : M Depth.
Hypothesis ceil_readonly : readonly ceil.

Lemma whereabouts_travelLoop_ok (travelTime : Time) (distRate : float) (g : Gas) :
  forall fuel k currentDepth this u this',
    travelLoop ceil fuel (counter k) travelTime distRate currentDepth g this = (Ok u, this') ->
    exists n,
      time (state this') = tick n (time (state this))
      /\ depth (state this') = depth (state this)
      /\ (counter (k + n) <? asSeconds travelTime)%float = false
      /\ forall j, (j < n)%nat -> (counter (k + j) <? asSeconds travelTime)%float = true.
Proof.
  induction fuel as [|fuel IH]; intros k d this u this' Hrun; cbn [travelLoop] in Hrun.
  - destruct (counter k <? asSeconds travelTime)%float eqn:E; [discriminate|].
    unfold ret in Hrun. injection Hrun as _ <-. exists O.
    rewrite Nat.add_0_r. repeat split; try assumption. intros j Hj. lia.
  - destruct (counter k <? asSeconds travelTime)%float eqn:E.
    + apply bind_ok in Hrun as (u1 & m1 & Hm & Hrun). apply modify_ok in Hm. subst m1.
      cbv zeta in Hrun.
      apply bind_ok in Hrun as (u2 & m2 & Hr & Hrun).
      match type of Hr with recalculate _ ?r ?m = _ =>
        pose proof (whereabouts_recalculate ceil ceil_readonly r m) as Hw end.
      rewrite Hr in Hw. cbn [snd] in Hw. unfold whereabouts in Hw.
      injection Hw as Hd Ht _ _ _.
      change (counter k + 1)%float with (counter (S k)) in Hrun.
      apply IH in Hrun as (n & Hn & Hdep & Hstop & Hrun').
      exists (S n). rewrite Hn, Ht, Hdep, Hd. cbn [setTime state time depth].
      split; [apply tick_shift|]. split; [reflexivity|].
      replace (k + S n)%nat with (S k + n)%nat by lia. split; [exact Hstop|].
      intros j Hj. destruct j as [|j]; [rewrite Nat.add_0_r; exact E|].
      replace (k + S j)%nat with (S k + j)%nat by lia. apply Hrun'. lia.
    + unfold ret in Hrun. injection Hrun as _ <-. exists O.
      rewrite Nat.add_0_r. repeat split; try assumption. intros j Hj. lia.
Qed.
End TravelClock.

Section TravelClockTheorem.
Context `{JSMath}.

(** X22.  When [recordTravel] returns, the diver is at the target depth on
    the given gas, and the clock has advanced by whole seconds: by n steps
    of one second, where n is the first count that is not below the travel
    time, whatever fraction of a second the travel time has. *)
Theorem recordTravel_advances_clock_by_whole_seconds
    (fuel : nat) (target : Depth) (travelTime : Time) (g : Gas)
    (this this' : BuhlmannModel) :
  recordTravel fuel target travelTime g this = (Ok tt, this') ->
  depth (state this') = target /\ gas (state this') = g
  /\ exists n,
       time (state this') = tick n (time (state this))
       /\ (counter n <? asSeconds travelTime)%float = false
       /\ forall j, (j < n)%nat -> (counter j <? asSeconds travelTime)%float = true.
Proof.
  intro Hr. pose proof (readonly_ceiling fuel) as Hro.
  split; [|split].
  - unfold recordTravel, Body.recordTravel in Hr.
    apply bind_ok in Hr as (u0 & m0 & _ & Hr).
    apply bind_ok in Hr as (u1 & m1 & _ & Hr).
    apply bind_ok in Hr as (cd & m2 & _ & Hr). cbv zeta in Hr.
    apply bind_ok in Hr as (u3 & m3 & _ & Hr). apply modify_ok in Hr. subst this'.
    reflexivity.
  - apply (recordTravel_gas (ceiling fuel) Hro fuel target travelTime g this tt this' Hr).
  - unfold recordTravel, Body.recordTravel in Hr.
    apply bind_ok in Hr as (u0 & m0 & Hv & Hr). apply validateDepth_ok in Hv. subst m0.
    apply bind_ok in Hr as (u1 & m1 & Hm & Hr). apply modify_ok in Hm. subst m1.
    apply bind_ok in Hr as (cd & m2 & Hg & Hr). unfold gets in Hg. injection Hg as <- <-.
    cbv zeta in Hr.
    apply bind_ok in Hr as (u3 & m3 & Hl & Hr). apply modify_ok in Hr. subst this'.
    change 0%float with (counter 0) in Hl at 1.
    apply (whereabouts_travelLoop_ok (ceiling fuel) Hro) in Hl as (n & Hn & _ & Hstop & Hrun).
    exists n. cbn [setDepth state time]. rewrite Hn. cbn [setGas state time].
    split; [reflexivity|]. split; [exact Hstop|exact Hrun].
Qed.
End TravelClockTheorem.

(* ------------------------------------------------------------------ *)
(** ** The cached gf_low_depth is not above the surface *)

(** ** The cached gf_low_depth is not above the surface *)

Lemma max_not_negative (a b : float) :
  (a <? 0)%float = false -> (b <? 0)%float = false -> (Math.max a b <? 0)%float = false.
Proof.
  intros Ha Hb. unfold Math.max.
  destruct (is_nan a || is_nan b); [reflexivity|].
  destruct (a <? b)%float; assumption.
Qed.

Lemma max_zero_not_negative (y : float) : (Math.max 0 y <? 0)%float = false.
Proof.
  unfold Math.max. destruct (is_nan 0 || is_nan y); [reflexivity|].
  destruct (0 <? y)%float eqn:E; [apply float_ltb_asym; exact E|reflexivity].
Qed.

Lemma calcGfLowDepth_not_negative (this : BuhlmannModel) :
  (asMeters (calcGfLowDepth this) <? 0)%float = false.
Proof.
  unfold calcGfLowDepth. destruct (Config.gradientFactors (configuration this)) as [gfLow gfHigh].
  cbn [DepthM.fromMeters asMeters].
  match goal with |- (fold_left ?f _ _ <? 0)%float = false =>
    assert (Hgen : forall l acc, (acc <? 0)%float = false ->
                                 (fold_left f l acc <? 0)%float = false) end.
  { induction l as [|c l IH]; intros acc Hacc; cbn [fold_left]; [exact Hacc|].
    apply IH.
    destruct (CompartmentM.weightedZhlParams c (heIp c) (n2Ip c)) as [[ht a] b].
    apply max_not_negative; [exact Hacc|]. apply max_zero_not_negative. }
  apply Hgen. reflexivity.
Qed.

Lemma keeps_bind {A B} inv (c : M A) (k : A -> M B) :
  keeps inv c -> (forall a, keeps inv (k a)) -> keeps inv (bind c k).
Proof.
  intros Hc Hk this Hi. unfold bind. specialize (Hc this Hi).
  destruct (c this) as [[a|e|] this']; cbn [snd] in *; [apply Hk; exact Hc|exact Hc|exact Hc].
Qed.

Lemma keeps_readonly {A} inv (c : M A) : readonly c -> keeps inv c.
Proof. intros Hc this Hi. rewrite Hc. exact Hi. Qed.

Lemma keeps_modify inv (f : BuhlmannModel -> BuhlmannModel) :
  (forall m, inv m -> inv (f m)) -> keeps inv (modify f).
Proof. intros Hf this Hi. apply Hf. exact Hi. Qed.

Ltac inv_step tac :=
  lazymatch goal with
  | |- keeps _ (ret _) => apply keeps_readonly, readonly_ret
  | |- keeps _ (throw _) => apply keeps_readonly, readonly_throw
  | |- keeps _ outOfFuel => apply keeps_readonly, readonly_outOfFuel
  | |- keeps _ (gets _) => apply keeps_readonly, readonly_gets
  | |- keeps _ config => apply keeps_readonly, readonly_gets
  | |- keeps _ (validateDepth _) => unfold validateDepth
  | |- keeps _ (modify _) => apply keeps_modify; intros ? Hi; exact Hi
  | |- keeps _ (bind _ _) => apply keeps_bind; [ | intro ]
  | |- keeps _ (match ?x with _ => _ end) => destruct x
  | |- keeps _ (let _ := _ in _) => cbv zeta
  | |- _ => tac
  end.

Ltac inv_with tac := repeat (inv_step tac).

Section CacheSign.
Context `{JSMath}.
Variable ceil : M Depth.
Hypothesis ceil_readonly : readonly ceil.

Lemma cache_calcMaxSlopedGF d : keeps cacheNotNegative (calcMaxSlopedGF ceil d).
Proof.
  intros this Hi. unfold cacheNotNegative in *.
  rewrite (calcMaxSlopedGF_cache ceil d this ceil_readonly).
  destruct (gfLowDepth (state this)) as [x|]; [exact Hi|].
  destruct (fst (ceil this)) as [c|e|]; try exact I.
  destruct (DepthM.greaterThan c DepthM.zero); [|exact I].
  apply calcGfLowDepth_not_negative.
Qed.

Lemma cache_recalculateCompartments r :
  keeps cacheNotNegative (recalculateCompartments ceil r).
Proof.
  unfold recalculateCompartments. inv_with ltac:(apply cache_calcMaxSlopedGF).
Qed.

Lemma cache_recalculate r : keeps cacheNotNegative (recalculate ceil r).
Proof.
  unfold recalculate, recalculateOxTox. inv_with ltac:(apply cache_recalculateCompartments).
Qed.

Lemma cache_travelLoop fuel :
  forall i travelTime distRate currentDepth g,
    keeps cacheNotNegative (travelLoop ceil fuel i travelTime distRate currentDepth g).
Proof.
  induction fuel as [|fuel IH]; intros; simpl;
    inv_with ltac:(first [apply cache_recalculate | apply IH]).
Qed.

Lemma cache_record d t g : keeps cacheNotNegative (Body.record ceil d t g).
Proof. unfold Body.record. inv_with ltac:(apply cache_recalculate). Qed.

Lemma cache_recordTravel fuel d t g :
  keeps cacheNotNegative (Body.recordTravel ceil fuel d t g).
Proof. unfold Body.recordTravel. inv_with ltac:(apply cache_travelLoop). Qed.

Lemma cache_recordTravelWithRate fuel d r g :
  keeps cacheNotNegative (Body.recordTravelWithRate ceil fuel d r g).
Proof. unfold Body.recordTravelWithRate. inv_with ltac:(apply cache_recordTravel). Qed.
End CacheSign.

Section CacheSignTheorem.
Context `{JSMath}.

(** X23.  The cached gf_low_depth is never a negative depth: the direct
    calculation floors every compartment's depth at 0, a new model has no
    cache, and [record], [recordTravel], [recordTravelWithRate] and
    [getCurrentGF] keep the cache empty or not negative, whatever their
    outcome. *)
Theorem gfLowDepth_is_never_negative (fuel : nat) (this : BuhlmannModel) :
  (asMeters (calcGfLowDepth this) <? 0)%float = false
  /\ (forall cfg m, Body.new (Some cfg) = Ok m -> cacheNotNegative m)
  /\ (cacheNotNegative this ->
      (forall d t g, cacheNotNegative (snd (record fuel d t g this)))
      /\ (forall d t g, cacheNotNegative (snd (recordTravel fuel d t g this)))
      /\ (forall d r g, cacheNotNegative (snd (recordTravelWithRate fuel d r g this)))
      /\ cacheNotNegative (snd (getCurrentGF fuel this))).
Proof.
  pose proof (readonly_ceiling fuel) as Hro.
  split; [apply calcGfLowDepth_not_negative|]. split.
  - intros cfg m Hn. unfold Body.new in Hn. destruct (Config.validate cfg); [discriminate|].
    injection Hn as <-. exact I.
  - intro Hi. repeat split; intros.
    + apply cache_record; assumption.
    + apply cache_recordTravel; assumption.
    + apply cache_recordTravelWithRate; assumption.
    + unfold getCurrentGF. apply keeps_bind; [apply keeps_readonly, readonly_gets| |exact Hi].
      intro a. apply cache_calcMaxSlopedGF. exact Hro.
Qed.
End CacheSignTheorem.

(* ------------------------------------------------------------------ *)
(** ** Oxygen update of a record, and deco at the surface *)

Section OxygenUpdate.
Context `{JSMath}.

(** X24.  When [record] returns on a model that is not a simulation, the
    oxygen exposure has taken exactly one [addExposure] step, with the
    inspired ppO2 of the segment's gas at the segment's depth over the
    segment's time; on a simulation model (the forks of [ndl], [deco] and
    the adaptive ceiling) it is unchanged. *)
Theorem record_adds_one_oxygen_exposure
    (fuel : nat) (d : Depth) (t : Time) (g : Gas) (this this' : BuhlmannModel) :
  record fuel d t g this = (Ok tt, this') ->
  oxTox (state this') =
  if sim this then oxTox (state this)
  else OxToxM.addExposure (oxTox (state this))
         (pp_o2 (GasM.inspiredPartialPressures g d
                   (Config.surfacePressure (configuration this)))) t.
Proof.
  pose proof (readonly_ceiling fuel) as Hro.
  unfold record, Body.record. intro Hr.
  apply bind_ok in Hr as (u0 & m0 & Hv & Hr). apply validateDepth_ok in Hv. subst m0.
  apply bind_ok in Hr as (u1 & m1 & Hm & Hr). apply modify_ok in Hm. subst m1.
  apply bind_ok in Hr as (u2 & m2 & Hm & Hr). apply modify_ok in Hm. subst m2.
  apply bind_ok in Hr as (u3 & m3 & Hm & Hr). apply modify_ok in Hm. subst m3.
  unfold recalculate in Hr.
  apply bind_ok in Hr as (u4 & m4 & Hc & Hr).
  match type of Hc with recalculateCompartments _ ?r ?m = _ =>
    pose proof (exposure_recalculateCompartments (ceiling fuel) Hro r m) as He;
    pose proof (whereabouts_recalculateCompartments (ceiling fuel) Hro r m) as Hw end.
  rewrite Hc in He, Hw. cbn [snd] in He, Hw.
  unfold exposure in He. unfold whereabouts in Hw.
  injection He as Ho Hcfg. injection Hw as _ _ _ Hs _.
  cbn [setTime setGas setDepth state oxTox configuration sim] in Ho, Hcfg, Hs.
  apply bind_ok in Hr as (isSim & m5 & Hg & Hr). unfold gets in Hg.
  injection Hg as <- <-. rewrite Hs in Hr.
  destruct (sim this); cbn [negb] in Hr.
  - unfold ret in Hr. injection Hr as <-. exact Ho.
  - unfold recalculateOxTox in Hr. apply modify_ok in Hr. subst this'.
    cbn [setOxTox state oxTox r_gas r_depth r_time]. rewrite Ho, Hcfg. reflexivity.
Qed.

(** X25.  Under the adaptive ceiling type [inDeco()] is false whenever the
    diver is at the surface (depth <= 0), whatever the tissues hold: the
    schedule it counts the stages of is empty there. *)
Theorem adaptive_inDeco_is_false_at_surface (fuel : nat) (this : BuhlmannModel) (b : bool) :
  Config.ceilingType (configuration this) = Adaptive ->
  (asMeters (depth (state this)) <=? 0)%float = true ->
  fst (inDeco fuel this) = Ok b ->
  b = false.
Proof.
  intros Hct Hd Hi. unfold inDeco in Hi. unfold bind at 1, config, gets at 1 in Hi.
  cbn [fst snd] in Hi. rewrite Hct in Hi.
  unfold bind at 1, gets at 1 in Hi. unfold bind in Hi.
  destruct (deco fuel [ds_gas (diveState this)] this) as [[rt|e|] m1] eqn:Ed; try discriminate.
  cbn in Hi. injection Hi as <-.
  assert (Hrt : fst (deco fuel [ds_gas (diveState this)] this) = Ok rt) by (rewrite Ed; reflexivity).
  apply deco_ok in Hrt as (this' & Hrun & _).
  apply decoLoop_empty in Hrun. cbn [setSim state depth] in Hrun.
  rewrite (proj2 Hrun (conj eq_refl Hd)). reflexivity.
Qed.
End OxygenUpdate.

(* ================================================================== *)
(** * Concrete dives *)

(** The engine run with [binary64Math] on the dives defined above: the
    theorems instantiated, and the dives that separate the code from a
    stronger reading. *)

Section Dives.
#[local] Existing Instance binary64Math.

(** An invalid target depth: the call throws before touching the model. *)
Lemma recordTravelWithRate_delegates_witness :
  recordTravelWithRate plenty (meters 250) 10 GasM.air surfaceModel
  = (Throw DepthTooDeep, surfaceModel).
Proof.
  apply (recordTravelWithRate_delegates plenty (meters 250) 10 GasM.air surfaceModel).
  vm_compute. reflexivity.
Defined.

(** C8 fails as stated: with rate = -1 the call raises no error, and the
    model is changed: its depth jumps from 0 m to the target. *)
Lemma recordTravelWithRate_negative_rate :
  outcome (recordTravelWithRate plenty (meters 10) (-1) GasM.air) surfaceModel = Ok tt
  /\ depth (state surfaceModel) = meters 0
  /\ depth (state (after (recordTravelWithRate plenty (meters 10) (-1) GasM.air)
                         surfaceModel)) = meters 10.
Proof. vm_compute. repeat split. Qed.

(** The cache of the first obligation survives a descent of the surfaced
    model into a second obligation. *)
Lemma gfLowDepth_computed_once_never_invalidated_witness :
  gfLowDepth (state (snd (record plenty (meters 50) (minutes 30) GasM.air surfaced)))
  = Some (meters 20.131492788169002).
Proof.
  refine (proj1 (proj2 (gfLowDepth_computed_once_never_invalidated plenty surfaced)
                       (meters 20.131492788169002) _) _ _ _).
  vm_compute. reflexivity.
Defined.

(** C2 fails as stated.  After the first obligation the model surfaces and is
    no longer in deco, yet the cache still holds the first obligation's value;
    in the second obligation the cache is that same value, although computing
    it from the compartments then gives a deeper one. *)
Lemma gfLowDepth_not_invalidated_on_leaving_deco :
  outcome (inDeco plenty) firstObligation = Ok true
  /\ gfLowDepth (state firstObligation) = Some (meters 20.131492788169002)
  /\ outcome (inDeco plenty) surfaced = Ok false
  /\ gfLowDepth (state surfaced) = gfLowDepth (state firstObligation)
  /\ outcome (inDeco plenty) secondObligation = Ok true
  /\ gfLowDepth (state secondObligation) = gfLowDepth (state firstObligation)
  /\ calcGfLowDepth secondObligation = meters 25.259805059066167.
Proof. vm_compute. repeat split. Qed.

(** Compartment 1 of a fresh model, asked for its weighted parameters at
    P_He = P_N2 = 0. *)
Lemma weightedZhlParams_zero_total_not_finite_witness :
  let '(ht, a, b) :=
    CompartmentM.weightedZhlParams
      (CompartmentM.new 1 (mkZHL 1.2599 0.505 4.0 1.7424 0.4245 1.51) Config.default) 0 0 in
  isFinite ht = false /\ isFinite a = false /\ isFinite b = false.
Proof.
  apply (weightedZhlParams_zero_total_not_finite
           (CompartmentM.new 1 (mkZHL 1.2599 0.505 4.0 1.7424 0.4245 1.51) Config.default)
           0 0).
  vm_compute. reflexivity.
Defined.

(** C3, on a dive the engine accepts.  [record(3 m, 240 min, O2)] on a fresh
    model returns normally and leaves compartment 1 with P_He = P_N2 =
    P_total = 0.  The weighted coefficients of that compartment are then the
    quotients 0/0 = NaN, not the N2 coefficients (4, 1.2599, 0.505): the
    division by zero is taken, its min tolerable ambient pressure is NaN, and
    the ceiling of the whole model is NaN. *)
Theorem weightedZhlParams_no_fallback_after_oxygen :
  outcome (record plenty (meters 3) (minutes 240) oxygen) surfaceModel = Ok tt
  /\ match compartments afterOxygen with
     | c :: _ =>
         heIp c = 0%float /\ n2Ip c = 0%float /\ totalIp c = 0%float
         /\ (n2ht (params c), n2a (params c), n2b (params c)) = (4.0, 1.2599, 0.505)%float
         /\ CompartmentM.weightedZhlParams c (heIp c) (n2Ip c) = (nan, nan, nan)
         /\ minTolerableAmbPressure c = nan
     | [] => False
     end
  /\ outcome (ceiling plenty) afterOxygen = Ok (meters nan).
Proof. vm_compute. repeat split. Qed.

(** The 25 min at 30 m on air, GF 30/70: the record returns, so all sixteen
    compartments are updated as the theorem says. *)
Lemma record_updates_by_haldane_witness :
  Forall2 (updatedBy (mkRecord (meters 30) (minutes 25) GasM.air)
                     (Config.surfacePressure cfg3070))
          (compartments (modelOf cfg3070)) (compartments at30m).
Proof.
  apply (record_updates_by_haldane plenty (meters 30) (minutes 25) GasM.air
           (modelOf cfg3070) at30m).
  vm_compute. reflexivity.
Defined.

(** The multi-gas dive of the test suite: [deco([air, EAN50])] returns a
    runtime (ascent, gas switch at 22 m, ascent, stops), all on listed gases. *)
Lemma deco_stages_use_listed_gases_witness :
  [GasM.air; ean50] <> []
  /\ gasInList [GasM.air; ean50] (gas (state at40m))
  /\ Forall (fun stage => gasInList [GasM.air; ean50] (stageGas stage))
            (decoStages multiGasRuntime).
Proof.
  apply (deco_stages_use_listed_gases plenty [GasM.air; ean50] at40m multiGasRuntime).
  vm_compute. reflexivity.
Defined.

(** The three cases on dives of the test suite: in deco after 20 min at 40 m
    (NDL 0); 16 minutes left on arrival at 30 m; the cut-off at the surface. *)
Lemma ndl_forward_simulation_witness :
  fst (ndl plenty at40m) = Ok TimeM.zero
  /\ fst (ndl plenty arrivedAt30m) = Ok (TimeM.fromMinutes (counter 16))
  /\ fst (ndl plenty surfaceModel) = Ok (TimeM.fromMinutes NDL_CUT_OFF_MINS).
Proof.
  split; [|split].
  - apply (proj1 (ndl_forward_simulation plenty at40m)). vm_compute. reflexivity.
  - refine (proj1 (proj2 (ndl_forward_simulation plenty arrivedAt30m)
                         (forkOf arrivedAt30m) _ _) 16%nat _ _ _ _).
    + vm_compute. reflexivity.
    + vm_compute. reflexivity.
    + lia.
    + intros j Hj.
      destruct (Nat.eq_dec j 16) as [->|Hne]; [vm_compute; reflexivity|].
      apply (clearFor_sound plenty arrivedAt30m 16 (forkOf arrivedAt30m));
        [vm_compute; reflexivity|lia].
    + intros j Hj.
      apply (clearFor_sound plenty arrivedAt30m 16 (forkOf arrivedAt30m));
        [vm_compute; reflexivity|exact Hj].
    + vm_compute. reflexivity.
  - refine (proj2 (proj2 (ndl_forward_simulation plenty surfaceModel)
                         (forkOf surfaceModel) _ _) _).
    + vm_compute. reflexivity.
    + vm_compute. reflexivity.
    + apply (clearFor_sound plenty surfaceModel 99 (forkOf surfaceModel)).
      vm_compute. reflexivity.
Defined.

(** Two dives under the adaptive ceiling type.  After 10 min at 10 m the
    actual ceiling is 0 m: the loop ascends once and breaks with the fork at
    the surface.  After 20 min at 40 m, the dive of the test suite, the fork
    is above the ceiling before each of 51 ascents, and the cap breaks the
    loop. *)
Lemma adaptive_ceiling_capped_at_51_witness :
  adaptiveCeiling (ceiling 1999) 1999 cfgAdaptive adaptiveAt10m
  = (Ok (meters 0, 1%nat), adaptiveAt10m)
  /\ adaptiveCeiling (ceiling 1999) 1999 cfgAdaptive adaptiveAt40m
     = (Ok (meters 3.1329506183040423, 51%nat), adaptiveAt40m).
Proof.
  split.
  - destruct (adaptive_ceiling_capped_at_51 1998 adaptiveAt10m) as (_ & T & _).
    destruct (T (forkOf adaptiveAt10m) (meters 0)) as (_ & T1);
      [vm_compute; reflexivity|vm_compute; reflexivity|].
    destruct T1 as (Tstop & _); [lia|].
    eapply (Tstop 1%nat (meters 0)); [lia| | |].
    + vm_compute. reflexivity.
    + apply ascendsFor_sound. vm_compute. reflexivity.
    + vm_compute. reflexivity.
  - destruct (adaptive_ceiling_capped_at_51 1998 adaptiveAt40m) as (_ & T & _).
    destruct (T (forkOf adaptiveAt40m) (meters 5.1917268956071556)) as (_ & T1);
      [vm_compute; reflexivity|vm_compute; reflexivity|].
    destruct T1 as (_ & Tcap & _); [lia|].
    eapply (Tcap (meters 3.1329506183040423)).
    + vm_compute. reflexivity.
    + apply ascendsFor_sound. vm_compute. reflexivity.
Defined.

(** From the surface to 10 m at rate 0, default configuration: the travel
    time is 10 / 0 = Infinity minutes. *)
Lemma recordTravelWithRate_infinite_time_never_returns_witness :
  fst (recordTravelWithRate plenty (meters 10) 0 GasM.air surfaceModel)
  = OutOfFuel.
Proof.
  refine (recordTravelWithRate_infinite_time_never_returns
            (meters 10) 0 GasM.air surfaceModel _ _ _ plenty);
    vm_compute; reflexivity.
Defined.

(** C4 fails as stated, twice.  On the adaptive-ceiling dive of the test
    suite the ascend-and-recompute loop runs 51 times before the cap stops
    it, one more than the 50 iterations of the claim: the fork starts at 40 m
    under an actual ceiling of 5.19 m, and the ceiling returned is 3.13 m.
    And on the same dive with the smallest positive ascent rate, which the
    configuration accepts, [ceiling()] never returns: the first simulated
    ascent takes an infinite travel time, and the loop of [recordTravel]
    over it has no end. *)
Lemma adaptive_ceiling_51_iterations_and_endless_ascent :
  outcome (call (forkOf adaptiveAt40m) (ceiling 1999)) adaptiveAt40m
  = Ok (meters 5.1917268956071556, forkOf adaptiveAt40m)
  /\ outcome (adaptiveCeiling (ceiling 1999) 1999 cfgAdaptive) adaptiveAt40m
     = Ok (meters 3.1329506183040423, 51%nat)
  /\ outcome (ceiling plenty) adaptiveAt40m = Ok (meters 3.1329506183040423)
  /\ Config.validate cfgSlowest = None
  /\ outcome (record plenty (meters 40) (minutes 20) GasM.air) (modelOf cfgSlowest)
     = Ok tt
  /\ (forall fuel, outcome (ceiling fuel) slowestAt40m = OutOfFuel).
Proof.
  do 5 (split; [vm_compute; reflexivity|]).
  apply (ceiling_endless slowestAt40m (forkOf slowestAt40m) (meters 5.1917268956071556));
    vm_compute; reflexivity.
Qed.

(** The 25 min at 30 m on air of [at30m]. *)
Lemma record_sets_dive_state_witness :
  depth (state at30m) = meters 30
  /\ gas (state at30m) = GasM.air
  /\ time (state at30m) = TimeM.add (time (state (modelOf cfg3070))) (minutes 25)
  /\ configuration at30m = configuration (modelOf cfg3070)
  /\ sim at30m = sim (modelOf cfg3070)
  /\ (asMeters (meters 30) <? 0)%float = false /\ (200 <? asMeters (meters 30))%float = false
  /\ (0 <=? asMeters (meters 30))%float = true /\ (asMeters (meters 30) <=? 200)%float = true.
Proof.
  destruct (record_sets_dive_state plenty (meters 30) (minutes 25) GasM.air
              (modelOf cfg3070) at30m) as (A & B & C & D & E & F & G & K);
    [vm_compute; reflexivity|].
  repeat split; try assumption; apply K; reflexivity.
Defined.

(** From the surface to 10 m over -60 s: the diver is at 10 m, the tissues
    are those of the surface. *)
Lemma recordTravel_without_time_only_moves_witness :
  recordTravel plenty (meters 10) (TimeM.fromSeconds (-60)) GasM.air surfaceModel
  = (Ok tt, mkModel (configuration surfaceModel) (compartments surfaceModel)
                    (mkState (meters 10) (time (state surfaceModel)) GasM.air
                             (gfLowDepth (state surfaceModel)) (oxTox (state surfaceModel)))
                    (sim surfaceModel)).
Proof.
  apply (recordTravel_without_time_only_moves plenty (meters 10) (TimeM.fromSeconds (-60))
           GasM.air surfaceModel); vm_compute; reflexivity.
Defined.

(** At the surface the schedule is empty. *)
Lemma deco_schedule_empty_at_surface_witness : decoStages surfaceRuntime = [].
Proof.
  refine (proj2 (deco_schedule_empty_at_surface plenty [GasM.air] surfaceModel
                   surfaceRuntime _) _); vm_compute; reflexivity.
Defined.

(** The multi-gas schedule of the test suite ends with the ascent from 3 m
    to 0 m. *)
Lemma deco_schedule_ends_at_surface_witness :
  endsAtSurface (decoStages multiGasRuntime)
  /\ tts multiGasRuntime
     = fold_left (fun total stage => TimeM.add total (duration stage))
                 (decoStages multiGasRuntime) TimeM.zero
  /\ ttsSurface multiGasRuntime = tts multiGasRuntime
  /\ rt_sim multiGasRuntime = true.
Proof.
  apply (deco_schedule_ends_at_surface plenty [GasM.air; ean50] at40m multiGasRuntime).
  vm_compute. reflexivity.
Defined.

(** 16 minutes on arrival at 30 m. *)
Lemma ndl_is_whole_minutes_up_to_99_witness :
  exists k,
    (k <= 99)%nat /\ TimeM.fromMinutes 16 = TimeM.fromMinutes (counter k)
    /\ (0 <=? asSeconds (TimeM.fromMinutes 16))%float = true
    /\ (asSeconds (TimeM.fromMinutes 16) <=? 5940)%float = true.
Proof.
  apply (ndl_is_whole_minutes_up_to_99 plenty arrivedAt30m (TimeM.fromMinutes 16)).
  vm_compute. reflexivity.
Defined.

(** After 25 min at 30 m the leading compartment is one of the sixteen. *)
Lemma leadingComp_has_highest_tolerable_pressure_witness :
  exists idx lead,
    leadingComp at30m = Some (idx, lead)
    /\ nth_error (compartments at30m) idx = Some lead
    /\ forall c, In c (compartments at30m) ->
         (minTolerableAmbPressure c <=? minTolerableAmbPressure lead)%float = true.
Proof.
  eexists. eexists. split; [vm_compute; reflexivity|].
  apply (leadingComp_has_highest_tolerable_pressure at30m).
  - repeat constructor.
  - vm_compute. reflexivity.
Defined.

(** The adaptive ceiling of the test suite's dive. *)
Lemma ceiling_never_negative_witness :
  (asMeters (meters 3.1329506183040423) <? 0)%float = false.
Proof.
  apply (ceiling_never_negative plenty adaptiveAt40m (meters 3.1329506183040423));
    vm_compute; reflexivity.
Defined.

(** The default configuration is within the ranges. *)
Lemma validate_accepts_exactly_the_ranges_witness : inRange Config.default = true.
Proof.
  refine (proj1 (validate_accepts_exactly_the_ranges Config.default _) _);
    vm_compute; reflexivity.
Defined.

(** [BuhlmannConfig.builder().gradientFactors(30, 70).build()]. *)
Lemma built_configurations_are_valid_witness :
  cfg3070 = mkConfig 30 70 1013 10 Actual false NDL_Actual
  /\ (exists m, Body.new (Some cfg3070) = Ok m /\ configuration m = cfg3070)
  /\ (forallb (fun x => negb (is_nan x)) (configNumbers cfg3070) = true ->
      inRange cfg3070 = true)
  /\ Builder.build Builder.builder = Built Config.default.
Proof.
  apply (built_configurations_are_valid
           (Builder.gradientFactors 30 70 Builder.builder) cfg3070).
  vm_compute. reflexivity.
Defined.

(** Air at 10 m: an inspired ppO2 of 0.41 bar. *)
Lemma no_oxygen_exposure_below_half_bar_witness :
  cns (snd (record plenty (meters 10) (minutes 30) GasM.air surfaceModel)) = cns surfaceModel
  /\ otu (snd (record plenty (meters 10) (minutes 30) GasM.air surfaceModel))
     = otu surfaceModel
  /\ forall ox,
       OxToxM.addExposure ox
         (pp_o2 (GasM.inspiredPartialPressures GasM.air (meters 10)
                   (Config.surfacePressure (configuration surfaceModel)))) (minutes 30)
       = ox.
Proof.
  apply (no_oxygen_exposure_below_half_bar plenty (meters 10) (minutes 30) GasM.air
           surfaceModel).
  vm_compute. reflexivity.
Defined.

Lemma clamp_stays_within_bounds_witness :
  (0 <=? MathUtils.clamp 5 0 3)%float = true /\ (MathUtils.clamp 5 0 3 <=? 3)%float = true
  /\ ((0 <=? 5)%float = true -> (5 <=? 3)%float = true ->
      (MathUtils.clamp 5 0 3 =? 5)%float = true).
Proof.
  apply (clamp_stays_within_bounds 5 0 3); vm_compute; reflexivity.
Defined.

(** [new Gas(0.21, 0)]. *)
Lemma gas_constructor_accepts_fractions_witness :
  exists g, GasM.new 0.21 0 = Ok g /\ o2Pp g = 0.21%float /\ hePp g = 0%float.
Proof.
  refine (proj2 (gas_constructor_accepts_fractions 0.21 0 _ _ _) _);
    vm_compute; reflexivity.
Defined.

(** The first compartment after 25 min at 30 m, switched to EAN50 over no
    time. *)
Lemma haldane_update_over_no_time_witness :
  match compartments at30m with
  | c :: _ =>
      (heIp (CompartmentM.recalculate c (mkRecord (meters 30) TimeM.zero ean50) 70 1013)
       =? heIp c)%float = true
      /\ (n2Ip (CompartmentM.recalculate c (mkRecord (meters 30) TimeM.zero ean50) 70 1013)
          =? n2Ip c)%float = true
  | [] => False
  end.
Proof.
  destruct (compartments at30m) as [|c cs] eqn:Ec; [discriminate|].
  injection Ec as <- _.
  apply (haldane_update_over_no_time _ (mkRecord (meters 30) TimeM.zero ean50) 70 1013);
    vm_compute; reflexivity.
Defined.

(** 90.5 s of travel advance the clock by 91 s. *)
Lemma recordTravel_advances_clock_by_whole_seconds_witness :
  depth (state descended) = meters 10 /\ gas (state descended) = GasM.air
  /\ exists n,
       time (state descended) = tick n (time (state surfaceModel))
       /\ (counter n <? asSeconds (TimeM.fromSeconds 90.5))%float = false
       /\ forall j, (j < n)%nat ->
            (counter j <? asSeconds (TimeM.fromSeconds 90.5))%float = true.
Proof.
  apply (recordTravel_advances_clock_by_whole_seconds plenty (meters 10)
           (TimeM.fromSeconds 90.5) GasM.air surfaceModel descended).
  vm_compute. reflexivity.
Defined.

(** 25 min on air at 30 m: an inspired ppO2 of 0.83 bar. *)
Lemma record_adds_one_oxygen_exposure_witness :
  oxTox (state at30m) =
  if sim (modelOf cfg3070) then oxTox (state (modelOf cfg3070))
  else OxToxM.addExposure (oxTox (state (modelOf cfg3070)))
         (pp_o2 (GasM.inspiredPartialPressures GasM.air (meters 30)
                   (Config.surfacePressure (configuration (modelOf cfg3070)))))
         (minutes 25).
Proof.
  apply (record_adds_one_oxygen_exposure plenty (meters 30) (minutes 25) GasM.air
           (modelOf cfg3070) at30m).
  vm_compute. reflexivity.
Defined.

(** At the surface with the tissues of 20 min at 40 m: a ceiling of 5.19 m,
    and not in deco. *)
Lemma adaptive_inDeco_is_false_at_surface_witness :
  outcome (call (forkOf surfacedAdaptive) (ceiling plenty)) surfacedAdaptive
  = Ok (meters 5.1917268956071556, forkOf surfacedAdaptive)
  /\ false = false.
Proof.
  split; [vm_compute; reflexivity|].
  apply (adaptive_inDeco_is_false_at_surface plenty surfacedAdaptive false);
    vm_compute; reflexivity.
Defined.

End Dives.
